(** * mern-api: tenant isolation, task lifecycle and membership rules

    A shallow embedding of the request handlers and schema hooks of the
    task-tracking API (models/Task.js, models/Organization.js,
    models/User.js, middleware/tenant.js, routes/tasks.js, routes/auth.js,
    routes/organizations.js and the hourly expiration job), followed by the
    properties proved about them.

    Conventions of the embedding.
    - A collection is the list of its documents, in insertion order;
      [findOne] is the first document that matches a filter.
    - An ObjectId is a number; a date is a number of milliseconds.
    - Handlers are pure functions from the request, the clock and the
      collections they touch to a response and the new collections.  An
      exception caught by a handler's [catch] block is the 500 response
      with the collections as they were before the failing step.
    - The clock is read once for a request: the [new Date()] of a handler
      or hook and the instant the [timestamps] option stamps are the same
      [now].
    - The records of tasks and users hold the paths of their schemas with
      [createdAt] and [updatedAt]; the version key [__v] is not part of
      them, and a body with the key [__v] is outside the model.
    - A response carries the ids of the users it refers to, not the names
      and e-mails [populate] puts in their place; where a handler reads a
      populated path, the lookup [populate] makes is modelled. *)

From Stdlib Require Import ZArith NArith List String Ascii Bool Lia.
From Stdlib Require Import DecimalString DecimalNat Sorted.
Import ListNotations.
Local Open Scope Z_scope.
Local Open Scope string_scope.

Set Implicit Arguments.

(* ------------------------------------------------------------------ *)
(** ** Values shared by the models and the routes                      *)
(* ------------------------------------------------------------------ *)

Definition ObjectId := N.
Definition Date := Z.
Bind Scope N_scope with ObjectId.
Bind Scope Z_scope with Date.

Inductive Role := Admin | Manager | Member.
Inductive Status := Todo | InProgress | Completed | Expired.
Inductive Priority := Low | Medium | High.
Inductive Category := Bug | Feature | Improvement.

Definition Role_eqb (a b : Role) : bool :=
  match a, b with
  | Admin, Admin | Manager, Manager | Member, Member => true
  | _, _ => false
  end.

Definition Status_eqb (a b : Status) : bool :=
  match a, b with
  | Todo, Todo | InProgress, InProgress
  | Completed, Completed | Expired, Expired => true
  | _, _ => false
  end.

Definition Priority_eqb (a b : Priority) : bool :=
  match a, b with
  | Low, Low | Medium, Medium | High, High => true
  | _, _ => false
  end.

Definition Category_eqb (a b : Category) : bool :=
  match a, b with
  | Bug, Bug | Feature, Feature | Improvement, Improvement => true
  | _, _ => false
  end.

(** The strings the schemas use for the enumerated paths. *)
Definition Status_of_string (s : string) : option Status :=
  if s =? "Todo" then Some Todo
  else if s =? "In Progress" then Some InProgress
  else if s =? "Completed" then Some Completed
  else if s =? "Expired" then Some Expired
  else None.

Definition Priority_of_string (s : string) : option Priority :=
  if s =? "Low" then Some Low
  else if s =? "Medium" then Some Medium
  else if s =? "High" then Some High
  else None.

Definition Category_of_string (s : string) : option Category :=
  if s =? "Bug" then Some Bug
  else if s =? "Feature" then Some Feature
  else if s =? "Improvement" then Some Improvement
  else None.

Definition Role_of_string (s : string) : option Role :=
  if s =? "Admin" then Some Admin
  else if s =? "Manager" then Some Manager
  else if s =? "Member" then Some Member
  else None.

Definition isSome {A} (o : option A) : bool :=
  match o with Some _ => true | None => false end.

Definition opt_id_eqb (o : option ObjectId) (i : ObjectId) : bool :=
  match o with Some j => N.eqb j i | None => false end.

(** Equality of two values of a path that may be unset, and of two arrays. *)
Definition option_eqb {A} (eqb : A -> A -> bool) (a b : option A) : bool :=
  match a, b with
  | Some x, Some y => eqb x y
  | None, None => true
  | _, _ => false
  end.

Fixpoint list_eqb {A} (eqb : A -> A -> bool) (a b : list A) : bool :=
  match a, b with
  | [], [] => true
  | x :: a', y :: b' => (eqb x y && list_eqb eqb a' b')%bool
  | _, _ => false
  end.

(** A value of a JSON request body, as the validators and the schema casts
    see it.  The model covers bodies whose values are strings or [null].
    - [JId s i]: the string [s], a 24-digit hexadecimal id denoting [i];
    - [JDate s d]: the string [s], an ISO 8601 date that [Date] reads as
      the instant [d];
    - [JIso s]: the string [s], of an ISO 8601 form that [Date] does not
      read (a week date such as 2020-W01);
    - [JStr s]: any other string (neither an id nor a date);
    - [JNull]: [null].
    The four classes of strings are taken to be disjoint, for the
    validators and for the casts alike. *)
Inductive jvalue :=
| JNull
| JStr (s : string)
| JId (s : string) (i : ObjectId)
| JDate (s : string) (d : Date)
| JIso (s : string).

(** [toString] of express-validator: [null] becomes the empty string. *)
Definition jtext (v : jvalue) : string :=
  match v with
  | JNull => ""
  | JStr s | JId s _ | JDate s _ | JIso s => s
  end.

(** JavaScript truthiness; ids and dates are non-empty strings. *)
Definition truthy (v : jvalue) : bool :=
  match v with
  | JNull => false
  | JStr s => negb (s =? "")
  | JId _ _ | JDate _ _ | JIso _ => true
  end.

Definition isMongoId (v : jvalue) : bool :=
  match v with JId _ _ => true | _ => false end.

Definition isISO8601 (v : jvalue) : bool :=
  match v with JDate _ _ | JIso _ => true | _ => false end.

Definition isIn (allowed : list string) (v : jvalue) : bool :=
  existsb (String.eqb (jtext v)) allowed.

(** [req.body]: the keys in the order [Object.keys] lists them. *)
Definition body := list (string * jvalue).

Fixpoint lookup (k : string) (b : body) : option jvalue :=
  match b with
  | [] => None
  | (k', v) :: b' => if k' =? k then Some v else lookup k b'
  end.

Definition keys (b : body) : list string := map fst b.

(** [.optional()]: a key that is absent ([undefined]) is not validated. *)
Definition optional (k : string) (p : jvalue -> bool) (b : body) : bool :=
  match lookup k b with
  | None => true
  | Some v => p v
  end.

(** [String.prototype.trim] on 8-bit characters. *)
Definition is_space (c : ascii) : bool :=
  match nat_of_ascii c with
  | 9%nat | 10%nat | 11%nat | 12%nat | 13%nat | 32%nat => true
  | _ => false
  end.

Fixpoint ltrim (s : string) : string :=
  match s with
  | String c s' => if is_space c then ltrim s' else s
  | EmptyString => EmptyString
  end.

Fixpoint rtrim (s : string) : string :=
  match s with
  | String c s' =>
      match rtrim s' with
      | EmptyString => if is_space c then EmptyString else String c EmptyString
      | r => String c r
      end
  | EmptyString => EmptyString
  end.

Definition trim (s : string) : string := rtrim (ltrim s).

Definition isLength (lo hi : nat) (s : string) : bool :=
  (Nat.leb lo (String.length s) && Nat.leb (String.length s) hi)%bool.

Definition minLength (lo : nat) (s : string) : bool :=
  Nat.leb lo (String.length s).

(** Responses: the HTTP status and what the JSON body carries. *)
Inductive payload (A : Type) :=
| PMessage (m : string)
| PErrors
| PUnspecified
| PData (a : A).
Arguments PMessage {A} m.
Arguments PErrors {A}.
Arguments PUnspecified {A}.
Arguments PData {A} a.

Record response (A : Type) := Response { code : Z; content : payload A }.
Arguments Response {A} code content.

(** The error taxonomy of the API, read off the status and the body. *)
Inductive ErrorKind :=
| ValidationError
| BadRequestError
| UnauthenticatedError
| ForbiddenError
| NotFoundError
| ServerError.

Definition kind {A} (r : response A) : option ErrorKind :=
  match code r, content r with
  | 400, PErrors => Some ValidationError
  | 400, _ => Some BadRequestError
  | 401, _ => Some UnauthenticatedError
  | 403, _ => Some ForbiddenError
  | 404, _ => Some NotFoundError
  | 500, _ => Some ServerError
  | _, _ => None
  end.

(** [req.user] as the authentication middleware leaves it. *)
Record Actor := {
  actor_id : ObjectId;
  actor_role : Role;
  actor_organization : option ObjectId
}.

(* ------------------------------------------------------------------ *)
(** ** middleware/tenant.js                                            *)
(* ------------------------------------------------------------------ *)

Module Tenant.

(** [tenantIsolation]: the organization the request is bound to, or the
    401 answer when the user has none. *)
Definition tenantIsolation (user : Actor) : option ObjectId :=
  actor_organization user.

Definition organizationRequired {A} : response A :=
  Response 401 (PMessage "Organization context required").

End Tenant.

(* ------------------------------------------------------------------ *)
(** ** middleware/auth.js                                              *)
(* ------------------------------------------------------------------ *)

Module AuthMiddleware.

(** Modelled from the spec: [authorize(...roles)] of middleware/auth.js is
    not among the sources.  Per the authorization table, a role outside
    the listed ones is denied with ForbiddenError (403) before the handler
    runs; the text of the denial is not given. *)
Definition authorize (allowed : list Role) (user : Actor) : bool :=
  existsb (Role_eqb (actor_role user)) allowed.

Definition denied {A} : response A := Response 403 PUnspecified.

End AuthMiddleware.

(* ------------------------------------------------------------------ *)
(** ** models/User.js                                                  *)
(* ------------------------------------------------------------------ *)

Module User.

Record doc := {
  _id : ObjectId;
  name : string;
  email : string;
  password : string;                 (* the stored hash *)
  organization : option ObjectId;
  role : Role;
  isActive : bool;
  lastLogin : option Date;
  inviteToken : option string;
  inviteExpires : option Date;
  createdAt : Date;
  updatedAt : Date
}.

Definition with_lastLogin (d : Date) (u : doc) : doc :=
  {| _id := _id u; name := name u; email := email u; password := password u;
     organization := organization u; role := role u; isActive := isActive u;
     lastLogin := Some d; inviteToken := inviteToken u;
     inviteExpires := inviteExpires u; createdAt := createdAt u;
     updatedAt := updatedAt u |}.

Definition with_organization (o : ObjectId) (u : doc) : doc :=
  {| _id := _id u; name := name u; email := email u; password := password u;
     organization := Some o; role := role u; isActive := isActive u;
     lastLogin := lastLogin u; inviteToken := inviteToken u;
     inviteExpires := inviteExpires u; createdAt := createdAt u;
     updatedAt := updatedAt u |}.

(** [save()] of a loaded document: the stored copy with the same [_id] is
    replaced. *)
Definition replace (u : doc) (users : list doc) : list doc :=
  map (fun v => if N.eqb (_id v) (_id u) then u else v) users.

Definition with_role (r : Role) (u : doc) : doc :=
  {| _id := _id u; name := name u; email := email u; password := password u;
     organization := organization u; role := r; isActive := isActive u;
     lastLogin := lastLogin u; inviteToken := inviteToken u;
     inviteExpires := inviteExpires u; createdAt := createdAt u;
     updatedAt := updatedAt u |}.

Definition with_isActive (a : bool) (u : doc) : doc :=
  {| _id := _id u; name := name u; email := email u; password := password u;
     organization := organization u; role := role u; isActive := a;
     lastLogin := lastLogin u; inviteToken := inviteToken u;
     inviteExpires := inviteExpires u; createdAt := createdAt u;
     updatedAt := updatedAt u |}.

Definition with_updatedAt (d : Date) (u : doc) : doc :=
  {| _id := _id u; name := name u; email := email u; password := password u;
     organization := organization u; role := role u; isActive := isActive u;
     lastLogin := lastLogin u; inviteToken := inviteToken u;
     inviteExpires := inviteExpires u; createdAt := createdAt u;
     updatedAt := d |}.

(** The [timestamps] option of the schema: the [save()] of a loaded
    document stamps [updatedAt] when some path is modified.  [modified] is
    [this.isModified()]. *)
Definition timestamps (modified : bool) (now : Date) (u : doc) : doc :=
  if modified then with_updatedAt now u else u.

(** What [userSchema.methods.toJSON] leaves of a user: the object without
    [password] and [inviteToken]. *)
Record json := {
  j_id : ObjectId;
  j_name : string;
  j_email : string;
  j_organization : option ObjectId;
  j_role : Role;
  j_isActive : bool;
  j_lastLogin : option Date;
  j_inviteExpires : option Date;
  j_createdAt : Date;
  j_updatedAt : Date
}.

Definition toJSON (u : doc) : json :=
  {| j_id := _id u; j_name := name u; j_email := email u;
     j_organization := organization u; j_role := role u;
     j_isActive := isActive u; j_lastLogin := lastLogin u;
     j_inviteExpires := inviteExpires u; j_createdAt := createdAt u;
     j_updatedAt := updatedAt u |}.

End User.

(* ------------------------------------------------------------------ *)
(** ** models/Task.js                                                  *)
(* ------------------------------------------------------------------ *)

Module Task.

Record Comment := {
  c_user : ObjectId;
  c_text : string;
  c_createdAt : Date
}.

Record Attachment := {
  a_filename : string;
  a_originalName : string;
  a_size : Z;
  a_uploadedBy : option ObjectId;
  a_uploadedAt : Date
}.

(** [None] in [comments] and [attachments] is [null]. *)
Record doc := {
  _id : ObjectId;
  title : string;
  description : option string;
  status : Status;
  priority : Priority;
  category : Category;
  dueDate : option Date;
  completedAt : option Date;
  assignedTo : option ObjectId;
  createdBy : ObjectId;
  organization : ObjectId;
  comments : option (list Comment);
  attachments : option (list Attachment);
  createdAt : Date;
  updatedAt : option Date
}.

Definition with_title (x : string) (t : doc) : doc :=
  {| _id := _id t; title := x; description := description t;
     status := status t; priority := priority t; category := category t;
     dueDate := dueDate t; completedAt := completedAt t;
     assignedTo := assignedTo t; createdBy := createdBy t;
     organization := organization t;
     comments := comments t; attachments := attachments t;
     createdAt := createdAt t; updatedAt := updatedAt t |}.

Definition with_description (x : option string) (t : doc) : doc :=
  {| _id := _id t; title := title t; description := x;
     status := status t; priority := priority t; category := category t;
     dueDate := dueDate t; completedAt := completedAt t;
     assignedTo := assignedTo t; createdBy := createdBy t;
     organization := organization t;
     comments := comments t; attachments := attachments t;
     createdAt := createdAt t; updatedAt := updatedAt t |}.

Definition with_status (x : Status) (t : doc) : doc :=
  {| _id := _id t; title := title t; description := description t;
     status := x; priority := priority t; category := category t;
     dueDate := dueDate t; completedAt := completedAt t;
     assignedTo := assignedTo t; createdBy := createdBy t;
     organization := organization t;
     comments := comments t; attachments := attachments t;
     createdAt := createdAt t; updatedAt := updatedAt t |}.

Definition with_priority (x : Priority) (t : doc) : doc :=
  {| _id := _id t; title := title t; description := description t;
     status := status t; priority := x; category := category t;
     dueDate := dueDate t; completedAt := completedAt t;
     assignedTo := assignedTo t; createdBy := createdBy t;
     organization := organization t;
     comments := comments t; attachments := attachments t;
     createdAt := createdAt t; updatedAt := updatedAt t |}.

Definition with_category (x : Category) (t : doc) : doc :=
  {| _id := _id t; title := title t; description := description t;
     status := status t; priority := priority t; category := x;
     dueDate := dueDate t; completedAt := completedAt t;
     assignedTo := assignedTo t; createdBy := createdBy t;
     organization := organization t;
     comments := comments t; attachments := attachments t;
     createdAt := createdAt t; updatedAt := updatedAt t |}.

Definition with_dueDate (x : option Date) (t : doc) : doc :=
  {| _id := _id t; title := title t; description := description t;
     status := status t; priority := priority t; category := category t;
     dueDate := x; completedAt := completedAt t;
     assignedTo := assignedTo t; createdBy := createdBy t;
     organization := organization t;
     comments := comments t; attachments := attachments t;
     createdAt := createdAt t; updatedAt := updatedAt t |}.

Definition with_completedAt (x : option Date) (t : doc) : doc :=
  {| _id := _id t; title := title t; description := description t;
     status := status t; priority := priority t; category := category t;
     dueDate := dueDate t; completedAt := x;
     assignedTo := assignedTo t; createdBy := createdBy t;
     organization := organization t;
     comments := comments t; attachments := attachments t;
     createdAt := createdAt t; updatedAt := updatedAt t |}.

Definition with_assignedTo (x : option ObjectId) (t : doc) : doc :=
  {| _id := _id t; title := title t; description := description t;
     status := status t; priority := priority t; category := category t;
     dueDate := dueDate t; completedAt := completedAt t;
     assignedTo := x; createdBy := createdBy t;
     organization := organization t;
     comments := comments t; attachments := attachments t;
     createdAt := createdAt t; updatedAt := updatedAt t |}.

Definition with_createdBy (x : ObjectId) (t : doc) : doc :=
  {| _id := _id t; title := title t; description := description t;
     status := status t; priority := priority t; category := category t;
     dueDate := dueDate t; completedAt := completedAt t;
     assignedTo := assignedTo t; createdBy := x;
     organization := organization t;
     comments := comments t; attachments := attachments t;
     createdAt := createdAt t; updatedAt := updatedAt t |}.

Definition with_organization (x : ObjectId) (t : doc) : doc :=
  {| _id := _id t; title := title t; description := description t;
     status := status t; priority := priority t; category := category t;
     dueDate := dueDate t; completedAt := completedAt t;
     assignedTo := assignedTo t; createdBy := createdBy t;
     organization := x;
     comments := comments t; attachments := attachments t;
     createdAt := createdAt t; updatedAt := updatedAt t |}.

Definition with_comments (x : option (list Comment)) (t : doc) : doc :=
  {| _id := _id t; title := title t; description := description t;
     status := status t; priority := priority t; category := category t;
     dueDate := dueDate t; completedAt := completedAt t;
     assignedTo := assignedTo t; createdBy := createdBy t;
     organization := organization t;
     comments := x; attachments := attachments t;
     createdAt := createdAt t; updatedAt := updatedAt t |}.

Definition with_attachments (x : option (list Attachment)) (t : doc) : doc :=
  {| _id := _id t; title := title t; description := description t;
     status := status t; priority := priority t; category := category t;
     dueDate := dueDate t; completedAt := completedAt t;
     assignedTo := assignedTo t; createdBy := createdBy t;
     organization := organization t;
     comments := comments t; attachments := x;
     createdAt := createdAt t; updatedAt := updatedAt t |}.

Definition with_id (x : ObjectId) (t : doc) : doc :=
  {| _id := x; title := title t; description := description t;
     status := status t; priority := priority t; category := category t;
     dueDate := dueDate t; completedAt := completedAt t;
     assignedTo := assignedTo t; createdBy := createdBy t;
     organization := organization t;
     comments := comments t; attachments := attachments t;
     createdAt := createdAt t; updatedAt := updatedAt t |}.

Definition with_updatedAt (x : option Date) (t : doc) : doc :=
  {| _id := _id t; title := title t; description := description t;
     status := status t; priority := priority t; category := category t;
     dueDate := dueDate t; completedAt := completedAt t;
     assignedTo := assignedTo t; createdBy := createdBy t;
     organization := organization t;
     comments := comments t; attachments := attachments t;
     createdAt := createdAt t; updatedAt := x |}.

Definition Comment_eqb (a b : Comment) : bool :=
  (N.eqb (c_user a) (c_user b) && (c_text a =? c_text b)
   && Z.eqb (c_createdAt a) (c_createdAt b))%bool.

Definition Attachment_eqb (a b : Attachment) : bool :=
  ((a_filename a =? a_filename b) && (a_originalName a =? a_originalName b)
   && Z.eqb (a_size a) (a_size b)
   && option_eqb N.eqb (a_uploadedBy a) (a_uploadedBy b)
   && Z.eqb (a_uploadedAt a) (a_uploadedAt b))%bool.

(** [this.isModified()] on a loaded document: some path no longer has the
    value that was loaded. *)
Definition isModified (loaded t : doc) : bool :=
  negb (N.eqb (_id loaded) (_id t)
        && (title loaded =? title t)
        && option_eqb String.eqb (description loaded) (description t)
        && Status_eqb (status loaded) (status t)
        && Priority_eqb (priority loaded) (priority t)
        && Category_eqb (category loaded) (category t)
        && option_eqb Z.eqb (dueDate loaded) (dueDate t)
        && option_eqb Z.eqb (completedAt loaded) (completedAt t)
        && option_eqb N.eqb (assignedTo loaded) (assignedTo t)
        && N.eqb (createdBy loaded) (createdBy t)
        && N.eqb (organization loaded) (organization t)
        && option_eqb (list_eqb Comment_eqb) (comments loaded) (comments t)
        && option_eqb (list_eqb Attachment_eqb)
             (attachments loaded) (attachments t)
        && option_eqb Z.eqb (updatedAt loaded) (updatedAt t))%bool.

(** The [timestamps] option of the schema: the [save()] of a loaded
    document stamps [updatedAt] when some path is modified; the hook runs
    before the one below.  [modified] is [this.isModified()]. *)
Definition timestamps (modified : bool) (now : Date) (t : doc) : doc :=
  if modified then with_updatedAt (Some now) t else t.

(** [taskSchema.pre("save")].  [statusModified] is [this.isModified("status")]
    and [now] is the [new Date()] of the hook. *)
Definition preSave (statusModified : bool) (now : Date) (t : doc) : doc :=
  if statusModified then
    if (Status_eqb (status t) Completed && negb (isSome (completedAt t)))%bool
    then with_completedAt (Some now) t
    else if negb (Status_eqb (status t) Completed)
         then with_completedAt None t
         else t
  else t.

(** The pre-save hooks of a loaded document, in the order they run:
    [loaded] is the document as it was read, [t] the document after the
    assignments of the handler. *)
Definition hooks (now : Date) (loaded t : doc) : doc :=
  let t := timestamps (isModified loaded t) now t in
  preSave (negb (Status_eqb (status t) (status loaded))) now t.

(** The casts of the ObjectId and Date paths.  The inner [None] of a date
    is [null], which the empty string is cast to as well. *)
Definition castObjectId (v : jvalue) : option ObjectId :=
  match v with JId _ i => Some i | _ => None end.

Definition castDate (v : jvalue) : option (option Date) :=
  match v with
  | JNull => Some None
  | JDate _ d => Some (Some d)
  | JStr s => if s =? "" then Some None else None
  | JId _ _ | JIso _ => None
  end.

(** Assignment [task[key] = value] to a path of the schema, with the cast of
    the path's type.  [None] is a value the path refuses: the document then
    fails validation and [save()] throws.  A key that is no path of the
    schema is not stored (strict mode), and [createdAt] is immutable.  The
    path [_id] is assigned like any other.  Keys that would shadow a method
    of the document ([save], [populate], ...) and the version key [__v],
    which the record does not hold, are outside the model. *)
Definition set (key : string) (v : jvalue) (t : doc) : option doc :=
  if key =? "title" then
    if jtext v =? "" then None                              (* required *)
    else Some (with_title (jtext v) t)
  else if key =? "description" then
    match v with
    | JNull => Some (with_description None t)
    | _ => Some (with_description (Some (jtext v)) t)
    end
  else if key =? "status" then
    option_map (fun x => with_status x t) (Status_of_string (jtext v))
  else if key =? "priority" then
    option_map (fun x => with_priority x t) (Priority_of_string (jtext v))
  else if key =? "category" then
    option_map (fun x => with_category x t) (Category_of_string (jtext v))
  else if key =? "dueDate" then
    option_map (fun x => with_dueDate x t) (castDate v)
  else if key =? "completedAt" then
    option_map (fun x => with_completedAt x t) (castDate v)
  else if key =? "assignedTo" then
    match v with
    | JNull => Some (with_assignedTo None t)
    | _ => option_map (fun x => with_assignedTo (Some x) t) (castObjectId v)
    end
  else if key =? "createdBy" then
    option_map (fun x => with_createdBy x t) (castObjectId v)    (* required *)
  else if key =? "organization" then
    option_map (fun x => with_organization x t) (castObjectId v) (* required *)
  else if key =? "comments" then
    match v with
    | JNull => Some (with_comments None t)
    | _ => None                          (* a string is no sub-document *)
    end
  else if key =? "attachments" then
    match v with
    | JNull => Some (with_attachments None t)
    | _ => None
    end
  else if key =? "_id" then
    option_map (fun x => with_id x t) (castObjectId v)
  else if key =? "updatedAt" then
    option_map (fun x => with_updatedAt x t) (castDate v)
  else Some t.

(** One path of the update [save()] sends for a loaded document: a path
    that is not modified is not sent, and the stored value stays. *)
Definition pick {A} (eqb : A -> A -> bool) (loaded saved stored : A) : A :=
  if eqb loaded saved then stored else saved.

(** The stored document [stored] after the update
    [updateOne({ _id }, { $set, $unset })] of the paths in which [saved]
    differs from the document [loaded] it was read as. *)
Definition write (loaded saved stored : doc) : doc :=
  {| _id := _id stored;
     title := pick String.eqb (title loaded) (title saved) (title stored);
     description :=
       pick (option_eqb String.eqb)
         (description loaded) (description saved) (description stored);
     status := pick Status_eqb (status loaded) (status saved) (status stored);
     priority :=
       pick Priority_eqb (priority loaded) (priority saved) (priority stored);
     category :=
       pick Category_eqb (category loaded) (category saved) (category stored);
     dueDate :=
       pick (option_eqb Z.eqb) (dueDate loaded) (dueDate saved) (dueDate stored);
     completedAt :=
       pick (option_eqb Z.eqb)
         (completedAt loaded) (completedAt saved) (completedAt stored);
     assignedTo :=
       pick (option_eqb N.eqb)
         (assignedTo loaded) (assignedTo saved) (assignedTo stored);
     createdBy :=
       pick N.eqb (createdBy loaded) (createdBy saved) (createdBy stored);
     organization :=
       pick N.eqb
         (organization loaded) (organization saved) (organization stored);
     comments :=
       pick (option_eqb (list_eqb Comment_eqb))
         (comments loaded) (comments saved) (comments stored);
     attachments :=
       pick (option_eqb (list_eqb Attachment_eqb))
         (attachments loaded) (attachments saved) (attachments stored);
     createdAt := createdAt stored;
     updatedAt :=
       pick (option_eqb Z.eqb)
         (updatedAt loaded) (updatedAt saved) (updatedAt stored) |}.

(** [save()] of a document whose [_id] is the one it was loaded with: the
    stored copy, which is the document loaded, takes the modified paths and
    so becomes the document saved. *)
Definition replace (t : doc) (tasks : list doc) : list doc :=
  map (fun d => if N.eqb (_id d) (_id t) then t else d) tasks.

(** [save()] of the loaded document [loaded], now [saved].  The update is
    addressed by the [_id] the document has when it is saved.  When the
    handler has assigned another id to it, the update goes to the stored
    document of that id, in whatever organization it is, and the save fails
    (DocumentNotFoundError) when there is none. *)
Definition save (loaded saved : doc) (tasks : list doc) : option (list doc) :=
  if N.eqb (_id saved) (_id loaded) then Some (replace saved tasks)
  else if existsb (fun d => N.eqb (_id d) (_id saved)) tasks
  then Some (map (fun d => if N.eqb (_id d) (_id saved)
                           then write loaded saved d else d) tasks)
  else None.

End Task.

(* ------------------------------------------------------------------ *)
(** ** routes/tasks.js                                                 *)
(* ------------------------------------------------------------------ *)

Module TaskRoutes.

Import Task.

(** A query-string parameter read as a number: a decimal integer or not. *)
Inductive qnum := QInt (n : Z) | QNotInt.

Record Query := {
  q_page : option qnum;
  q_limit : option qnum;
  q_status : option string;
  q_priority : option string;
  q_category : option string;
  q_assignedTo : option jvalue
}.

Record Pagination := { page : Z; limit : Z; total : Z; pages : Z }.

Record Stats := {
  s_total : Z; s_todo : Z; s_inProgress : Z;
  s_completed : Z; s_expired : Z; s_overdue : Z
}.

Inductive data :=
| DTask (t : doc)
| DList (tasks : list doc) (pagination : Pagination)
| DStats (s : Stats).

Definition validationFailed : response data := Response 400 PErrors.
Definition taskNotFound : response data :=
  Response 404 (PMessage "Task not found").
Definition accessDenied : response data :=
  Response 403 (PMessage "Access denied").
Definition membersOnlyStatus : response data :=
  Response 403 (PMessage "Members can only update task status").
Definition invalidAssignedUser : response data :=
  Response 400 (PMessage "Invalid assigned user").
Definition serverError : response data :=
  Response 500 (PMessage "Server error").

Definition Status_to_string (s : Status) : string :=
  match s with
  | Todo => "Todo" | InProgress => "In Progress"
  | Completed => "Completed" | Expired => "Expired"
  end.

Definition Priority_to_string (p : Priority) : string :=
  match p with Low => "Low" | Medium => "Medium" | High => "High" end.

Definition Category_to_string (c : Category) : string :=
  match c with
  | Bug => "Bug" | Feature => "Feature" | Improvement => "Improvement"
  end.

(** The filter object handed to [find], [countDocuments] and [$match]:
    the conditions are conjoined; [f_or u] is
    [$or: [{assignedTo: u}, {createdBy: u}]]. *)
Record Filter := {
  f_organization : ObjectId;
  f_status : option string;
  f_priority : option string;
  f_category : option string;
  f_assignedTo : option ObjectId;
  f_or : option ObjectId
}.

Definition opt_cond {A} (c : option A) (p : A -> bool) : bool :=
  match c with None => true | Some a => p a end.

Definition matches (f : Filter) (t : doc) : bool :=
  (N.eqb (organization t) (f_organization f)
   && opt_cond (f_status f) (String.eqb (Status_to_string (status t)))
   && opt_cond (f_priority f) (String.eqb (Priority_to_string (priority t)))
   && opt_cond (f_category f) (String.eqb (Category_to_string (category t)))
   && opt_cond (f_assignedTo f) (opt_id_eqb (assignedTo t))
   && opt_cond (f_or f)
        (fun u => opt_id_eqb (assignedTo t) u || N.eqb (createdBy t) u))%bool.

(** [.sort({ createdAt: -1 })]: newest first.  Among tasks of one creation
    date the store promises no order; the one taken here is one it may
    give. *)
Fixpoint insertDesc (t : doc) (l : list doc) : list doc :=
  match l with
  | [] => [t]
  | x :: l' =>
      if Z.ltb (createdAt x) (createdAt t) then t :: l else x :: insertDesc t l'
  end.

Fixpoint sortDesc (l : list doc) : list doc :=
  match l with
  | [] => []
  | x :: l' => insertDesc x (sortDesc l')
  end.

Definition truthyString (o : option string) : option string :=
  match o with
  | Some s => if s =? "" then None else Some s
  | None => None
  end.

(** [Number.parseInt(x) || dflt]. *)
Definition parseIntOr (o : option qnum) (dflt : Z) : Z :=
  match o with
  | Some (QInt n) => if Z.eqb n 0 then dflt else n
  | _ => dflt
  end.

Definition isInt (lo : Z) (hi : option Z) (q : qnum) : bool :=
  match q with
  | QInt n => (Z.leb lo n && opt_cond hi (fun h => Z.leb n h))%bool
  | QNotInt => false
  end.

Definition validQuery (q : Query) : bool :=
  (opt_cond (q_page q) (isInt 1 None)
   && opt_cond (q_limit q) (isInt 1 (Some 100))
   && opt_cond (q_status q)
        (fun s => isIn ["Todo"; "In Progress"; "Completed"; "Expired"] (JStr s))
   && opt_cond (q_priority q) (fun s => isIn ["Low"; "Medium"; "High"] (JStr s))
   && opt_cond (q_category q)
        (fun s => isIn ["Bug"; "Feature"; "Improvement"] (JStr s))
   && opt_cond (q_assignedTo q) isMongoId)%bool.

(** The filter built by [GET /]. *)
Definition listFilter (organizationId : ObjectId) (user : Actor) (q : Query)
  : Filter :=
  {| f_organization := organizationId;
     f_status := truthyString (q_status q);
     f_priority := truthyString (q_priority q);
     f_category := truthyString (q_category q);
     f_assignedTo :=
       match q_assignedTo q with
       | Some v => if truthy v then castObjectId v else None
       | None => None
       end;
     f_or := if Role_eqb (actor_role user) Member
             then Some (actor_id user) else None |}.

Definition ceilDiv (a b : Z) : Z := (a + b - 1) / b.

(** [GET /]: tasks with filtering and pagination. *)
Definition getTasks (tasks : list doc) (user : Actor) (q : Query)
  : response data :=
  match Tenant.tenantIsolation user with
  | None => Tenant.organizationRequired
  | Some organizationId =>
      if negb (validQuery q) then validationFailed
      else
        let page := parseIntOr (q_page q) 1 in
        let limit := parseIntOr (q_limit q) 10 in
        let skip := (page - 1) * limit in
        let filter := listFilter organizationId user q in
        let found :=
          firstn (Z.to_nat limit)
            (skipn (Z.to_nat skip) (sortDesc (List.filter (matches filter) tasks))) in
        let total := Z.of_nat (List.length (List.filter (matches filter) tasks)) in
        Response 200
          (PData (DList found
                    {| page := page; limit := limit; total := total;
                       pages := ceilDiv total limit |}))
  end.

(** The filter of the by-id routes: [{ _id, organization }]. *)
Definition byId (id organizationId : ObjectId) (t : doc) : bool :=
  (N.eqb (_id t) id && N.eqb (organization t) organizationId)%bool.

(** [.populate(path, "name email")]: the user a reference names, [null]
    when no user has that id. *)
Definition populate (users : list User.doc) (i : ObjectId) : option User.doc :=
  find (fun u => N.eqb (User._id u) i) users.

(** [doc?.equals(id)] and [doc.equals(id)] on a populated path. *)
Definition equals (u : User.doc) (i : ObjectId) : bool := N.eqb (User._id u) i.

(** [GET /:id].  [id] is [None] when the path segment is no ObjectId: the
    query then throws and the handler answers 500.  So does the test of a
    Member's access when it reaches [task.createdBy.equals] and the creator
    is [null]. *)
Definition getTask (users : list User.doc) (tasks : list doc) (user : Actor)
  (id : option ObjectId) : response data :=
  match Tenant.tenantIsolation user with
  | None => Tenant.organizationRequired
  | Some organizationId =>
      match id with
      | None => serverError
      | Some id =>
          match find (byId id organizationId) tasks with
          | None => taskNotFound
          | Some task =>
              let assignedTo :=
                match assignedTo task with
                | Some i => populate users i
                | None => None
                end in
              let createdBy := populate users (createdBy task) in
              if Role_eqb (actor_role user) Member then
                if match assignedTo with
                   | Some u => equals u (actor_id user)
                   | None => false
                   end
                then Response 200 (PData (DTask task))
                else
                  match createdBy with
                  | None => serverError
                  | Some u =>
                      if equals u (actor_id user)
                      then Response 200 (PData (DTask task))
                      else accessDenied
                  end
              else Response 200 (PData (DTask task))
          end
      end
  end.

(** A validator chain that is not [.optional()]: an absent key is checked
    as the empty string. *)
Definition required (k : string) (p : jvalue -> bool) (b : body) : bool :=
  match lookup k b with
  | None => p JNull
  | Some v => p v
  end.

Definition titleOk (v : jvalue) : bool := isLength 1 200 (trim (jtext v)).
Definition descriptionOk (v : jvalue) : bool := isLength 0 2000 (jtext v).

(** The [.trim()] sanitizer writes the trimmed title back into the body. *)
Definition sanitize (b : body) : body :=
  map (fun kv => if fst kv =? "title"
                 then (fst kv, JStr (trim (jtext (snd kv)))) else kv) b.

(** [User.findOne({ _id, organization, isActive: true })]. *)
Definition activeMember (users : list User.doc) (organizationId : ObjectId)
  (i : ObjectId) : option User.doc :=
  find (fun u => (N.eqb (User._id u) i
                  && opt_id_eqb (User.organization u) organizationId
                  && User.isActive u)%bool) users.

(** [new Date(value)]: [None] is an invalid date, which the path refuses. *)
Definition newDate (v : jvalue) : option Date :=
  match v with JDate _ d => Some d | _ => None end.

Definition validCreate (b : body) : bool :=
  (required "title" titleOk b
   && optional "description" descriptionOk b
   && required "category" (isIn ["Bug"; "Feature"; "Improvement"]) b
   && optional "priority" (isIn ["Low"; "Medium"; "High"]) b
   && optional "dueDate" isISO8601 b
   && optional "assignedTo" isMongoId b)%bool.

(** Steps of [new Task({...})]: a path given [undefined] keeps its default,
    a required path left [undefined] fails validation, and [None] is also a
    value that its path refuses. *)
Definition bind {A B} (o : option A) (f : A -> option B) : option B :=
  match o with Some a => f a | None => None end.

Definition setPath (k : string) (o : option jvalue) (t : doc) : option doc :=
  match o with Some v => set k v t | None => Some t end.

Definition requirePath (k : string) (o : option jvalue) (t : doc)
  : option doc :=
  match o with Some v => set k v t | None => None end.

(** [x || undefined] *)
Definition orUndefined (o : option jvalue) : option jvalue :=
  match o with
  | Some v => if truthy v then Some v else None
  | None => None
  end.

(** [x || "Medium"] *)
Definition orDefault (o : option jvalue) (d : string) : option jvalue :=
  match orUndefined o with Some v => Some v | None => Some (JStr d) end.

(** [dueDate ? new Date(dueDate) : undefined] *)
Definition setDueDate (o : option jvalue) (t : doc) : option doc :=
  match orUndefined o with
  | Some v => option_map (fun d => with_dueDate (Some d) t) (newDate v)
  | None => Some t
  end.

(** The document [new Task({...})] of [POST /], with the schema defaults. *)
Definition newTask (newId : ObjectId) (now : Date) (organizationId : ObjectId)
  (user : Actor) (b : body) : option doc :=
  let blank :=
    {| _id := newId; title := ""; description := None; status := Todo;
       priority := Medium; category := Bug; dueDate := None;
       completedAt := None; assignedTo := None;
       createdBy := actor_id user; organization := organizationId;
       comments := Some []; attachments := Some [];
       createdAt := now; updatedAt := Some now |} in
  bind (requirePath "title" (lookup "title" b) blank) (fun t =>
  bind (setPath "description" (lookup "description" b) t) (fun t =>
  bind (requirePath "category" (lookup "category" b) t) (fun t =>
  bind (setPath "priority" (orDefault (lookup "priority" b) "Medium") t) (fun t =>
  bind (setDueDate (lookup "dueDate" b) t) (fun t =>
  setPath "assignedTo" (orUndefined (lookup "assignedTo" b)) t))))).

(** [POST /]: create a task. *)
Definition createTask (newId : ObjectId) (now : Date)
  (users : list User.doc) (tasks : list doc) (user : Actor) (b : body)
  : response data * list doc :=
  match Tenant.tenantIsolation user with
  | None => (Tenant.organizationRequired, tasks)
  | Some organizationId =>
      if negb (AuthMiddleware.authorize [Admin; Manager] user)
      then (AuthMiddleware.denied, tasks)
      else if negb (validCreate b) then (validationFailed, tasks)
      else
        let b := sanitize b in
        let assignedOk :=
          match lookup "assignedTo" b with
          | Some v =>
              if truthy v
              then match castObjectId v with
                   | Some i => Some (isSome (activeMember users organizationId i))
                   | None => None
                   end
              else Some true
          | None => Some true
          end in
        match assignedOk with
        | None => (serverError, tasks)
        | Some false => (invalidAssignedUser, tasks)
        | Some true =>
            match newTask newId now organizationId user b with
            | None => (serverError, tasks)
            | Some task =>
                let task := preSave false now task in
                (Response 201 (PData (DTask task)), (tasks ++ [task])%list)
            end
        end
  end.

Definition validUpdate (b : body) : bool :=
  (optional "title" titleOk b
   && optional "description" descriptionOk b
   && optional "status" (isIn ["Todo"; "In Progress"; "Completed"]) b
   && optional "priority" (isIn ["Low"; "Medium"; "High"]) b
   && optional "category" (isIn ["Bug"; "Feature"; "Improvement"]) b
   && optional "dueDate" isISO8601 b
   && optional "assignedTo" isMongoId b)%bool.

(** One round of the field-copy loop: [task[key] = new Date(value)] for a
    truthy [dueDate], [task[key] = value] otherwise. *)
Definition assign (key : string) (v : jvalue) (task : doc) : option doc :=
  if ((key =? "dueDate") && truthy v)%bool
  then option_map (fun d => with_dueDate (Some d) task) (newDate v)
  else set key v task.

(** The field-copy loop [Object.keys(req.body).forEach(...)]. *)
Fixpoint copyFields (ks : list string) (b : body) (task : doc) : option doc :=
  match ks with
  | [] => Some task
  | key :: ks' =>
      match lookup key b with
      | None => copyFields ks' b task
      | Some v =>
          match assign key v task with
          | None => None
          | Some task' => copyFields ks' b task'
          end
      end
  end.

Definition hasInvalidFields (b : body) : bool :=
  existsb (fun field => negb (existsb (String.eqb field) ["status"])) (keys b).

(** [PUT /:id]: update a task. *)
Definition updateTask (now : Date) (users : list User.doc) (tasks : list doc)
  (user : Actor) (id : option ObjectId) (b : body)
  : response data * list doc :=
  match Tenant.tenantIsolation user with
  | None => (Tenant.organizationRequired, tasks)
  | Some organizationId =>
      if negb (validUpdate b) then (validationFailed, tasks)
      else
        let b := sanitize b in
        match id with
        | None => (serverError, tasks)
        | Some id =>
            match find (byId id organizationId) tasks with
            | None => (taskNotFound, tasks)
            | Some task =>
                if (Role_eqb (actor_role user) Member
                    && negb (opt_id_eqb (assignedTo task) (actor_id user)))%bool
                then (accessDenied, tasks)
                else if (Role_eqb (actor_role user) Member
                         && hasInvalidFields b)%bool
                then (membersOnlyStatus, tasks)
                else
                  let assignedOk :=
                    match lookup "assignedTo" b with
                    | Some v =>
                        if truthy v
                        then match castObjectId v with
                             | Some i =>
                                 Some (isSome (activeMember users organizationId i))
                             | None => None
                             end
                        else Some true
                    | None => Some true
                    end in
                  match assignedOk with
                  | None => (serverError, tasks)
                  | Some false => (invalidAssignedUser, tasks)
                  | Some true =>
                      match copyFields (keys b) b task with
                      | None => (serverError, tasks)
                      | Some task' =>
                          let task' := hooks now task task' in
                          match save task task' tasks with
                          | None => (serverError, tasks)
                          | Some tasks' =>
                              (Response 200 (PData (DTask task')), tasks')
                          end
                      end
                  end
            end
        end
  end.

(** [findOneAndDelete]: the first match is removed. *)
Fixpoint deleteFirst (p : doc -> bool) (tasks : list doc) : list doc :=
  match tasks with
  | [] => []
  | t :: tasks' => if p t then tasks' else t :: deleteFirst p tasks'
  end.

(** [DELETE /:id]. *)
Definition deleteTask (tasks : list doc) (user : Actor) (id : option ObjectId)
  : response data * list doc :=
  match Tenant.tenantIsolation user with
  | None => (Tenant.organizationRequired, tasks)
  | Some organizationId =>
      if negb (AuthMiddleware.authorize [Admin; Manager] user)
      then (AuthMiddleware.denied, tasks)
      else
        match id with
        | None => (serverError, tasks)
        | Some id =>
            match find (byId id organizationId) tasks with
            | None => (taskNotFound, tasks)
            | Some _ =>
                (Response 200 (PMessage "Task deleted successfully"),
                 deleteFirst (byId id organizationId) tasks)
            end
        end
  end.

(** The [$group] stage of [GET /stats/overview] over the matched tasks. *)
Definition countIf (p : doc -> bool) (l : list doc) : Z :=
  Z.of_nat (List.length (List.filter p l)).

(** The condition of the [overdue] counter.  In the comparison order of
    the aggregation a missing [dueDate] is less than any date and is not
    equal to [null], so a task without due date satisfies the last two
    conditions. *)
Definition overdue (now : Date) (t : doc) : bool :=
  (negb (Status_eqb (status t) Completed)
   && negb (Status_eqb (status t) Expired)
   && match dueDate t with Some d => Z.ltb d now | None => true end)%bool.

Definition group (now : Date) (l : list doc) : Stats :=
  {| s_total := Z.of_nat (List.length l);
     s_todo := countIf (fun t => Status_eqb (status t) Todo) l;
     s_inProgress := countIf (fun t => Status_eqb (status t) InProgress) l;
     s_completed := countIf (fun t => Status_eqb (status t) Completed) l;
     s_expired := countIf (fun t => Status_eqb (status t) Expired) l;
     s_overdue := countIf (overdue now) l |}.

Definition statsFilter (organizationId : ObjectId) (user : Actor) : Filter :=
  {| f_organization := organizationId;
     f_status := None; f_priority := None; f_category := None;
     f_assignedTo := None;
     f_or := if Role_eqb (actor_role user) Member
             then Some (actor_id user) else None |}.

(** [GET /stats/overview]. *)
Definition getStats (now : Date) (tasks : list doc) (user : Actor)
  : response data :=
  match Tenant.tenantIsolation user with
  | None => Tenant.organizationRequired
  | Some organizationId =>
      Response 200
        (PData (DStats
                  (group now
                     (List.filter (matches (statsFilter organizationId user))
                        tasks))))
  end.

End TaskRoutes.

(* ------------------------------------------------------------------ *)
(** ** The hourly expiration job                                       *)
(* ------------------------------------------------------------------ *)

Module ExpirationJob.

Import Task.

(** The filter of the bulk update:
    [{ dueDate: { $lt: now }, status: { $nin: ["Completed", "Expired"] } }].
    A task without a due date does not satisfy [$lt]. *)
Definition isOverdue (now : Date) (t : doc) : bool :=
  (match dueDate t with Some d => Z.ltb d now | None => false end
   && negb (existsb (Status_eqb (status t)) [Completed; Expired]))%bool.

(** [Task.updateMany(filter, { $set: { status: "Expired" } })]: the new
    collection and [modifiedCount].  With the [timestamps] option of the
    schema the update also sets [updatedAt] on the tasks it matches. *)
Definition expire (now : Date) (t : doc) : doc :=
  with_updatedAt (Some now) (with_status Expired t).

Definition updateMany (now : Date) (tasks : list doc) : list doc * Z :=
  (map (fun t => if isOverdue now t then expire now t else t) tasks,
   Z.of_nat (List.length (List.filter (isOverdue now) tasks))).

(** One tick of [taskExpirationJob]. *)
Definition taskExpirationJob (now : Date) (tasks : list doc) : list doc :=
  fst (updateMany now tasks).

Definition modifiedCount (now : Date) (tasks : list doc) : Z :=
  snd (updateMany now tasks).

End ExpirationJob.

(* ------------------------------------------------------------------ *)
(** ** models/Organization.js                                          *)
(* ------------------------------------------------------------------ *)

Module Organization.

(** The [settings] sub-document and [updatedAt], which no hook or route of
    the model reads, are left out. *)
Record doc := {
  _id : ObjectId;
  name : string;
  slug : string;
  description : option string;
  isActive : bool;
  createdBy : ObjectId;
  createdAt : Date
}.

Definition with_slug (x : string) (o : doc) : doc :=
  {| _id := _id o; name := name o; slug := x; description := description o;
     isActive := isActive o; createdBy := createdBy o;
     createdAt := createdAt o |}.

Definition with_name (x : string) (o : doc) : doc :=
  {| _id := _id o; name := x; slug := slug o; description := description o;
     isActive := isActive o; createdBy := createdBy o;
     createdAt := createdAt o |}.

Definition with_description (x : option string) (o : doc) : doc :=
  {| _id := _id o; name := name o; slug := slug o; description := x;
     isActive := isActive o; createdBy := createdBy o;
     createdAt := createdAt o |}.

(** [toLowerCase] on 8-bit characters. *)
Definition lower (c : ascii) : ascii :=
  let n := nat_of_ascii c in
  if (Nat.leb 65 n && Nat.leb n 90)%bool then ascii_of_nat (n + 32) else c.

Fixpoint toLowerCase (s : string) : string :=
  match s with
  | EmptyString => EmptyString
  | String c s' => String (lower c) (toLowerCase s')
  end.

Definition is_lower_alnum (c : ascii) : bool :=
  let n := nat_of_ascii c in
  ((Nat.leb 97 n && Nat.leb n 122) || (Nat.leb 48 n && Nat.leb n 57))%bool.

(** [.replace(/[^a-z0-9]/g, "-")] *)
Fixpoint dashOthers (s : string) : string :=
  match s with
  | EmptyString => EmptyString
  | String c s' =>
      String (if is_lower_alnum c then c else "-"%char) (dashOthers s')
  end.

(** [.replace(/-+/g, "-")] *)
Fixpoint squeezeDashes (s : string) : string :=
  match s with
  | EmptyString => EmptyString
  | String c s' =>
      match s' with
      | String c' _ =>
          if (Ascii.eqb c "-" && Ascii.eqb c' "-")%bool
          then squeezeDashes s'
          else String c (squeezeDashes s')
      | EmptyString => String c EmptyString
      end
  end.

(** [.replace(/^-|-$/g, "")] *)
Definition dropLeadingDash (s : string) : string :=
  match s with
  | String c s' => if Ascii.eqb c "-" then s' else s
  | EmptyString => EmptyString
  end.

Fixpoint dropTrailingDash (s : string) : string :=
  match s with
  | EmptyString => EmptyString
  | String c EmptyString => if Ascii.eqb c "-" then EmptyString else s
  | String c s' => String c (dropTrailingDash s')
  end.

Definition baseSlugOf (name : string) : string :=
  dropTrailingDash
    (dropLeadingDash (squeezeDashes (dashOthers (toLowerCase name)))).

(** The text of a counter inside a template literal. *)
Definition decimal (n : nat) : string :=
  NilEmpty.string_of_uint (Nat.to_uint n).

Definition suffixed (baseSlug : string) (count : nat) : string :=
  baseSlug ++ "-" ++ decimal count.

(** [Organization.findOne({ slug, _id: { $ne: this._id } })] is not null. *)
Definition taken (orgs : list doc) (self : ObjectId) (s : string) : bool :=
  existsb (fun o => (slug o =? s) && negb (N.eqb (_id o) self))%bool orgs.

(** The [while] loop of the hook; [slug] and [count] are its two variables.
    [fuel] bounds the number of tests of the loop condition. *)
Fixpoint freeSlug (fuel : nat) (orgs : list doc) (self : ObjectId)
  (baseSlug slug : string) (count : nat) : option string :=
  match fuel with
  | O => None
  | S fuel' =>
      if taken orgs self slug
      then freeSlug fuel' orgs self baseSlug (suffixed baseSlug count) (S count)
      else Some slug
  end.

(** [organizationSchema.pre("save")].  [nameModified] is
    [this.isModified("name")]; [orgs] is the collection the hook queries.
    At most [length orgs] slugs can be taken, so [S (length orgs)] tests of
    the loop condition are enough for the loop to end (see
    [preSave_returns]). *)
Definition preSave (nameModified : bool) (orgs : list doc) (this : doc)
  : option doc :=
  if nameModified then
    let baseSlug := baseSlugOf (name this) in
    match freeSlug (S (List.length orgs)) orgs (_id this) baseSlug baseSlug 1 with
    | Some slug => Some (with_slug slug this)
    | None => None
    end
  else Some this.

(** [save()] of a new document and of a loaded one. *)
Definition insert (o : doc) (orgs : list doc) : list doc := (orgs ++ [o])%list.

Definition replace (o : doc) (orgs : list doc) : list doc :=
  map (fun d => if N.eqb (_id d) (_id o) then o else d) orgs.

End Organization.

(* ------------------------------------------------------------------ *)
(** ** routes/auth.js                                                  *)
(* ------------------------------------------------------------------ *)

Module AuthRoutes.

(** What a successful register, login or join sends back. *)
Record Session := {
  token : string;
  user_id : ObjectId;
  user_name : string;
  user_email : string;
  user_role : Role;
  organization_id : ObjectId;
  organization_name : string;
  organization_slug : string
}.

Definition validationFailed : response Session := Response 400 PErrors.
Definition userExists : response Session :=
  Response 400 (PMessage "User already exists").
Definition invalidCredentials : response Session :=
  Response 400 (PMessage "Invalid credentials").
Definition invalidInvite : response Session :=
  Response 400 (PMessage "Invalid or expired invite token").
Definition registrationError : response Session :=
  Response 500 (PMessage "Server error during registration").
Definition loginError : response Session :=
  Response 500 (PMessage "Server error during login").

(** A body field of these routes: a string, or absent. *)
Definition text (o : option string) : string :=
  match o with Some s => s | None => "" end.

Definition is_word (c : ascii) : bool :=
  let n := nat_of_ascii c in
  ((Nat.leb 97 n && Nat.leb n 122) || (Nat.leb 65 n && Nat.leb n 90)
   || (Nat.leb 48 n && Nat.leb n 57) || Nat.eqb n 95)%bool.

(** [.replace(/\s+/g, "-")] *)
Fixpoint spacesToDash (s : string) : string :=
  match s with
  | EmptyString => EmptyString
  | String c s' =>
      if is_space c
      then match s' with
           | String c' _ =>
               if is_space c' then spacesToDash s'
               else String "-" (spacesToDash s')
           | EmptyString => String "-" EmptyString
           end
      else String c (spacesToDash s')
  end.

(** [.replace(/[^\w\-]+/g, "")] *)
Fixpoint keepWord (s : string) : string :=
  match s with
  | EmptyString => EmptyString
  | String c s' =>
      if (is_word c || Ascii.eqb c "-")%bool
      then String c (keepWord s') else keepWord s'
  end.

(** The helper [generateSlug] of the route file. *)
Definition generateSlug (t : string) : string :=
  Organization.squeezeDashes
    (keepWord (spacesToDash (trim (Organization.toLowerCase t)))).

(** The setters of the [email] path ([lowercase], [trim]); they run on the
    stored value and on the value of a query filter alike. *)
Definition emailSetter (s : string) : string :=
  Organization.toLowerCase (trim s).

Definition findByEmail (users : list User.doc) (e : string) : option User.doc :=
  find (fun u => User.email u =? emailSetter e) users.

Definition findOrganization (orgs : list Organization.doc)
  (o : option ObjectId) : option Organization.doc :=
  match o with
  | Some i => find (fun d => N.eqb (Organization._id d) i) orgs
  | None => None
  end.

Section Collaborators.

(** The libraries the routes call: the e-mail validator and sanitizer of
    express-validator, bcrypt, and the signing of session tokens. *)
Variable isEmail : string -> bool.
Variable normalizeEmail : string -> string.
Variable bcryptHash : string -> string.
Variable bcryptCompare : string -> string -> bool.
Variable jwtSign : ObjectId -> string.

Definition session (u : User.doc) (o : Organization.doc) : Session :=
  {| token := jwtSign (User._id u);
     user_id := User._id u; user_name := User.name u;
     user_email := User.email u; user_role := User.role u;
     organization_id := Organization._id o;
     organization_name := Organization.name o;
     organization_slug := Organization.slug o |}.

(** [userSchema.methods.comparePassword].  [bcrypt.compare] rejects a
    candidate that is no string ([null], which stands for every such
    value): [None] is that rejection. *)
Definition comparePassword (u : User.doc) (candidatePassword : jvalue)
  : option bool :=
  match candidatePassword with
  | JNull => None
  | v => Some (bcryptCompare (jtext v) (User.password u))
  end.

(** [new User({...})] followed by the hashing hook of the first save; later
    saves leave the password as it is, since it is not modified. *)
Definition newUser (newId : ObjectId) (now : Date) (name email password : string)
  (organization : option ObjectId) (role : Role) : User.doc :=
  {| User._id := newId; User.name := trim name;
     User.email := emailSetter email;
     User.password := bcryptHash password;
     User.organization := organization; User.role := role;
     User.isActive := true; User.lastLogin := None;
     User.inviteToken := None; User.inviteExpires := None;
     User.createdAt := now; User.updatedAt := now |}.

(** [POST /register]. *)
Definition register (newUserId newOrgId : ObjectId) (now : Date)
  (users : list User.doc) (orgs : list Organization.doc)
  (name email password organizationName : option string)
  : response Session * list User.doc * list Organization.doc :=
  if negb (isLength 2 100 (trim (text name))
           && isEmail (text email)
           && minLength 6 (text password)
           && isLength 2 100 (trim (text organizationName)))%bool
  then (validationFailed, users, orgs)
  else
    let name := trim (text name) in
    let email := normalizeEmail (text email) in
    let organizationName := trim (text organizationName) in
    match findByEmail users email with
    | Some _ => (userExists, users, orgs)
    | None =>
        (* 1. the user, without organization yet *)
        let user := newUser newUserId now name email (text password) None Admin in
        let users := (users ++ [user])%list in
        (* 2. the organization; [slug] is a required path *)
        let organization :=
          {| Organization._id := newOrgId;
             Organization.name := trim organizationName;
             Organization.slug := generateSlug organizationName;
             Organization.description := None;
             Organization.isActive := true;
             Organization.createdBy := User._id user;
             Organization.createdAt := now |} in
        if Organization.slug organization =? ""
        then (registrationError, users, orgs)
        else
          match Organization.preSave true orgs organization with
          | None => (registrationError, users, orgs)
          | Some organization =>
              let orgs := Organization.insert organization orgs in
              (* 3. the user, with the organization id *)
              let user :=
                User.timestamps true now
                  (User.with_organization (Organization._id organization)
                     user) in
              let users := User.replace user users in
              (Response 201 (PData (session user organization)), users, orgs)
          end
    end.

(** [user.lastLogin = new Date()] followed by [save()]: the path is
    modified unless it already holds that instant. *)
Definition stampLogin (now : Date) (user : User.doc) : User.doc :=
  User.timestamps (negb (option_eqb Z.eqb (User.lastLogin user) (Some now))) now
    (User.with_lastLogin now user).

(** [POST /login].  The password of the body is any value of JSON:
    [.exists()] only asks for the key. *)
Definition login (now : Date) (users : list User.doc)
  (orgs : list Organization.doc) (email : option string)
  (password : option jvalue)
  : response Session * list User.doc :=
  if negb (isEmail (text email) && isSome password)%bool
  then (validationFailed, users)
  else
    let email := normalizeEmail (text email) in
    match find (fun u => (User.email u =? emailSetter email)
                         && User.isActive u)%bool users with
    | None => (invalidCredentials, users)
    | Some user =>
        match match password with
              | Some password => comparePassword user password
              | None => None
              end with
        | None => (loginError, users)
        | Some false => (invalidCredentials, users)
        | Some true =>
            let user := stampLogin now user in
            let users := User.replace user users in
            match findOrganization orgs (User.organization user) with
            | None => (loginError, users)
            | Some organization =>
                (Response 200 (PData (session user organization)), users)
            end
        end
    end.

(** [User.findOne({ inviteToken, inviteExpires: { $gt: Date.now() } })]. *)
Definition pendingInvite (now : Date) (inviteToken : string) (u : User.doc)
  : bool :=
  (match User.inviteToken u with Some t => t =? inviteToken | None => false end
   && match User.inviteExpires u with
      | Some e => Z.ltb now e
      | None => false
      end)%bool.

(** [POST /join]. *)
Definition join (newId : ObjectId) (now : Date) (users : list User.doc)
  (orgs : list Organization.doc)
  (name email password inviteToken : option string)
  : response Session * list User.doc :=
  if negb (isLength 2 100 (trim (text name))
           && isEmail (text email)
           && minLength 6 (text password)
           && isSome inviteToken)%bool
  then (validationFailed, users)
  else
    let name := trim (text name) in
    let email := normalizeEmail (text email) in
    match find (pendingInvite now (text inviteToken)) users with
    | None => (invalidInvite, users)
    | Some existingUser =>
        match findByEmail users email with
        | Some _ => (userExists, users)
        | None =>
            match findOrganization orgs (User.organization existingUser) with
            | None => (registrationError, users)
            | Some organization =>
                let user :=
                  newUser newId now name email (text password)
                    (Some (Organization._id organization)) Member in
                (Response 201 (PData (session user organization)),
                 (users ++ [user])%list)
            end
        end
    end.

End Collaborators.

End AuthRoutes.

(* ------------------------------------------------------------------ *)
(** ** routes/organizations.js                                         *)
(* ------------------------------------------------------------------ *)

Module OrganizationRoutes.

Definition validationFailed : response Organization.doc := Response 400 PErrors.
Definition organizationNotFound : response Organization.doc :=
  Response 404 (PMessage "Organization not found").
Definition serverError : response Organization.doc :=
  Response 500 (PMessage "Server error").

(** [if (req.body.name) organization.name = req.body.name], the name
    being the one the [.trim()] sanitizer left in the body. *)
Definition rename (o : option jvalue) (organization : Organization.doc)
  : Organization.doc :=
  match o with
  | Some v =>
      if truthy (JStr (trim (jtext v)))
      then Organization.with_name (trim (jtext v)) organization
      else organization
  | None => organization
  end.

(** [if (req.body.description !== undefined) organization.description = ...] *)
Definition describe (o : option jvalue) (organization : Organization.doc)
  : Organization.doc :=
  match o with
  | Some JNull => Organization.with_description None organization
  | Some v => Organization.with_description (Some (jtext v)) organization
  | None => organization
  end.

(** [PUT /settings], for a body with the keys [name] and [description];
    the [settings] object of the body is not modelled. *)
Definition updateSettings (orgs : list Organization.doc) (user : Actor) (b : body)
  : response Organization.doc * list Organization.doc :=
  match Tenant.tenantIsolation user with
  | None => (Tenant.organizationRequired, orgs)
  | Some organizationId =>
      if negb (AuthMiddleware.authorize [Admin] user)
      then (AuthMiddleware.denied, orgs)
      else if negb (optional "name" (fun v => isLength 2 100 (trim (jtext v))) b
                    && optional "description"
                         (fun v => isLength 0 500 (jtext v)) b)%bool
      then (validationFailed, orgs)
      else
        match find (fun d => N.eqb (Organization._id d) organizationId) orgs with
        | None => (organizationNotFound, orgs)
        | Some organization =>
            let updated :=
              describe (lookup "description" b)
                (rename (lookup "name" b) organization) in
            let nameModified :=
              negb (Organization.name updated =? Organization.name organization) in
            match Organization.preSave nameModified orgs updated with
            | None => (serverError, orgs)
            | Some saved =>
                (Response 200 (PData saved), Organization.replace saved orgs)
            end
        end
  end.

(** [ObjectId.prototype.toString]: the 24 lower-case hexadecimal digits of
    the twelve bytes. *)
Definition hexDigit (n : N) : ascii :=
  match n with
  | 0%N => "0" | 1%N => "1" | 2%N => "2" | 3%N => "3"
  | 4%N => "4" | 5%N => "5" | 6%N => "6" | 7%N => "7"
  | 8%N => "8" | 9%N => "9" | 10%N => "a" | 11%N => "b"
  | 12%N => "c" | 13%N => "d" | 14%N => "e" | _ => "f"
  end%char.

Fixpoint hexDigits (len : nat) (i : N) : string :=
  match len with
  | O => ""
  | S len' => hexDigits len' (i / 16) ++ String (hexDigit (i mod 16)) ""
  end.

Definition toString (i : ObjectId) : string := hexDigits 24 i.

(** [GET /]: the organization of the caller. *)
Definition getOrganization (orgs : list Organization.doc) (user : Actor)
  : response Organization.doc :=
  match Tenant.tenantIsolation user with
  | None => Tenant.organizationRequired
  | Some organizationId =>
      match find (fun d => N.eqb (Organization._id d) organizationId) orgs with
      | None => organizationNotFound
      | Some organization => Response 200 (PData organization)
      end
  end.

(** [.sort({ createdAt: -1 })] on users. *)
Fixpoint insertNewest (u : User.doc) (l : list User.doc) : list User.doc :=
  match l with
  | [] => [u]
  | x :: l' =>
      if Z.ltb (User.createdAt x) (User.createdAt u)
      then u :: l else x :: insertNewest u l'
  end.

Fixpoint sortNewest (l : list User.doc) : list User.doc :=
  match l with
  | [] => []
  | x :: l' => insertNewest x (sortNewest l')
  end.

(** [User.find({ organization, isActive: true })] *)
Definition activeIn (organizationId : ObjectId) (u : User.doc) : bool :=
  (opt_id_eqb (User.organization u) organizationId && User.isActive u)%bool.

(** [GET /members]. *)
Definition getMembers (users : list User.doc) (user : Actor)
  : response (list User.json) :=
  match Tenant.tenantIsolation user with
  | None => Tenant.organizationRequired
  | Some organizationId =>
      Response 200
        (PData (map User.toJSON
                  (sortNewest (List.filter (activeIn organizationId) users))))
  end.

(** What [POST /invite] sends back. *)
Record Invite := {
  inviteToken : string;
  inviteUrl : string;
  expiresAt : Date
}.

Definition sevenDays : Z := 7 * 24 * 60 * 60 * 1000.

(** The path parameter [:userId] is a [jvalue] that is never [null]:
    [JId s i] when the segment [s] is the text of the id [i], in either
    case of its digits, and [JStr s] when it is no id. *)
Definition isSelf (userId : jvalue) (user : Actor) : bool :=
  jtext userId =? toString (actor_id user).

Section Collaborators.

Variable isEmail : string -> bool.
Variable normalizeEmail : string -> string.
Variable bcryptHash : string -> string.
(** [process.env.FRONTEND_URL] *)
Variable frontendUrl : string.

(** [POST /invite].  [newToken] is the text of [crypto.randomBytes(32)] and
    [newId] the id of the placeholder. *)
Definition invite (newId : ObjectId) (newToken : string) (now : Date)
  (users : list User.doc) (user : Actor) (email role : option string)
  : response Invite * list User.doc :=
  match Tenant.tenantIsolation user with
  | None => (Tenant.organizationRequired, users)
  | Some organizationId =>
      if negb (AuthMiddleware.authorize [Admin; Manager] user)
      then (AuthMiddleware.denied, users)
      else if negb (isEmail (AuthRoutes.text email)
                    && match role with
                       | Some r => isIn ["Manager"; "Member"] (JStr r)
                       | None => true
                       end)%bool
      then (Response 400 PErrors, users)
      else
        let email := normalizeEmail (AuthRoutes.text email) in
        let role := match role with Some r => r | None => "Member" end in
        match AuthRoutes.findByEmail users email with
        | Some _ => (Response 400 (PMessage "User already exists"), users)
        | None =>
            match Role_of_string role with
            | None => (Response 500 (PMessage "Server error"), users)
            | Some role =>
                let inviteExpires := now + sevenDays in
                let inviteUser :=
                  {| User._id := newId; User.name := "Invited User";
                     User.email := AuthRoutes.emailSetter email;
                     User.password := bcryptHash "temporary";
                     User.organization := Some organizationId;
                     User.role := role; User.isActive := false;
                     User.lastLogin := None;
                     User.inviteToken := Some newToken;
                     User.inviteExpires := Some inviteExpires;
                     User.createdAt := now; User.updatedAt := now |} in
                (Response 200
                   (PData {| inviteToken := newToken;
                             inviteUrl := frontendUrl ++ "/join?token=" ++ newToken;
                             expiresAt := inviteExpires |}),
                 (users ++ [inviteUser])%list)
            end
        end
  end.

End Collaborators.

(** [user.role = role] and [user.isActive = false], each followed by
    [save()]: the path is modified when the value is new. *)
Definition setRole (now : Date) (r : Role) (found : User.doc) : User.doc :=
  User.timestamps (negb (Role_eqb (User.role found) r)) now
    (User.with_role r found).

Definition deactivate (now : Date) (found : User.doc) : User.doc :=
  User.timestamps (User.isActive found) now (User.with_isActive false found).

(** [PUT /members/:userId/role]. *)
Definition updateRole (now : Date) (users : list User.doc) (user : Actor)
  (userId : jvalue) (role : option string)
  : response User.json * list User.doc :=
  match Tenant.tenantIsolation user with
  | None => (Tenant.organizationRequired, users)
  | Some organizationId =>
      if negb (AuthMiddleware.authorize [Admin] user)
      then (AuthMiddleware.denied, users)
      else if negb (isIn ["Admin"; "Manager"; "Member"]
                      (JStr (AuthRoutes.text role)))
      then (Response 400 PErrors, users)
      else if isSelf userId user
      then (Response 400 (PMessage "Cannot change your own role"), users)
      else
        match Task.castObjectId userId with
        | None => (Response 500 (PMessage "Server error"), users)
        | Some i =>
            match find (fun u => (N.eqb (User._id u) i
                                  && activeIn organizationId u)%bool) users with
            | None => (Response 404 (PMessage "User not found"), users)
            | Some found =>
                match Role_of_string (AuthRoutes.text role) with
                | None => (Response 500 (PMessage "Server error"), users)
                | Some r =>
                    let saved := setRole now r found in
                    (Response 200 (PData (User.toJSON saved)),
                     User.replace saved users)
                end
            end
        end
  end.

(** [DELETE /members/:userId]. *)
Definition removeMember (now : Date) (users : list User.doc) (user : Actor)
  (userId : jvalue) : response unit * list User.doc :=
  match Tenant.tenantIsolation user with
  | None => (Tenant.organizationRequired, users)
  | Some organizationId =>
      if negb (AuthMiddleware.authorize [Admin] user)
      then (AuthMiddleware.denied, users)
      else if isSelf userId user
      then (Response 400 (PMessage "Cannot remove yourself"), users)
      else
        match Task.castObjectId userId with
        | None => (Response 500 (PMessage "Server error"), users)
        | Some i =>
            match find (fun u => (N.eqb (User._id u) i
                                  && opt_id_eqb (User.organization u)
                                       organizationId)%bool) users with
            | None => (Response 404 (PMessage "User not found"), users)
            | Some found =>
                (Response 200 (PMessage "User removed successfully"),
                 User.replace (deactivate now found) users)
            end
        end
  end.

End OrganizationRoutes.

(* ------------------------------------------------------------------ *)
(** ** Notions used in the statements                                  *)
(* ------------------------------------------------------------------ *)

(** The tasks of organization [o]. *)
Definition own (o : ObjectId) (d : Task.doc) : bool :=
  N.eqb (Task.organization d) o.

(** Two versions of a task that differ at most in [status] and in the
    time stamp [updatedAt]. *)
Definition same_but_status_and_updatedAt (t t' : Task.doc) : Prop :=
  Task._id t' = Task._id t /\ Task.title t' = Task.title t
  /\ Task.description t' = Task.description t
  /\ Task.priority t' = Task.priority t /\ Task.category t' = Task.category t
  /\ Task.dueDate t' = Task.dueDate t
  /\ Task.completedAt t' = Task.completedAt t
  /\ Task.assignedTo t' = Task.assignedTo t
  /\ Task.createdBy t' = Task.createdBy t
  /\ Task.organization t' = Task.organization t
  /\ Task.comments t' = Task.comments t
  /\ Task.attachments t' = Task.attachments t
  /\ Task.createdAt t' = Task.createdAt t.

(** Two versions of a task that differ at most in [status]. *)
Definition same_but_status (t t' : Task.doc) : Prop :=
  same_but_status_and_updatedAt t t' /\ Task.updatedAt t' = Task.updatedAt t.

(** A completion date exactly on the Completed tasks. *)
Definition completedAt_iff_Completed (t : Task.doc) : Prop :=
  Task.completedAt t <> None <-> Task.status t = Completed.

(** The fields a request cannot choose at creation. *)
Definition fresh_fields (o : ObjectId) (user : Actor) (t : Task.doc) : Prop :=
  Task.status t = Todo /\ Task.completedAt t = None
  /\ Task.organization t = o /\ Task.createdBy t = actor_id user.

(** The slugs the loop of the organization hook tries, in order: the base
    slug, then the base slug with the suffixes [-1], [-2], ... *)
Definition candidate (baseSlug : string) (k : nat) : string :=
  match k with
  | O => baseSlug
  | S _ => Organization.suffixed baseSlug k
  end.

(** The address a request's e-mail is looked up under. *)
Definition lookedUp (normalizeEmail : string -> string) (email : string)
  : string :=
  AuthRoutes.emailSetter (normalizeEmail email).

(** The three ways a well-formed login request fails. *)
Inductive LoginFailure (normalizeEmail : string -> string)
  (bcryptCompare : string -> string -> bool)
  (users : list User.doc) (email password : string) : Prop :=
| NoSuchUser :
    (forall u, In u users -> User.email u <> lookedUp normalizeEmail email) ->
    LoginFailure normalizeEmail bcryptCompare users email password
| InactiveUser (u : User.doc) :
    In u users -> User.email u = lookedUp normalizeEmail email ->
    User.isActive u = false ->
    LoginFailure normalizeEmail bcryptCompare users email password
| WrongPassword (u : User.doc) :
    In u users -> User.email u = lookedUp normalizeEmail email ->
    User.isActive u = true ->
    bcryptCompare password (User.password u) = false ->
    LoginFailure normalizeEmail bcryptCompare users email password.

(** The tasks a response of the list route carries. *)
Definition tasksOf (r : response TaskRoutes.data) : list Task.doc :=
  match content r with
  | PData (TaskRoutes.DList found _) => found
  | _ => []
  end.

(** The query [q] asked again for page [p] with [l] tasks a page. *)
Definition pageQuery (q : TaskRoutes.Query) (p l : Z) : TaskRoutes.Query :=
  {| TaskRoutes.q_page := Some (TaskRoutes.QInt p);
     TaskRoutes.q_limit := Some (TaskRoutes.QInt l);
     TaskRoutes.q_status := TaskRoutes.q_status q;
     TaskRoutes.q_priority := TaskRoutes.q_priority q;
     TaskRoutes.q_category := TaskRoutes.q_category q;
     TaskRoutes.q_assignedTo := TaskRoutes.q_assignedTo q |}.

(** Tasks in the order of the list route: no task is older than one that
    follows it. *)
Definition newestFirst (l : list Task.doc) : Prop :=
  StronglySorted (fun a b => Task.createdAt b <= Task.createdAt a) l.

(** Tasks of distinct creation dates, newest first; there is one way to
    put given tasks in that order. *)
Definition strictlyNewestFirst (l : list Task.doc) : Prop :=
  StronglySorted (fun a b => Task.createdAt b < Task.createdAt a) l.

(** The user with id [i] is stored. *)
Definition storedUser (users : list User.doc) (i : ObjectId) : Prop :=
  exists u, In u users /\ User._id u = i.

(** Two versions of a task that differ at most in [status] and in the
    dates [completedAt] and [updatedAt]. *)
Definition same_but_status_and_dates (t t' : Task.doc) : Prop :=
  Task._id t' = Task._id t /\ Task.title t' = Task.title t
  /\ Task.description t' = Task.description t
  /\ Task.priority t' = Task.priority t /\ Task.category t' = Task.category t
  /\ Task.dueDate t' = Task.dueDate t
  /\ Task.assignedTo t' = Task.assignedTo t
  /\ Task.createdBy t' = Task.createdBy t
  /\ Task.organization t' = Task.organization t
  /\ Task.comments t' = Task.comments t
  /\ Task.attachments t' = Task.attachments t
  /\ Task.createdAt t' = Task.createdAt t.

(** Two versions of a user that differ at most in the field the predicate
    leaves out. *)
Definition same_but_role (u u' : User.doc) : Prop :=
  u' = User.with_role (User.role u') u.

Definition same_but_isActive (u u' : User.doc) : Prop :=
  u' = User.with_isActive (User.isActive u') u.

(** The check of a new assignee, common to create and update: a truthy
    [assignedTo] of the body is the id of an active user of the
    organization. *)
Definition assigneeChecked (users : list User.doc) (o : ObjectId) (b : body)
  : Prop :=
  forall v, lookup "assignedTo" b = Some v -> truthy v = true ->
  exists i, Task.castObjectId v = Some i
            /\ TaskRoutes.activeMember users o i <> None.

(** Users in the order of the members route: newest first. *)
Definition newestUsersFirst (l : list User.doc) : Prop :=
  StronglySorted (fun a b => User.createdAt b <= User.createdAt a) l.

(** A user after a request of the member routes: the same account, in the
    same organization, with at most another role or activity. *)
Definition same_account (a a' : User.doc) : Prop :=
  User._id a' = User._id a /\ User.name a' = User.name a
  /\ User.email a' = User.email a /\ User.password a' = User.password a
  /\ User.organization a' = User.organization a
  /\ User.lastLogin a' = User.lastLogin a
  /\ User.inviteToken a' = User.inviteToken a
  /\ User.inviteExpires a' = User.inviteExpires a
  /\ User.createdAt a' = User.createdAt a.

(** A user after a login: the same account, with at most another
    [lastLogin] and [updatedAt]. *)
Definition same_but_login_dates (a a' : User.doc) : Prop :=
  User._id a' = User._id a /\ User.name a' = User.name a
  /\ User.email a' = User.email a /\ User.password a' = User.password a
  /\ User.organization a' = User.organization a
  /\ User.role a' = User.role a /\ User.isActive a' = User.isActive a
  /\ User.inviteToken a' = User.inviteToken a
  /\ User.inviteExpires a' = User.inviteExpires a
  /\ User.createdAt a' = User.createdAt a.

(** The characters of a slug: a lower-case letter, a digit or the dash. *)
Definition slugChar (c : ascii) : bool :=
  (Organization.is_lower_alnum c || Ascii.eqb c "-")%bool.

Fixpoint everyChar (p : ascii -> bool) (s : string) : bool :=
  match s with
  | EmptyString => true
  | String c s' => (p c && everyChar p s')%bool
  end.

Definition startsWithDash (s : string) : bool :=
  match s with
  | String c _ => Ascii.eqb c "-"
  | EmptyString => false
  end.

Fixpoint endsWithDash (s : string) : bool :=
  match s with
  | EmptyString => false
  | String c EmptyString => Ascii.eqb c "-"
  | String _ s' => endsWithDash s'
  end.

(** No two dashes follow each other. *)
Fixpoint noDoubleDash (s : string) : bool :=
  match s with
  | EmptyString => true
  | String c s' =>
      (negb (Ascii.eqb c "-" && startsWithDash s') && noDoubleDash s')%bool
  end.

(* ------------------------------------------------------------------ *)
(** ** Sample data                                                     *)
(* ------------------------------------------------------------------ *)

Module Sample.

(** Organization 1 has the admin 10 and the members 11 and 12;
    organization 2 has the admin 20. *)
Definition admin1 : Actor :=
  {| actor_id := 10; actor_role := Admin; actor_organization := Some 1%N |}.
Definition member11 : Actor :=
  {| actor_id := 11; actor_role := Member; actor_organization := Some 1%N |}.
Definition member12 : Actor :=
  {| actor_id := 12; actor_role := Member; actor_organization := Some 1%N |}.
Definition admin2 : Actor :=
  {| actor_id := 20; actor_role := Admin; actor_organization := Some 2%N |}.

(** Task 7 of organization 1, assigned to member 11, due at 1000. *)
Definition task7 : Task.doc :=
  {| Task._id := 7; Task.title := "Fix login"; Task.description := None;
     Task.status := Todo; Task.priority := Medium; Task.category := Bug;
     Task.dueDate := Some 1000; Task.completedAt := None;
     Task.assignedTo := Some 11%N; Task.createdBy := 10;
     Task.organization := 1; Task.comments := Some [];
     Task.attachments := Some []; Task.createdAt := 100;
     Task.updatedAt := Some 100 |}.

(** Task 8 of organization 2, unassigned, without due date. *)
Definition task8 : Task.doc :=
  {| Task._id := 8; Task.title := "Write report"; Task.description := None;
     Task.status := InProgress; Task.priority := High; Task.category := Feature;
     Task.dueDate := None; Task.completedAt := None;
     Task.assignedTo := None; Task.createdBy := 20;
     Task.organization := 2; Task.comments := Some [];
     Task.attachments := Some []; Task.createdAt := 200;
     Task.updatedAt := Some 200 |}.

(** Task 9 of organization 1, created by the admin, unassigned, completed. *)
Definition task9 : Task.doc :=
  {| Task._id := 9; Task.title := "Ship"; Task.description := None;
     Task.status := Completed; Task.priority := Low; Task.category := Feature;
     Task.dueDate := Some 500; Task.completedAt := Some 400;
     Task.assignedTo := None; Task.createdBy := 10;
     Task.organization := 1; Task.comments := Some [];
     Task.attachments := Some []; Task.createdAt := 300;
     Task.updatedAt := Some 300 |}.

Definition tasks : list Task.doc := [task7; task8; task9].

Definition noQuery : TaskRoutes.Query :=
  {| TaskRoutes.q_page := None; TaskRoutes.q_limit := None;
     TaskRoutes.q_status := None; TaskRoutes.q_priority := None;
     TaskRoutes.q_category := None; TaskRoutes.q_assignedTo := None |}.

(** Two organizations, and a third one about to be saved under a name
    whose base slug is the slug of the first. *)
Definition acme : Organization.doc :=
  {| Organization._id := 1; Organization.name := "Acme Corp";
     Organization.slug := "acme-corp"; Organization.description := None;
     Organization.isActive := true; Organization.createdBy := 10;
     Organization.createdAt := 10 |}.

Definition globex : Organization.doc :=
  {| Organization._id := 2; Organization.name := "Globex";
     Organization.slug := "globex"; Organization.description := None;
     Organization.isActive := true; Organization.createdBy := 20;
     Organization.createdAt := 20 |}.

Definition acme_again : Organization.doc :=
  {| Organization._id := 3; Organization.name := "ACME  corp!";
     Organization.slug := "acme--corp"; Organization.description := None;
     Organization.isActive := true; Organization.createdBy := 30;
     Organization.createdAt := 30 |}.

Definition orgs : list Organization.doc := [acme; globex].

(** Stand-ins for the libraries: every address is well formed and already
    normal, a hash is the password behind [h:], a token is [jwt]. *)
Definition isEmail (e : string) : bool := true.
Definition normalizeEmail (e : string) : string := e.
Definition bcryptHash (p : string) : string := "h:" ++ p.
Definition bcryptCompare (p h : string) : bool := h =? "h:" ++ p.
Definition jwtSign (i : ObjectId) : string := "jwt".

(** The admin of organization 1, a removed member, and the placeholder of
    an invitation into organization 1 that expires at 9000. *)
Definition ann : User.doc :=
  {| User._id := 10; User.name := "Ann"; User.email := "ann@x.io";
     User.password := "h:secret1"; User.organization := Some 1%N;
     User.role := Admin; User.isActive := true; User.lastLogin := None;
     User.inviteToken := None; User.inviteExpires := None;
     User.createdAt := 10; User.updatedAt := 10 |}.

Definition bob : User.doc :=
  {| User._id := 13; User.name := "Bob"; User.email := "bob@x.io";
     User.password := "h:secret2"; User.organization := Some 1%N;
     User.role := Member; User.isActive := false; User.lastLogin := None;
     User.inviteToken := None; User.inviteExpires := None;
     User.createdAt := 20; User.updatedAt := 20 |}.

Definition invited : User.doc :=
  {| User._id := 14; User.name := "Invited User"; User.email := "eve@x.io";
     User.password := "h:temporary"; User.organization := Some 1%N;
     User.role := Member; User.isActive := false; User.lastLogin := None;
     User.inviteToken := Some "c0ffee"; User.inviteExpires := Some 9000;
     User.createdAt := 30; User.updatedAt := 30 |}.

Definition users : list User.doc := [ann; bob; invited].

(** Dora, an active member of organization 1 with the id 11. *)
Definition dora : User.doc :=
  {| User._id := 11; User.name := "Dora"; User.email := "dora@x.io";
     User.password := "h:secret3"; User.organization := Some 1%N;
     User.role := Member; User.isActive := true; User.lastLogin := None;
     User.inviteToken := None; User.inviteExpires := None;
     User.createdAt := 15; User.updatedAt := 15 |}.

Definition staff : list User.doc := [ann; dora; bob].

End Sample.

(* ================================================================== *)
(** * Properties                                                       *)
(* ================================================================== *)

(** ** Lists and collections *)

Lemma NoDup_map_eq {A B} (f : A -> B) (l : list A) (a b : A) :
  NoDup (map f l) -> In a l -> In b l -> f a = f b -> a = b.
Proof.
  induction l as [|x l IH]; simpl; intros Hnd Ha Hb Hab; [contradiction|].
  inversion Hnd as [|? ? Hx Hl]; subst.
  destruct Ha as [Ha|Ha], Hb as [Hb|Hb]; subst; auto.
  - exfalso. apply Hx. rewrite Hab. now apply in_map.
  - exfalso. apply Hx. rewrite <- Hab. now apply in_map.
Qed.

Lemma find_none_iff {A} (p : A -> bool) (l : list A) :
  find p l = None <-> forall x, In x l -> p x = false.
Proof.
  split; [apply find_none|].
  induction l as [|x l IH]; simpl; intros H; [reflexivity|].
  rewrite (H x) by now left. apply IH. intros y Hy. apply H. now right.
Qed.

Section TaskCollections.

Import Task TaskRoutes.

Lemma In_insertDesc x t l : In x (insertDesc t l) <-> x = t \/ In x l.
Proof.
  induction l as [|y l IH]; simpl.
  - intuition.
  - destruct (Z.ltb (createdAt y) (createdAt t)); simpl; [intuition|].
    rewrite IH. intuition.
Qed.

Lemma In_sortDesc x l : In x (sortDesc l) <-> In x l.
Proof.
  induction l as [|y l IH]; simpl; [tauto|].
  rewrite In_insertDesc, IH. intuition.
Qed.

Lemma In_page {A} (x : A) n m l : In x (firstn n (skipn m l)) -> In x l.
Proof.
  intros H.
  assert (Hf : forall k (l' : list A), In x (firstn k l') -> In x l').
  { induction k as [|k IHk]; intros [|y l']; simpl; try tauto.
    intros [->|Hk]; auto. }
  apply Hf in H. revert l H.
  induction m as [|m IH]; intros [|y l]; simpl; auto.
Qed.

(** A match of a filter belongs to the filter's organization. *)
Lemma matches_organization f t :
  matches f t = true -> organization t = f_organization f.
Proof.
  unfold matches. rewrite !andb_true_iff. intros [[[[[H _] _] _] _] _].
  now apply N.eqb_eq.
Qed.

Lemma matches_or f u t :
  f_or f = Some u -> matches f t = true ->
  assignedTo t = Some u \/ createdBy t = u.
Proof.
  unfold matches. intros ->. rewrite !andb_true_iff. simpl.
  intros [_ H]. apply orb_true_iff in H. destruct H as [H|H].
  - left. unfold opt_id_eqb in H. destruct (assignedTo t); [|discriminate].
    apply N.eqb_eq in H. now subst.
  - right. now apply N.eqb_eq.
Qed.

(** Dropping the documents of the other organizations changes no match. *)
Lemma filter_matches_scoped f tasks :
  List.filter (matches f)
    (List.filter (fun d => N.eqb (organization d) (f_organization f)) tasks)
  = List.filter (matches f) tasks.
Proof.
  induction tasks as [|d tasks IH]; simpl; [reflexivity|].
  destruct (N.eqb (organization d) (f_organization f)) eqn:E; simpl.
  - now rewrite IH.
  - rewrite IH. unfold matches at 2. now rewrite E.
Qed.

(** With unique ids, the by-id filter of one organization finds no task of
    another one. *)
Lemma find_byId_foreign tasks t o :
  NoDup (map _id tasks) -> In t tasks -> organization t <> o ->
  find (byId (_id t) o) tasks = None.
Proof.
  intros Hnd Hin Hne. apply find_none_iff. intros d Hd.
  unfold byId. destruct (N.eqb (_id d) (_id t)) eqn:E; [|reflexivity].
  apply N.eqb_eq in E. assert (d = t) by (eapply NoDup_map_eq; eauto).
  subst d. simpl. now apply N.eqb_neq.
Qed.

End TaskCollections.

(** ** Tenant isolation of the task routes *)

Section TenantIsolation.

Import Task TaskRoutes.

Variable tasks : list doc.
Variable user : Actor.
Variable o : ObjectId.
Hypothesis tenant : actor_organization user = Some o.

Lemma getTasks_scoped q :
  getTasks tasks user q = getTasks (List.filter (own o) tasks) user q.
Proof.
  unfold getTasks, Tenant.tenantIsolation. rewrite tenant.
  destruct (validQuery q); simpl; [|reflexivity].
  pose proof (filter_matches_scoped (listFilter o user q) tasks) as H.
  simpl in H. unfold own. now rewrite H.
Qed.

Lemma getTasks_own q found p t :
  getTasks tasks user q = Response 200 (PData (DList found p)) ->
  In t found -> organization t = o.
Proof.
  unfold getTasks, Tenant.tenantIsolation. rewrite tenant.
  destruct (validQuery q); simpl; [|discriminate].
  intros H Hin. injection H as <- _.
  apply In_page, In_sortDesc, filter_In in Hin. destruct Hin as [_ Hm].
  now apply matches_organization in Hm.
Qed.

Lemma getStats_scoped now :
  getStats now tasks user = getStats now (List.filter (own o) tasks) user.
Proof.
  unfold getStats, Tenant.tenantIsolation. rewrite tenant.
  pose proof (filter_matches_scoped (statsFilter o user) tasks) as H.
  simpl in H. unfold own. now rewrite H.
Qed.

End TenantIsolation.

(** C1 (as amended).  For an actor bound to organization [o] and a task [t]
    of another organization, whatever the actor's role: reading [t] by id
    answers NotFoundError; updating it answers NotFoundError when the body
    passes the field validation and ValidationError otherwise; deleting it
    answers NotFoundError for an Admin or Manager and ForbiddenError for a
    Member, whose role is refused before the lookup; the collection is left
    as it was in every case; no page of the list contains [t]; and the list
    and the statistics are those of the collection without the tasks of
    the other organizations. *)
Theorem tenant_isolation
  (users : list User.doc) (tasks : list Task.doc) (user : Actor)
  (o : ObjectId) (t : Task.doc) :
  actor_organization user = Some o ->
  NoDup (map Task._id tasks) ->
  In t tasks -> Task.organization t <> o ->
  TaskRoutes.getTask users tasks user (Some (Task._id t))
  = TaskRoutes.taskNotFound
  /\ (forall now b,
        TaskRoutes.updateTask now users tasks user (Some (Task._id t)) b
        = (if TaskRoutes.validUpdate b then TaskRoutes.taskNotFound
           else TaskRoutes.validationFailed, tasks))
  /\ TaskRoutes.deleteTask tasks user (Some (Task._id t))
     = (if AuthMiddleware.authorize [Admin; Manager] user
        then TaskRoutes.taskNotFound else AuthMiddleware.denied, tasks)
  /\ (forall q found p,
        TaskRoutes.getTasks tasks user q
        = Response 200 (PData (TaskRoutes.DList found p)) ->
        ~ In t found)
  /\ (forall q,
        TaskRoutes.getTasks tasks user q
        = TaskRoutes.getTasks (List.filter (own o) tasks) user q)
  /\ (forall now,
        TaskRoutes.getStats now tasks user
        = TaskRoutes.getStats now (List.filter (own o) tasks) user)
  /\ kind TaskRoutes.taskNotFound = Some NotFoundError
  /\ kind TaskRoutes.validationFailed = Some ValidationError
  /\ kind (@AuthMiddleware.denied TaskRoutes.data) = Some ForbiddenError.
Proof.
  intros Ho Hnd Hin Hne.
  pose proof (find_byId_foreign tasks t Hnd Hin Hne) as Hfind.
  repeat split.
  - unfold TaskRoutes.getTask, Tenant.tenantIsolation. now rewrite Ho, Hfind.
  - intros now b. unfold TaskRoutes.updateTask, Tenant.tenantIsolation.
    rewrite Ho. destruct (TaskRoutes.validUpdate b); simpl; [|reflexivity].
    now rewrite Hfind.
  - unfold TaskRoutes.deleteTask, Tenant.tenantIsolation. rewrite Ho.
    destruct (AuthMiddleware.authorize [Admin; Manager] user); simpl;
      [|reflexivity].
    now rewrite Hfind.
  - intros q found p H Hf. apply Hne. eapply getTasks_own; eauto.
  - intros q. now apply getTasks_scoped.
  - intros now. now apply getStats_scoped.
Qed.

Lemma tenant_isolation_witness :
  TaskRoutes.getTask [] Sample.tasks Sample.member11 (Some 8%N)
  = TaskRoutes.taskNotFound.
Proof.
  apply (tenant_isolation [] Sample.tasks Sample.member11 (o := 1%N)
           Sample.task8).
  - reflexivity.
  - repeat constructor; simpl; intuition discriminate.
  - simpl; tauto.
  - discriminate.
Defined.

(** C1 (as stated) fails: a Member who deletes a task of another
    organization is answered ForbiddenError, and an update of such a task
    whose body fails validation is answered ValidationError; neither answer
    is NotFoundError. *)
Lemma tenant_isolation_not_always_NotFound :
  Task.organization Sample.task8 <> 1%N
  /\ actor_organization Sample.member11 = Some 1%N
  /\ kind (fst (TaskRoutes.deleteTask Sample.tasks Sample.member11 (Some 8%N)))
     = Some ForbiddenError
  /\ kind (fst (TaskRoutes.updateTask 0 [] Sample.tasks Sample.member11
                  (Some 8%N) [("status", JStr "Expired")]))
     = Some ValidationError.
Proof. repeat split; discriminate. Qed.

(** ** The list of a Member *)

(** C5.  Whatever the filters and the page asked for, every task of the
    page returned to a Member has the Member as assignee or as creator. *)
Theorem member_list_only_own_tasks
  (tasks : list Task.doc) (user : Actor) (q : TaskRoutes.Query)
  (found : list Task.doc) (p : TaskRoutes.Pagination) (t : Task.doc) :
  actor_role user = Member ->
  TaskRoutes.getTasks tasks user q
  = Response 200 (PData (TaskRoutes.DList found p)) ->
  In t found ->
  Task.assignedTo t = Some (actor_id user)
  \/ Task.createdBy t = actor_id user.
Proof.
  intros Hrole. unfold TaskRoutes.getTasks.
  destruct (Tenant.tenantIsolation user) as [organizationId|]; [|discriminate].
  destruct (TaskRoutes.validQuery q); simpl; [|discriminate].
  intros H Hin. injection H as <- _.
  apply In_page, In_sortDesc, filter_In in Hin. destruct Hin as [_ Hm].
  apply (matches_or (TaskRoutes.listFilter organizationId user q)
           (u := actor_id user)); [|exact Hm].
  simpl. now rewrite Hrole.
Qed.

Lemma member_list_only_own_tasks_witness :
  Task.assignedTo Sample.task7 = Some (actor_id Sample.member11)
  \/ Task.createdBy Sample.task7 = actor_id Sample.member11.
Proof.
  apply (member_list_only_own_tasks Sample.tasks Sample.member11
           Sample.noQuery (found := [Sample.task7])
           (p := {| TaskRoutes.page := 1; TaskRoutes.limit := 10;
                    TaskRoutes.total := 1; TaskRoutes.pages := 1 |})).
  - reflexivity.
  - reflexivity.
  - simpl; tauto.
Defined.


(** ** The expiration job *)

Section Expiration.

Import Task ExpirationJob.

Lemma same_but_status_and_updatedAt_refl t :
  same_but_status_and_updatedAt t t.
Proof. unfold same_but_status_and_updatedAt; tauto. Qed.

Lemma isOverdue_spec now t :
  isOverdue now t = true <->
  (exists d, dueDate t = Some d /\ d < now)
  /\ status t <> Completed /\ status t <> Expired.
Proof.
  unfold isOverdue. rewrite andb_true_iff, negb_true_iff. simpl.
  split.
  - intros [Hd Hs]. destruct (dueDate t) as [d|]; [|discriminate].
    apply Z.ltb_lt in Hd. split; [now exists d|].
    destruct (status t); simpl in Hs; split; congruence.
  - intros [[d [-> Hd]] [Hc He]]. split; [now apply Z.ltb_lt|].
    destruct (status t); simpl; congruence.
Qed.

Lemma isOverdue_expired now now' t : isOverdue now (expire now' t) = false.
Proof. unfold isOverdue, expire; simpl. now rewrite andb_false_r. Qed.

Lemma filter_nil {A} (p : A -> bool) l :
  (forall x, In x l -> p x = false) -> List.filter p l = [].
Proof.
  induction l as [|x l IH]; simpl; intros H; [reflexivity|].
  rewrite (H x) by now left. apply IH. intros y Hy. apply H. now right.
Qed.

Lemma swept_In now tasks t' :
  In t' (taskExpirationJob now tasks) ->
  exists t, In t tasks
            /\ t' = if isOverdue now t then expire now t else t.
Proof.
  unfold taskExpirationJob, updateMany. simpl. rewrite in_map_iff.
  intros [t [<- Hin]]. now exists t.
Qed.

(** After a tick at [now], a tick at [now2] finds nothing to expire unless
    some task has become overdue in between. *)
Lemma second_tick_finds_nothing now now2 tasks :
  (forall t, In t tasks -> isOverdue now2 t = true -> isOverdue now t = true) ->
  forall t', In t' (taskExpirationJob now tasks) -> isOverdue now2 t' = false.
Proof.
  intros Hnew t' Hin. apply swept_In in Hin. destruct Hin as [t [Hin ->]].
  destruct (isOverdue now t) eqn:E.
  - apply isOverdue_expired.
  - destruct (isOverdue now2 t) eqn:E2; [|reflexivity].
    apply Hnew in E2; [congruence|assumption].
Qed.

Lemma tick_without_overdue now tasks :
  (forall t, In t tasks -> isOverdue now t = false) ->
  taskExpirationJob now tasks = tasks /\ modifiedCount now tasks = 0.
Proof.
  intros H. unfold taskExpirationJob, modifiedCount, updateMany. simpl. split.
  - rewrite <- (map_id tasks) at 2. apply map_ext_in. intros t Ht.
    now rewrite (H t Ht).
  - now rewrite (filter_nil _ _ H).
Qed.

End Expiration.

(** C7 (as amended).  One tick at [now] turns into Expired exactly the
    tasks, of any organization, whose due date is set and earlier than
    [now] and whose status is neither Completed nor Expired; on those tasks
    it also stamps [updatedAt] with [now], and it changes no other field of
    any task ([completedAt] in particular); [modifiedCount] is the number
    of those tasks.  A second tick, at the same instant or later, modifies
    nothing as long as no further task has become overdue. *)
Theorem expiration_tick_exact_and_idempotent
  (now now2 : Date) (tasks : list Task.doc) :
  Forall2
    (fun t t' =>
       same_but_status_and_updatedAt t t'
       /\ ((exists d, Task.dueDate t = Some d /\ d < now)
           /\ Task.status t <> Completed /\ Task.status t <> Expired ->
           Task.status t' = Expired /\ Task.updatedAt t' = Some now)
       /\ (~ ((exists d, Task.dueDate t = Some d /\ d < now)
              /\ Task.status t <> Completed /\ Task.status t <> Expired) ->
           t' = t))
    tasks (ExpirationJob.taskExpirationJob now tasks)
  /\ ExpirationJob.modifiedCount now tasks
     = Z.of_nat (List.length (List.filter (ExpirationJob.isOverdue now) tasks))
  /\ ExpirationJob.taskExpirationJob now
       (ExpirationJob.taskExpirationJob now tasks)
     = ExpirationJob.taskExpirationJob now tasks
  /\ ExpirationJob.modifiedCount now
       (ExpirationJob.taskExpirationJob now tasks) = 0
  /\ ((forall t, In t tasks ->
         ExpirationJob.isOverdue now2 t = true ->
         ExpirationJob.isOverdue now t = true) ->
      ExpirationJob.taskExpirationJob now2
        (ExpirationJob.taskExpirationJob now tasks)
      = ExpirationJob.taskExpirationJob now tasks
      /\ ExpirationJob.modifiedCount now2
           (ExpirationJob.taskExpirationJob now tasks) = 0).
Proof.
  split; [|split; [reflexivity|]].
  - unfold ExpirationJob.taskExpirationJob, ExpirationJob.updateMany. simpl.
    induction tasks as [|t tasks' IH]; simpl; constructor; [|exact IH].
    destruct (ExpirationJob.isOverdue now t) eqn:E.
    + split; [unfold same_but_status_and_updatedAt; simpl; tauto|].
      split; [split; reflexivity|]. intros Hn. exfalso. apply Hn.
      now apply isOverdue_spec.
    + split; [apply same_but_status_and_updatedAt_refl|].
      split; [|reflexivity].
      intros Ho. apply isOverdue_spec in Ho. congruence.
  - assert (Hsame : forall t' : Task.doc,
               In t' (ExpirationJob.taskExpirationJob now tasks) ->
               ExpirationJob.isOverdue now t' = false)
      by (apply second_tick_finds_nothing; auto).
    destruct (tick_without_overdue now _ Hsame) as [H1 H2].
    split; [exact H1|]. split; [exact H2|].
    intros Hnew. apply tick_without_overdue.
    now apply second_tick_finds_nothing.
Qed.

Lemma expiration_tick_exact_and_idempotent_witness :
  ExpirationJob.taskExpirationJob 2000 Sample.tasks
  = [ExpirationJob.expire 2000 Sample.task7; Sample.task8; Sample.task9]
  /\ ExpirationJob.modifiedCount 2000 Sample.tasks = 1
  /\ ExpirationJob.modifiedCount 2500
       (ExpirationJob.taskExpirationJob 2000 Sample.tasks) = 0.
Proof.
  split; [reflexivity|]. split; [reflexivity|].
  apply (expiration_tick_exact_and_idempotent 2000 2500 Sample.tasks).
  intros t [<-|[<-|[<-|[]]]]; intros H; vm_compute in H |- *;
    congruence.
Defined.

(** C7 (as stated) fails: the tick at 2000 expires task 7, which was last
    updated at 100, and leaves it with 2000 as [updatedAt]; so a field
    other than [status] is changed. *)
Lemma expiration_tick_changes_updatedAt :
  ExpirationJob.isOverdue 2000 Sample.task7 = true
  /\ ExpirationJob.taskExpirationJob 2000 Sample.tasks
     = [ExpirationJob.expire 2000 Sample.task7; Sample.task8; Sample.task9]
  /\ Task.updatedAt Sample.task7 = Some 100
  /\ Task.updatedAt (ExpirationJob.expire 2000 Sample.task7) = Some 2000
  /\ ~ same_but_status Sample.task7 (ExpirationJob.expire 2000 Sample.task7).
Proof.
  repeat split; try reflexivity. intros [_ H]. discriminate H.
Qed.

(** ** The field-copy loop of the update route *)

(** Case analysis of one assignment [set key v t = Some t']. *)
Ltac set_cases H :=
  unfold Task.set in H;
  repeat match type of H with
    | (if ?c then _ else _) = Some _ => destruct c eqn:?
    | option_map _ ?o = Some _ => destruct o eqn:?; simpl in H
    | match ?v with JNull => _ | _ => _ end = Some _ => destruct v
    | match ?o with Some _ => _ | None => _ end = Some _ => destruct o eqn:?
    | None = Some _ => discriminate H
    | Some _ = Some _ => injection H as <-
    end.

Section FieldCopy.

Import Task TaskRoutes.

Lemma keys_sanitize b : keys (sanitize b) = keys b.
Proof.
  unfold keys, sanitize. rewrite map_map. apply map_ext.
  intros [k v]; simpl. now destruct (k =? "title").
Qed.

Lemma lookup_sanitize k b :
  lookup k (sanitize b)
  = option_map (fun v => if k =? "title" then JStr (trim (jtext v)) else v)
      (lookup k b).
Proof.
  induction b as [|[k' v] b IH]; [reflexivity|].
  unfold sanitize in *. cbn [map fst snd].
  destruct (k' =? "title") eqn:E1; cbn [lookup]; destruct (k' =? k) eqn:E2;
    cbn [option_map]; try exact IH.
  - apply String.eqb_eq in E1, E2. subst. reflexivity.
  - apply String.eqb_eq in E2. subst. now rewrite E1.
Qed.

Lemma lookup_sanitize_other k b :
  k <> "title" -> lookup k (sanitize b) = lookup k b.
Proof.
  intros Hk. rewrite lookup_sanitize.
  destruct (String.eqb_spec k "title"); [contradiction|].
  now destruct (lookup k b).
Qed.

Lemma validUpdate_sanitize_status b v :
  validUpdate b = true -> lookup "status" (sanitize b) = Some v ->
  isIn ["Todo"; "In Progress"; "Completed"] v = true.
Proof.
  intros Hv. rewrite lookup_sanitize_other by discriminate. intros Hl.
  unfold validUpdate in Hv. rewrite !andb_true_iff in Hv.
  destruct Hv as [[[[[[_ _] Hs] _] _] _] _].
  unfold optional in Hs. now rewrite Hl in Hs.
Qed.

(** The statuses that pass the validator of the update route. *)
Lemma whitelisted_status v :
  isIn ["Todo"; "In Progress"; "Completed"] v = true ->
  exists s, Status_of_string (jtext v) = Some s /\ s <> Expired.
Proof.
  unfold isIn. simpl. rewrite !orb_true_iff.
  intros [H|[H|[H|H]]]; try discriminate; apply String.eqb_eq in H;
    rewrite H; [exists Todo|exists InProgress|exists Completed];
    split; (reflexivity || discriminate).
Qed.

Lemma set_id key v t t' :
  set key v t = Some t' -> key <> "_id" -> _id t' = _id t.
Proof.
  intros H Hk. set_cases H; simpl; auto.
  all: exfalso; apply Hk; now apply String.eqb_eq.
Qed.

Lemma set_createdAt key v t t' : set key v t = Some t' -> createdAt t' = createdAt t.
Proof. intros H. set_cases H; reflexivity. Qed.


Lemma set_completedAt key v t t' :
  set key v t = Some t' -> key <> "completedAt" ->
  completedAt t' = completedAt t.
Proof.
  intros H Hk. set_cases H; simpl; auto.
  all: exfalso; apply Hk; now apply String.eqb_eq.
Qed.

Lemma set_organization key v t t' :
  set key v t = Some t' -> key <> "organization" ->
  organization t' = organization t.
Proof.
  intros H Hk. set_cases H; simpl; auto.
  all: exfalso; apply Hk; now apply String.eqb_eq.
Qed.

Lemma copyFields_cons key ks b task :
  copyFields (key :: ks) b task
  = match lookup key b with
    | None => copyFields ks b task
    | Some v => match assign key v task with
                | None => None
                | Some task' => copyFields ks b task'
                end
    end.
Proof. reflexivity. Qed.

Lemma assign_id key v t t' :
  assign key v t = Some t' -> key <> "_id" -> _id t' = _id t.
Proof.
  unfold assign. destruct ((key =? "dueDate") && truthy v)%bool.
  - destruct (newDate v); simpl; [|discriminate]. now intros [= <-].
  - apply set_id.
Qed.

Lemma assign_createdAt key v t t' :
  assign key v t = Some t' -> createdAt t' = createdAt t.
Proof.
  unfold assign. destruct ((key =? "dueDate") && truthy v)%bool.
  - destruct (newDate v); simpl; [|discriminate]. now intros [= <-].
  - apply set_createdAt.
Qed.


Lemma assign_completedAt key v t t' :
  assign key v t = Some t' -> key <> "completedAt" ->
  completedAt t' = completedAt t.
Proof.
  unfold assign. destruct ((key =? "dueDate") && truthy v)%bool.
  - destruct (newDate v); simpl; [|discriminate]. now intros [= <-].
  - apply set_completedAt.
Qed.

Lemma assign_organization key v t t' :
  assign key v t = Some t' -> key <> "organization" ->
  organization t' = organization t.
Proof.
  unfold assign. destruct ((key =? "dueDate") && truthy v)%bool.
  - destruct (newDate v); simpl; [|discriminate]. now intros [= <-].
  - apply set_organization.
Qed.

Lemma copyFields_id ks b t t' :
  copyFields ks b t = Some t' -> ~ In "_id" ks -> _id t' = _id t.
Proof.
  revert t. induction ks as [|key ks IH]; intros t.
  - now intros [= <-].
  - rewrite copyFields_cons. simpl. intros H Hn.
    destruct (lookup key b) as [v|]; [|apply IH; tauto].
    destruct (assign key v t) as [t1|] eqn:E; [|discriminate].
    apply IH in H; [|tauto]. apply assign_id in E; [congruence|].
    intros ->. tauto.
Qed.

Lemma copyFields_createdAt ks b t t' :
  copyFields ks b t = Some t' -> createdAt t' = createdAt t.
Proof.
  revert t. induction ks as [|key ks IH]; intros t.
  - now intros [= <-].
  - rewrite copyFields_cons. destruct (lookup key b) as [v|]; [|apply IH].
    destruct (assign key v t) as [t1|] eqn:E; [|discriminate].
    intros H. apply IH in H. apply assign_createdAt in E. congruence.
Qed.


Lemma copyFields_completedAt ks b t t' :
  copyFields ks b t = Some t' -> ~ In "completedAt" ks ->
  completedAt t' = completedAt t.
Proof.
  revert t. induction ks as [|key ks IH]; intros t.
  - now intros [= <-].
  - rewrite copyFields_cons. simpl. intros H Hn.
    destruct (lookup key b) as [v|]; [|apply IH; tauto].
    destruct (assign key v t) as [t1|] eqn:E; [|discriminate].
    apply IH in H; [|tauto]. apply assign_completedAt in E; [congruence|].
    intros ->. tauto.
Qed.

Lemma copyFields_organization ks b t t' :
  copyFields ks b t = Some t' -> ~ In "organization" ks ->
  organization t' = organization t.
Proof.
  revert t. induction ks as [|key ks IH]; intros t.
  - now intros [= <-].
  - rewrite copyFields_cons. simpl. intros H Hn.
    destruct (lookup key b) as [v|]; [|apply IH; tauto].
    destruct (assign key v t) as [t1|] eqn:E; [|discriminate].
    apply IH in H; [|tauto]. apply assign_organization in E; [congruence|].
    intros ->. tauto.
Qed.

(** A loop over keys that all are [status] leaves the task with the status
    of the body and touches nothing else. *)
Lemma copyFields_only_status ks b v s t :
  Forall (eq "status") ks -> lookup "status" b = Some v ->
  Status_of_string (jtext v) = Some s ->
  copyFields ks b (with_status s t) = Some (with_status s t).
Proof.
  intros Hks Hl Hs. induction Hks as [|k ks <- _ IH]; [reflexivity|].
  rewrite copyFields_cons, Hl. unfold assign, set. simpl. rewrite Hs. simpl.
  exact IH.
Qed.

(** The hooks touch [updatedAt] and [completedAt] only. *)
Lemma hooks_same now loaded t :
  _id (hooks now loaded t) = _id t
  /\ title (hooks now loaded t) = title t
  /\ description (hooks now loaded t) = description t
  /\ status (hooks now loaded t) = status t
  /\ priority (hooks now loaded t) = priority t
  /\ category (hooks now loaded t) = category t
  /\ dueDate (hooks now loaded t) = dueDate t
  /\ assignedTo (hooks now loaded t) = assignedTo t
  /\ createdBy (hooks now loaded t) = createdBy t
  /\ organization (hooks now loaded t) = organization t
  /\ comments (hooks now loaded t) = comments t
  /\ attachments (hooks now loaded t) = attachments t
  /\ createdAt (hooks now loaded t) = createdAt t.
Proof.
  unfold hooks, timestamps, preSave.
  destruct (isModified loaded t); cbn [status with_updatedAt];
    destruct (negb (Status_eqb (status t) (status loaded)));
    cbn [status completedAt with_updatedAt];
    destruct (Status_eqb (status t) Completed && negb (isSome (completedAt t)))%bool;
    try destruct (negb (Status_eqb (status t) Completed));
    cbn; repeat split; reflexivity.
Qed.

Lemma hooks_id now loaded t : _id (hooks now loaded t) = _id t.
Proof. apply hooks_same. Qed.


Lemma hooks_organization now loaded t :
  organization (hooks now loaded t) = organization t.
Proof. apply hooks_same. Qed.

Lemma preSave_id m now t : _id (preSave m now t) = _id t.
Proof.
  unfold preSave. destruct m; [|reflexivity].
  destruct (_ && _)%bool; [reflexivity|]. now destruct (negb _).
Qed.

Lemma preSave_status m now t : status (preSave m now t) = status t.
Proof.
  unfold preSave. destruct m; [|reflexivity].
  destruct (_ && _)%bool; [reflexivity|]. now destruct (negb _).
Qed.

Lemma preSave_organization m now t :
  organization (preSave m now t) = organization t.
Proof.
  unfold preSave. destruct m; [|reflexivity].
  destruct (_ && _)%bool; [reflexivity|]. now destruct (negb _).
Qed.

Lemma replace_In t tasks t' :
  In t' (replace t tasks) -> t' = t \/ In t' tasks.
Proof.
  unfold replace. rewrite in_map_iff. intros [d [H Hd]].
  destruct (N.eqb (_id d) (_id t)); subst; auto.
Qed.

(** The two ways of a save that succeeds. *)
Lemma save_cases loaded saved tasks tasks' :
  save loaded saved tasks = Some tasks' ->
  (_id saved = _id loaded /\ tasks' = replace saved tasks)
  \/ (_id saved <> _id loaded
      /\ tasks' = map (fun d => if N.eqb (_id d) (_id saved)
                                then write loaded saved d else d) tasks).
Proof.
  unfold save. destruct (N.eqb_spec (_id saved) (_id loaded)) as [E|E].
  - intros [= <-]. now left.
  - destruct (existsb _ tasks); [|discriminate]. intros [= <-]. now right.
Qed.

Lemma save_In loaded saved tasks tasks' t' :
  save loaded saved tasks = Some tasks' -> In t' tasks' ->
  In t' tasks
  \/ (_id saved = _id loaded /\ t' = saved)
  \/ (_id saved <> _id loaded
      /\ exists d, In d tasks /\ _id d = _id saved
                   /\ t' = write loaded saved d).
Proof.
  intros H Hin. destruct (save_cases _ _ _ H) as [[E ->]|[E ->]].
  - apply replace_In in Hin. tauto.
  - apply in_map_iff in Hin. destruct Hin as [d [Hd Hin]].
    destruct (N.eqb_spec (_id d) (_id saved)); subst; eauto 8.
Qed.

Lemma save_Forall2 (R : doc -> doc -> Prop) loaded saved tasks tasks' :
  save loaded saved tasks = Some tasks' ->
  (forall d, R d d) ->
  (_id saved = _id loaded ->
   forall d, In d tasks -> _id d = _id saved -> R d saved) ->
  (_id saved <> _id loaded ->
   forall d, In d tasks -> _id d = _id saved -> R d (write loaded saved d)) ->
  Forall2 R tasks tasks'.
Proof.
  intros H Hr H1 H2. destruct (save_cases _ _ _ H) as [[E ->]|[E ->]].
  - specialize (H1 E). unfold replace. clear H H2.
    induction tasks as [|d l IH]; cbn [map]; constructor.
    + destruct (N.eqb_spec (_id d) (_id saved)); [|apply Hr].
      apply H1; [now left|assumption].
    + apply IH. intros x Hx. apply H1. now right.
  - specialize (H2 E). clear H H1.
    induction tasks as [|d l IH]; cbn [map]; constructor.
    + destruct (N.eqb_spec (_id d) (_id saved)); [|apply Hr].
      apply H2; [now left|assumption].
    + apply IH. intros x Hx. apply H2. now right.
Qed.

(** A path that the save leaves as loaded is not written. *)
Lemma pick_kept {A} (eqb : A -> A -> bool) (l s st : A) :
  l = s -> eqb l l = true -> pick eqb l s st = st.
Proof. intros <- H. unfold pick. now rewrite H. Qed.


Lemma Status_eqb_eq a b : Status_eqb a b = true <-> a = b.
Proof. destruct a, b; simpl; split; congruence. Qed.

Lemma Status_eqb_sym a b : Status_eqb a b = Status_eqb b a.
Proof. now destruct a, b. Qed.

Lemma option_eqb_refl {A} (eqb : A -> A -> bool) (o : option A) :
  (forall x, eqb x x = true) -> option_eqb eqb o o = true.
Proof. intros H. destruct o; simpl; auto. Qed.

Lemma list_eqb_refl {A} (eqb : A -> A -> bool) (l : list A) :
  (forall x, eqb x x = true) -> list_eqb eqb l l = true.
Proof. intros H. induction l; simpl; [reflexivity|]. now rewrite H, IHl. Qed.

Lemma Comment_eqb_refl c : Comment_eqb c c = true.
Proof.
  unfold Comment_eqb. now rewrite N.eqb_refl, String.eqb_refl, Z.eqb_refl.
Qed.

Lemma Attachment_eqb_refl a : Attachment_eqb a a = true.
Proof.
  unfold Attachment_eqb.
  rewrite !String.eqb_refl, !Z.eqb_refl.
  now rewrite (option_eqb_refl N.eqb _ N.eqb_refl).
Qed.

(** What [isModified] sees of a document in which at most the status was
    assigned. *)
Lemma isModified_with_status s t :
  isModified t (with_status s t) = negb (Status_eqb (status t) s).
Proof.
  unfold isModified. cbn.
  rewrite N.eqb_refl, String.eqb_refl.
  rewrite (option_eqb_refl String.eqb _ String.eqb_refl).
  rewrite !(option_eqb_refl Z.eqb _ Z.eqb_refl).
  rewrite (option_eqb_refl N.eqb _ N.eqb_refl), !N.eqb_refl.
  rewrite (option_eqb_refl _ _ (fun l => list_eqb_refl _ l Comment_eqb_refl)).
  rewrite (option_eqb_refl _ _ (fun l => list_eqb_refl _ l Attachment_eqb_refl)).
  destruct (priority t), (category t); cbn; now rewrite ?andb_true_r.
Qed.

Lemma isModified_refl t : isModified t t = false.
Proof.
  replace t with (with_status (status t) t) at 2 by (now destruct t).
  rewrite isModified_with_status. destruct (status t); reflexivity.
Qed.

Lemma hooks_unmodified now t : hooks now t t = t.
Proof.
  unfold hooks. rewrite isModified_refl. cbn [timestamps].
  destruct (status t); reflexivity.
Qed.

Lemma hooks_with_status now s t :
  hooks now t (with_status s t)
  = preSave (negb (Status_eqb s (status t))) now
      (timestamps (negb (Status_eqb s (status t))) now (with_status s t)).
Proof.
  unfold hooks. rewrite isModified_with_status, (Status_eqb_sym (status t) s).
  assert (E : forall m, status (timestamps m now (with_status s t)) = s)
    by (intros []; reflexivity).
  now rewrite E.
Qed.

Lemma save_same_id loaded saved tasks :
  _id saved = _id loaded -> save loaded saved tasks = Some (replace saved tasks).
Proof. intros E. unfold save. now rewrite E, N.eqb_refl. Qed.

End FieldCopy.

(** ** What the update route can write *)

Section UpdateWays.

Import Task TaskRoutes.

(** The ways through [PUT /:id]: the collection is left as it was, or the
    task found is copied into, passed through the hooks and saved. *)
Lemma updateTask_stores now users tasks user id b :
  (snd (updateTask now users tasks user id b) = tasks
   /\ code (fst (updateTask now users tasks user id b)) <> 200)
  \/ exists o i task copied tasks',
       actor_organization user = Some o /\ id = Some i
       /\ validUpdate b = true
       /\ find (byId i o) tasks = Some task
       /\ (actor_role user = Member ->
           hasInvalidFields (sanitize b) = false)
       /\ assigneeChecked users o (sanitize b)
       /\ copyFields (keys (sanitize b)) (sanitize b) task = Some copied
       /\ save task (hooks now task copied) tasks = Some tasks'
       /\ updateTask now users tasks user id b
          = (Response 200 (PData (DTask (hooks now task copied))), tasks').
Proof.
  unfold updateTask, Tenant.tenantIsolation.
  destruct (actor_organization user) as [o|]; [|left; split; [reflexivity|discriminate]].
  destruct (validUpdate b) eqn:Ev; cbn [negb]; [|left; split; [reflexivity|discriminate]].
  destruct id as [i|]; [|left; split; [reflexivity|discriminate]].
  destruct (find (byId i o) tasks) as [task|] eqn:Ef; [|left; split; [reflexivity|discriminate]].
  destruct (Role_eqb (actor_role user) Member
            && negb (opt_id_eqb (assignedTo task) (actor_id user)))%bool;
    [left; split; [reflexivity|discriminate]|].
  destruct (Role_eqb (actor_role user) Member
            && hasInvalidFields (sanitize b))%bool eqn:Ei; [left; split; [reflexivity|discriminate]|].
  assert (Hm : actor_role user = Member -> hasInvalidFields (sanitize b) = false)
    by (intros Hr; rewrite Hr in Ei; exact Ei).
  cbv zeta.
  destruct (lookup "assignedTo" (sanitize b)) as [v|] eqn:El.
  - destruct (truthy v) eqn:Et.
    + destruct (castObjectId v) as [a|] eqn:Ec; [|left; split; [reflexivity|discriminate]].
      destruct (activeMember users o a) as [u|] eqn:Ea; cbn [isSome];
        [|left; split; [reflexivity|discriminate]].
      destruct (copyFields _ _ task) as [copied|] eqn:Ecp;
        [|left; split; [reflexivity|discriminate]].
      destruct (save task (hooks now task copied) tasks) as [tasks'|] eqn:Es;
        [|left; split; [reflexivity|discriminate]].
      right. exists o, i, task, copied, tasks'. repeat split; auto.
      intros v' Hv' _. rewrite El in Hv'. injection Hv' as <-.
      exists a. split; [exact Ec|]. congruence.
    + destruct (copyFields _ _ task) as [copied|] eqn:Ecp;
        [|left; split; [reflexivity|discriminate]].
      destruct (save task (hooks now task copied) tasks) as [tasks'|] eqn:Es;
        [|left; split; [reflexivity|discriminate]].
      right. exists o, i, task, copied, tasks'. repeat split; auto.
      intros v' Hv' Ht'. rewrite El in Hv'. injection Hv' as <-. congruence.
  - destruct (copyFields _ _ task) as [copied|] eqn:Ecp;
      [|left; split; [reflexivity|discriminate]].
    destruct (save task (hooks now task copied) tasks) as [tasks'|] eqn:Es;
      [|left; split; [reflexivity|discriminate]].
    right. exists o, i, task, copied, tasks'. repeat split; auto.
    intros v' Hv'. rewrite El in Hv'. discriminate.
Qed.

End UpdateWays.

(** C2 (the code departs from it).  The loop copies every key of the body
    into the task, so an Admin of organization 1 who sends
    [{ organization: <id of organization 2> }] moves task 7 into
    organization 2: the stored task then belongs to organization 2 and is
    out of reach of its former organization. *)
Theorem update_moves_task_to_other_organization :
  let b := [("organization", JId "000000000000000000000002" 2)] in
  let moved :=
    Task.with_updatedAt (Some 5000) (Task.with_organization 2 Sample.task7) in
  TaskRoutes.updateTask 5000 [] Sample.tasks Sample.admin1 (Some 7%N) b
  = (Response 200 (PData (TaskRoutes.DTask moved)),
     [moved; Sample.task8; Sample.task9])
  /\ Task.organization Sample.task7 = 1%N
  /\ Task.organization moved = 2%N
  /\ TaskRoutes.getTask [] [moved; Sample.task8; Sample.task9] Sample.admin2
       (Some 7%N)
     = Response 200 (PData (TaskRoutes.DTask moved))
  /\ TaskRoutes.getTask [] [moved; Sample.task8; Sample.task9] Sample.admin1
       (Some 7%N)
     = TaskRoutes.taskNotFound.
Proof. repeat split. Qed.

(** Without the key [organization] in the body, an update leaves every
    task in its organization. *)
Lemma update_keeps_organization now users tasks user id b t' :
  ~ In "organization" (keys b) ->
  In t' (snd (TaskRoutes.updateTask now users tasks user id b)) ->
  exists t, In t tasks /\ Task._id t = Task._id t'
            /\ Task.organization t = Task.organization t'.
Proof.
  intros Hk.
  destruct (updateTask_stores now users tasks user id b)
    as [[-> _]|[o [i [task [copied [tasks' [_ [_ [_ [Hf [_ [_ [Hc [Hs ->]]]]]]]]]]]]]];
    [eauto|].
  cbn [snd]. intros Hin. apply find_some in Hf. destruct Hf as [Hf _].
  rewrite keys_sanitize in Hc.
  pose proof (copyFields_organization _ _ _ Hc Hk) as Ho.
  destruct (save_In _ _ _ _ Hs Hin) as [H|[[E ->]|[_ [d [Hd [E ->]]]]]];
    [eauto| |].
  - exists task. rewrite E, hooks_organization. auto.
  - exists d. split; [exact Hd|]. split; [reflexivity|].
    cbn [Task.organization Task.write]. rewrite hooks_organization.
    symmetry. apply pick_kept; [now symmetry|apply N.eqb_refl].
Qed.

(** C3 (the code departs from it).  The hook recomputes [completedAt] only
    when [status] is modified, and the loop copies the key [completedAt]
    like any other: an Admin who sends [{ completedAt: <date> }] for the
    Todo task 7 leaves it Todo with a completion date. *)
Theorem update_sets_completedAt_without_completing :
  let b := [("completedAt", JDate "2020-01-01T00:00:00.000Z" 1577836800000)] in
  let saved :=
    Task.with_updatedAt (Some 5000)
      (Task.with_completedAt (Some 1577836800000) Sample.task7) in
  TaskRoutes.updateTask 5000 [] Sample.tasks Sample.admin1 (Some 7%N) b
  = (Response 200 (PData (TaskRoutes.DTask saved)),
     [saved; Sample.task8; Sample.task9])
  /\ Task.status saved = Todo
  /\ Task.completedAt saved = Some 1577836800000.
Proof. repeat split. Qed.

Section CompletedAt.

Import Task TaskRoutes.

Lemma preSave_establishes now old t :
  completedAt_iff_Completed old ->
  completedAt t = completedAt old ->
  let m := negb (Status_eqb (status t) (status old)) in
  completedAt_iff_Completed (preSave m now t).
Proof.
  unfold completedAt_iff_Completed, preSave. intros Hold Hc. simpl.
  destruct (Status_eqb (status t) (status old)) eqn:Es; simpl.
  - assert (status t = status old)
      by (destruct (status t), (status old); simpl in Es; congruence).
    rewrite Hc. congruence.
  - destruct (Status_eqb (status t) Completed) eqn:Ec; simpl.
    + assert (status t = Completed)
        by (destruct (status t); simpl in Ec; congruence).
      destruct (completedAt t) eqn:Ea; simpl; rewrite ?Ea;
        split; intros; congruence.
    + assert (status t <> Completed)
        by (destruct (status t); simpl in Ec; congruence).
      simpl. split; intros; congruence.
Qed.

Lemma hooks_establish now old t :
  completedAt_iff_Completed old ->
  completedAt t = completedAt old ->
  completedAt_iff_Completed (hooks now old t).
Proof.
  intros Hold Hc. unfold hooks.
  apply preSave_establishes; [exact Hold|].
  unfold timestamps. now destruct (isModified old t).
Qed.

(** An update whose body has neither the key [completedAt] nor the key
    [_id] keeps the invariant. *)
Lemma update_keeps_completedAt_invariant now users tasks user id b :
  ~ In "completedAt" (keys b) -> ~ In "_id" (keys b) ->
  Forall completedAt_iff_Completed tasks ->
  Forall completedAt_iff_Completed (snd (updateTask now users tasks user id b)).
Proof.
  intros Hk Hi Hall.
  destruct (updateTask_stores now users tasks user id b)
    as [[-> _]|[o [i [task [copied [tasks' [_ [_ [_ [Hf [_ [_ [Hc [Hs ->]]]]]]]]]]]]]];
    [exact Hall|].
  cbn [snd]. apply find_some in Hf. destruct Hf as [Hf _].
  rewrite keys_sanitize in Hc.
  apply Forall_forall. intros t' Hin. rewrite Forall_forall in Hall.
  destruct (save_In _ _ _ _ Hs Hin) as [H|[[E ->]|[E _]]]; [auto| |].
  - apply hooks_establish; [auto|].
    now apply (copyFields_completedAt _ _ _ Hc).
  - exfalso. apply E. rewrite hooks_id. now apply (copyFields_id _ _ _ Hc).
Qed.

(** A tick of the expiration job keeps the invariant. *)
Lemma expiration_keeps_completedAt_invariant now tasks :
  Forall completedAt_iff_Completed tasks ->
  Forall completedAt_iff_Completed (ExpirationJob.taskExpirationJob now tasks).
Proof.
  rewrite !Forall_forall. intros Hall t' H. apply swept_In in H.
  destruct H as [t [Hin ->]]. specialize (Hall t Hin).
  destruct (ExpirationJob.isOverdue now t) eqn:E; [|exact Hall].
  apply isOverdue_spec in E. destruct E as [_ [Hc _]].
  unfold completedAt_iff_Completed in *. simpl. split; [|discriminate].
  intros Hd. tauto.
Qed.

End CompletedAt.

(** ** Requests never expire a task *)

Section RequestsAndExpired.

Import Task TaskRoutes.

Lemma set_fresh_fields key v t t' o user :
  set key v t = Some t' ->
  key = "title" \/ key = "description" \/ key = "category"
  \/ key = "priority" \/ key = "assignedTo" ->
  fresh_fields o user t -> fresh_fields o user t'.
Proof.
  unfold fresh_fields.
  intros H [Hk | [Hk | [Hk | [Hk | Hk]]]]; subst key;
    unfold set in H; simpl in H; set_cases H; simpl; auto.
Qed.

Lemma setPath_fresh_fields key ov t t' o user :
  setPath key ov t = Some t' \/ requirePath key ov t = Some t' ->
  key = "title" \/ key = "description" \/ key = "category"
  \/ key = "priority" \/ key = "assignedTo" ->
  fresh_fields o user t -> fresh_fields o user t'.
Proof.
  unfold setPath, requirePath. destruct ov as [v|].
  - intros [H|H]; eapply set_fresh_fields; eauto.
  - intros [[= <-]|H]; [auto|discriminate].
Qed.

Lemma setDueDate_fresh_fields ov t t' o user :
  setDueDate ov t = Some t' ->
  fresh_fields o user t -> fresh_fields o user t'.
Proof.
  unfold setDueDate. destruct (orUndefined ov) as [v|].
  - destruct (newDate v); simpl; [|discriminate]. now intros [= <-].
  - now intros [= <-].
Qed.

Lemma newTask_fresh newId now o user b t :
  newTask newId now o user b = Some t -> fresh_fields o user t.
Proof.
  unfold newTask, bind. intros H.
  repeat match type of H with
    | match ?x with Some _ => _ | None => _ end = Some _ =>
        let E := fresh "E" in destruct x eqn:E; [|discriminate H]
    end.
  eapply setPath_fresh_fields; [left; exact H|tauto|].
  eapply setDueDate_fresh_fields; [eassumption|].
  eapply setPath_fresh_fields; [left; eassumption|tauto|].
  eapply setPath_fresh_fields; [right; eassumption|tauto|].
  eapply setPath_fresh_fields; [left; eassumption|tauto|].
  eapply setPath_fresh_fields; [right; eassumption|tauto|].
  unfold fresh_fields; simpl; tauto.
Qed.

(** What [POST /] stores: the collection, with at most one more task, whose
    status, completion date, organization and creator the body cannot
    choose. *)
Lemma createTask_stores newId now users tasks user b :
  snd (createTask newId now users tasks user b) = tasks
  \/ exists o t, actor_organization user = Some o /\ fresh_fields o user t
                 /\ snd (createTask newId now users tasks user b)
                    = (tasks ++ [t])%list.
Proof.
  unfold createTask, Tenant.tenantIsolation.
  destruct (actor_organization user) as [o|]; [|now left].
  destruct (negb (AuthMiddleware.authorize _ _)); [now left|].
  destruct (negb (validCreate b)); [now left|].
  match goal with |- context [match ?x with Some _ => _ | None => _ end] =>
    destruct x as [[|]|] end; try (now left).
  destruct (newTask _ _ _ _ _) as [task|] eqn:E; [|now left].
  right. exists o, task. apply newTask_fresh in E. auto.
Qed.



End RequestsAndExpired.



(** ** Updates by a Member *)

Lemma opt_id_eqb_true o i : opt_id_eqb o i = true <-> o = Some i.
Proof.
  unfold opt_id_eqb. destruct o as [j|]; [|split; discriminate].
  rewrite N.eqb_eq. split; congruence.
Qed.

Lemma lookup_In k b v : lookup k b = Some v -> In k (keys b).
Proof.
  induction b as [|[k' v'] b IH]; [discriminate|]. cbn [lookup keys map fst].
  destruct (String.eqb_spec k' k); [now left|]. intros H. right. now apply IH.
Qed.

Lemma hasInvalidFields_true b :
  TaskRoutes.hasInvalidFields b = true <->
  exists k, In k (keys b) /\ k <> "status".
Proof.
  unfold TaskRoutes.hasInvalidFields. rewrite existsb_exists.
  split; intros [k [Hin Hk]]; exists k; split; auto.
  - intros ->. discriminate.
  - cbn [existsb]. rewrite orb_false_r.
    destruct (String.eqb_spec k "status"); [contradiction|reflexivity].
Qed.

(** C4 (as amended).  For an update by a Member of a task of the Member's
    organization: a body that fails the field validation is rejected with
    ValidationError; a body that passes it is denied with ForbiddenError
    when the Member is not the assignee, and also when the Member is the
    assignee and the body has a key other than [status]; the collection is
    left as it was in all three cases.  A valid body with no key other than
    [status], sent by the assignee, is applied: the task takes the status
    of the body, a change of status is stamped in [updatedAt], the hook
    recomputes [completedAt], and nothing else changes. *)
Theorem member_update_policy
  (now : Date) (users : list User.doc) (tasks : list Task.doc)
  (user : Actor) (o id : ObjectId) (task : Task.doc) (b : body) :
  actor_role user = Member ->
  actor_organization user = Some o ->
  find (TaskRoutes.byId id o) tasks = Some task ->
  let result := TaskRoutes.updateTask now users tasks user (Some id) b in
  (TaskRoutes.validUpdate b = false ->
   result = (TaskRoutes.validationFailed, tasks))
  /\ (TaskRoutes.validUpdate b = true ->
      Task.assignedTo task <> Some (actor_id user) ->
      result = (TaskRoutes.accessDenied, tasks))
  /\ (TaskRoutes.validUpdate b = true ->
      Task.assignedTo task = Some (actor_id user) ->
      (exists k, In k (keys b) /\ k <> "status") ->
      result = (TaskRoutes.membersOnlyStatus, tasks))
  /\ (TaskRoutes.validUpdate b = true ->
      Task.assignedTo task = Some (actor_id user) ->
      (forall k, In k (keys b) -> k = "status") ->
      exists task',
        result = (Response 200 (PData (TaskRoutes.DTask task')),
                  Task.replace task' tasks)
        /\ match lookup "status" b with
           | Some v =>
               exists s,
                 Status_of_string (jtext v) = Some s
                 /\ task' = Task.preSave
                              (negb (Status_eqb s (Task.status task))) now
                              (Task.timestamps
                                 (negb (Status_eqb s (Task.status task))) now
                                 (Task.with_status s task))
           | None => task' = task
           end)
  /\ kind TaskRoutes.accessDenied = Some ForbiddenError
  /\ kind TaskRoutes.membersOnlyStatus = Some ForbiddenError
  /\ kind TaskRoutes.validationFailed = Some ValidationError.
Proof.
  intros Hrole Ho Hfind result. subst result.
  unfold TaskRoutes.updateTask, Tenant.tenantIsolation. rewrite Ho, Hrole.
  cbn [Role_eqb andb].
  split; [intros ->; reflexivity|].
  split; [|split; [|split; [|repeat split]]].
  - intros -> Hna. cbn [negb]. rewrite Hfind.
    destruct (opt_id_eqb (Task.assignedTo task) (actor_id user)) eqn:E;
      [|reflexivity].
    apply opt_id_eqb_true in E. contradiction.
  - intros -> Ha Hk. cbn [negb]. rewrite Hfind.
    apply opt_id_eqb_true in Ha. rewrite Ha. cbn [negb].
    assert (E : TaskRoutes.hasInvalidFields (TaskRoutes.sanitize b) = true).
    { apply hasInvalidFields_true. now rewrite keys_sanitize. }
    now rewrite E.
  - intros Hv Ha Hk. rewrite Hv. cbn [negb]. rewrite Hfind.
    apply opt_id_eqb_true in Ha. rewrite Ha. cbn [negb].
    assert (E : TaskRoutes.hasInvalidFields (TaskRoutes.sanitize b) = false).
    { destruct (TaskRoutes.hasInvalidFields (TaskRoutes.sanitize b)) eqn:E;
        [|reflexivity].
      apply hasInvalidFields_true in E. rewrite keys_sanitize in E.
      destruct E as [k [Hin Hne]]. now apply Hk in Hin. }
    rewrite E.
    assert (Hl : lookup "assignedTo" (TaskRoutes.sanitize b) = None).
    { rewrite lookup_sanitize_other by discriminate.
      destruct (lookup "assignedTo" b) eqn:El; [|reflexivity].
      apply lookup_In, Hk in El. discriminate. }
    rewrite Hl, keys_sanitize.
    destruct (lookup "status" b) as [v|] eqn:Es.
    + assert (Hs : lookup "status" (TaskRoutes.sanitize b) = Some v)
        by now rewrite lookup_sanitize_other.
      destruct (whitelisted_status _ (validUpdate_sanitize_status _ Hv Hs))
        as [s [Hp _]].
      assert (Hks : Forall (eq "status") (keys b)).
      { apply Forall_forall. intros k Hin. symmetry. now apply Hk. }
      assert (Hc : TaskRoutes.copyFields (keys b) (TaskRoutes.sanitize b) task
                   = Some (Task.with_status s task)).
      { pose proof (lookup_In _ _ Es) as Hne.
        destruct Hks as [|k ks <- Hks]; [contradiction|].
        rewrite copyFields_cons, Hs. unfold TaskRoutes.assign, Task.set. simpl.
        rewrite Hp. simpl.
        now apply copyFields_only_status with (v := v). }
      rewrite Hc, hooks_with_status, save_same_id
        by (now rewrite preSave_id; unfold Task.timestamps;
            destruct (negb _)).
      eexists. split; [reflexivity|]. exists s. now split.
    + assert (Hb : keys b = []).
      { destruct b as [|[k v] b']; [reflexivity|]. exfalso.
        assert (k = "status") by (apply Hk; now left). subst k.
        cbn [lookup] in Es. now rewrite String.eqb_refl in Es. }
      rewrite Hb. cbn [TaskRoutes.copyFields].
      rewrite hooks_unmodified, save_same_id by reflexivity.
      eexists. split; reflexivity.
Qed.

Lemma member_update_policy_witness :
  TaskRoutes.updateTask 5000 [] Sample.tasks Sample.member11 (Some 7%N)
    [("status", JStr "Completed"); ("title", JStr "Mine")]
  = (TaskRoutes.membersOnlyStatus, Sample.tasks).
Proof.
  apply (@member_update_policy 5000 [] Sample.tasks Sample.member11
           1%N 7%N Sample.task7
           [("status", JStr "Completed"); ("title", JStr "Mine")]).
  - reflexivity.
  - reflexivity.
  - reflexivity.
  - reflexivity.
  - reflexivity.
  - exists "title". split; [simpl; tauto|discriminate].
Defined.

(** C4 (as stated) fails: a Member who is not the assignee and sends a body
    that fails the validation is answered ValidationError, not
    ForbiddenError. *)
Lemma member_update_invalid_body_not_Forbidden :
  actor_role Sample.member12 = Member
  /\ find (TaskRoutes.byId 7 1) Sample.tasks = Some Sample.task7
  /\ Task.assignedTo Sample.task7 <> Some (actor_id Sample.member12)
  /\ kind (fst (TaskRoutes.updateTask 5000 [] Sample.tasks Sample.member12
                  (Some 7%N) [("status", JStr "Expired")]))
     = Some ValidationError.
Proof. repeat split; discriminate. Qed.

(** ** Slugs of organizations *)

Section Slugs.

Import Organization.

Lemma string_length_append (a b : string) :
  String.length (a ++ b) = (String.length a + String.length b)%nat.
Proof. induction a as [|c a IH]; simpl; [reflexivity|now rewrite IH]. Qed.

Lemma string_append_inj (a x y : string) : a ++ x = a ++ y -> x = y.
Proof. induction a as [|c a IH]; simpl; [auto|]. intros [= H]. auto. Qed.

Lemma decimal_inj n m : decimal n = decimal m -> n = m.
Proof.
  unfold decimal. intros H. apply DecimalNat.Unsigned.to_uint_inj.
  pose proof (NilEmpty.usu (Nat.to_uint n)) as Hn.
  pose proof (NilEmpty.usu (Nat.to_uint m)) as Hm.
  rewrite H in Hn. congruence.
Qed.

Lemma candidate_inj baseSlug i j :
  candidate baseSlug i = candidate baseSlug j -> i = j.
Proof.
  assert (Hlen : forall k, candidate baseSlug (S k) <> baseSlug).
  { intros k H. apply (f_equal String.length) in H. simpl in H.
    unfold suffixed in H. rewrite string_length_append in H. simpl in H. lia. }
  destruct i as [|i], j as [|j]; intros H; auto.
  - symmetry in H. now apply Hlen in H.
  - now apply Hlen in H.
  - simpl in H. unfold suffixed in H. apply string_append_inj in H.
    simpl in H. injection H as H. now apply decimal_inj.
Qed.

Variable orgs : list doc.
Variable self : ObjectId.
Variable baseSlug : string.

Lemma taken_In s : taken orgs self s = true -> In s (map slug orgs).
Proof.
  unfold taken. rewrite existsb_exists. intros [o [Hin H]].
  apply andb_true_iff in H. destruct H as [H _]. apply String.eqb_eq in H.
  subst s. now apply in_map.
Qed.

Lemma taken_false s :
  taken orgs self s = false <->
  forall o, In o orgs -> _id o <> self -> slug o <> s.
Proof.
  unfold taken. split.
  - intros H o Hin Hid Hs.
    assert (existsb (fun o => (slug o =? s) && negb (N.eqb (_id o) self))%bool
              orgs = true); [|congruence].
    apply existsb_exists. exists o. split; [exact Hin|].
    apply andb_true_iff. split; [now apply String.eqb_eq|].
    apply negb_true_iff. now apply N.eqb_neq.
  - intros H. destruct (existsb _ orgs) eqn:E; [|reflexivity].
    apply existsb_exists in E. destruct E as [o [Hin E]].
    apply andb_true_iff in E. destruct E as [E1 E2].
    apply String.eqb_eq in E1. apply negb_true_iff, N.eqb_neq in E2.
    exfalso. exact (H o Hin E2 E1).
Qed.

(** The loop from its [k]-th test on: it stops at the first candidate that
    is free, or uses up its fuel on candidates that are all taken. *)
Lemma freeSlug_from fuel k :
  (exists j, (k <= j < k + fuel)%nat
             /\ freeSlug fuel orgs self baseSlug (candidate baseSlug k) (S k)
                = Some (candidate baseSlug j)
             /\ taken orgs self (candidate baseSlug j) = false
             /\ forall i, (k <= i < j)%nat ->
                          taken orgs self (candidate baseSlug i) = true)
  \/ (freeSlug fuel orgs self baseSlug (candidate baseSlug k) (S k) = None
      /\ forall i, (k <= i < k + fuel)%nat ->
                   taken orgs self (candidate baseSlug i) = true).
Proof.
  revert k. induction fuel as [|fuel IH]; intros k.
  - right. split; [reflexivity|]. intros i Hi. lia.
  - cbn [freeSlug].
    destruct (taken orgs self (candidate baseSlug k)) eqn:Et.
    + change (suffixed baseSlug (S k)) with (candidate baseSlug (S k)).
      destruct (IH (S k)) as [[j [Hj [Hf [Hfree Hbefore]]]]|[Hf Hall]].
      * left. exists j. split; [lia|]. split; [exact Hf|].
        split; [exact Hfree|]. intros i Hi.
        destruct (Nat.eq_dec i k) as [->|Hne]; [exact Et|].
        apply Hbefore. lia.
      * right. split; [exact Hf|]. intros i Hi.
        destruct (Nat.eq_dec i k) as [->|Hne]; [exact Et|].
        apply Hall. lia.
    + left. exists k. split; [lia|]. split; [reflexivity|].
      split; [exact Et|]. intros i Hi. lia.
Qed.

(** No more slugs can be taken than there are organizations. *)
Lemma not_all_taken :
  ~ (forall i, (i < S (List.length orgs))%nat ->
               taken orgs self (candidate baseSlug i) = true).
Proof.
  intros Hall.
  assert (Hincl : incl (map (candidate baseSlug) (seq 0 (S (List.length orgs))))
                    (map slug orgs)).
  { intros s Hs. apply in_map_iff in Hs. destruct Hs as [i [<- Hi]].
    apply in_seq in Hi. apply taken_In, Hall. lia. }
  assert (Hnd : NoDup (map (candidate baseSlug) (seq 0 (S (List.length orgs))))).
  { assert (G : forall l, NoDup l -> NoDup (map (candidate baseSlug) l)).
    { induction 1 as [|x l Hx Hl IHl]; simpl; constructor; auto.
      rewrite in_map_iff. intros [y [Hy Hin]].
      apply candidate_inj in Hy. now subst. }
    apply G, seq_NoDup. }
  pose proof (NoDup_incl_length Hnd Hincl) as Hlen.
  rewrite !length_map, length_seq in Hlen. lia.
Qed.

(** With [S (length orgs)] tests the loop finds the first free candidate. *)
Lemma freeSlug_returns :
  exists k,
    freeSlug (S (List.length orgs)) orgs self baseSlug baseSlug 1
    = Some (candidate baseSlug k)
    /\ taken orgs self (candidate baseSlug k) = false
    /\ forall i, (i < k)%nat -> taken orgs self (candidate baseSlug i) = true.
Proof.
  destruct (freeSlug_from (S (List.length orgs)) 0)
    as [[j [Hj [Hf [Hfree Hbefore]]]]|[_ Hall]].
  - exists j. split; [exact Hf|]. split; [exact Hfree|].
    intros i Hi. apply Hbefore. lia.
  - exfalso. apply not_all_taken. intros i Hi. apply Hall. lia.
Qed.

End Slugs.

Section SlugUniqueness.

Import Organization.

Lemma preSave_returns m orgs this :
  exists saved, preSave m orgs this = Some saved.
Proof.
  unfold preSave. destruct m; [|now exists this].
  destruct (freeSlug_returns orgs (_id this) (baseSlugOf (name this)))
    as [k [-> _]].
  eauto.
Qed.

Lemma preSave_recomputes orgs this saved :
  preSave true orgs this = Some saved ->
  exists k,
    saved = with_slug (candidate (baseSlugOf (name this)) k) this
    /\ taken orgs (_id this) (slug saved) = false
    /\ forall i, (i < k)%nat ->
         taken orgs (_id this) (candidate (baseSlugOf (name this)) i) = true.
Proof.
  unfold preSave.
  destruct (freeSlug_returns orgs (_id this) (baseSlugOf (name this)))
    as [k [-> [Hfree Hbefore]]].
  intros [= <-]. exists k. auto.
Qed.

Lemma insert_keeps_slugs_unique orgs saved :
  NoDup (map slug orgs) -> ~ In (_id saved) (map _id orgs) ->
  taken orgs (_id saved) (slug saved) = false ->
  NoDup (map slug (insert saved orgs)).
Proof.
  intros Hnd Hfresh Hfree. unfold insert. rewrite map_app.
  apply NoDup_app; [exact Hnd|repeat constructor; simpl; tauto|].
  intros s Hs [<-|[]]. apply in_map_iff in Hs. destruct Hs as [o [Hs Hin]].
  rewrite taken_false in Hfree. apply (Hfree o Hin); [|exact Hs].
  intros Hid. apply Hfresh. rewrite <- Hid. now apply in_map.
Qed.

Lemma replace_fresh saved orgs :
  ~ In (_id saved) (map _id orgs) -> replace saved orgs = orgs.
Proof.
  intros Hn. unfold replace. rewrite <- (map_id orgs) at 2.
  apply map_ext_in. intros d Hd.
  destruct (N.eqb_spec (_id d) (_id saved)) as [E|E]; [|reflexivity].
  exfalso. apply Hn. rewrite <- E. now apply in_map.
Qed.

Lemma replace_keeps_slugs_unique orgs saved :
  NoDup (map _id orgs) -> NoDup (map slug orgs) ->
  (forall d, In d orgs -> _id d <> _id saved -> slug d <> slug saved) ->
  NoDup (map slug (replace saved orgs)).
Proof.
  induction orgs as [|d l IH]; intros Hid Hnd Hfree; [constructor|].
  inversion Hid as [|? ? Hd Hl]; subst. inversion Hnd as [|? ? Hsd Hsl]; subst.
  cbn [replace map]. destruct (N.eqb_spec (_id d) (_id saved)) as [E|E].
  - fold (replace saved l). rewrite replace_fresh by now rewrite <- E.
    constructor; [|exact Hsl]. rewrite in_map_iff. intros [d' [Hs Hin]].
    apply (Hfree d'); [now right| |exact Hs].
    intros E'. apply Hd. rewrite E, <- E'. now apply in_map.
  - fold (replace saved l). constructor.
    + rewrite in_map_iff. intros [d' [Hs Hin]].
      unfold replace in Hin. apply in_map_iff in Hin.
      destruct Hin as [d'' [Hd'' Hin]].
      destruct (N.eqb (_id d'') (_id saved)); subst d'.
      * apply (Hfree d); [now left|exact E|now symmetry].
      * apply Hsd. rewrite <- Hs. now apply in_map.
    + apply IH; auto. intros d' Hin. apply Hfree. now right.
Qed.

End SlugUniqueness.

Section SlugsOfTheRoutes.

Import Organization.

Variable orgs : list doc.
Hypothesis slugs_unique : NoDup (map slug orgs).

(** The slug that a plain collision produces. *)
Lemma second_gets_suffix_1 this :
  let baseSlug := baseSlugOf (name this) in
  taken orgs (_id this) baseSlug = true ->
  taken orgs (_id this) (baseSlug ++ "-1") = false ->
  preSave true orgs this = Some (with_slug (baseSlug ++ "-1") this).
Proof.
  intros baseSlug H0 H1.
  destruct (preSave_returns true orgs this) as [saved Hs]. rewrite Hs.
  destruct (preSave_recomputes orgs this Hs) as [k [-> [Hfree Hbefore]]].
  fold baseSlug in Hbefore, Hfree |- *. simpl in Hfree.
  destruct k as [|[|k]].
  - simpl in Hfree. congruence.
  - reflexivity.
  - specialize (Hbefore 1%nat ltac:(lia)).
    change (candidate baseSlug 1) with (baseSlug ++ "-1") in Hbefore.
    congruence.
Qed.

(** What [PUT /settings] stores. *)
Lemma updateSettings_stores user b :
  (code (fst (OrganizationRoutes.updateSettings orgs user b)) <> 200
   /\ snd (OrganizationRoutes.updateSettings orgs user b) = orgs)
  \/ exists old saved,
       In old orgs /\ _id saved = _id old
       /\ OrganizationRoutes.updateSettings orgs user b
          = (Response 200 (PData saved), replace saved orgs)
       /\ (name saved = name old -> slug saved = slug old)
       /\ (name saved <> name old ->
           exists k,
             slug saved = candidate (baseSlugOf (name saved)) k
             /\ taken orgs (_id saved) (slug saved) = false
             /\ forall i, (i < k)%nat ->
                  taken orgs (_id saved)
                    (candidate (baseSlugOf (name saved)) i) = true).
Proof.
  unfold OrganizationRoutes.updateSettings.
  destruct (Tenant.tenantIsolation user) as [o|];
    [|left; split; [discriminate|reflexivity]].
  destruct (negb (AuthMiddleware.authorize _ _));
    [left; split; [discriminate|reflexivity]|].
  destruct (negb (optional _ _ _ && optional _ _ _)%bool);
    [left; split; [discriminate|reflexivity]|].
  destruct (find _ orgs) as [old|] eqn:Ef;
    [|left; split; [discriminate|reflexivity]].
  apply find_some in Ef. destruct Ef as [Hin _].
  cbv zeta.
  set (described := OrganizationRoutes.describe _ _).
  assert (Hid : _id described = _id old)
    by (subst described;
        unfold OrganizationRoutes.describe, OrganizationRoutes.rename;
        repeat match goal with
          | |- context [match ?x with _ => _ end] => destruct x
          end; reflexivity).
  assert (Hslug : slug described = slug old)
    by (subst described;
        unfold OrganizationRoutes.describe, OrganizationRoutes.rename;
        repeat match goal with
          | |- context [match ?x with _ => _ end] => destruct x
          end; reflexivity).
  set (modified := negb _).
  destruct (preSave_returns modified orgs described) as [saved Hs].
  rewrite Hs. right. exists old, saved.
  destruct modified eqn:Em.
  - destruct (preSave_recomputes orgs described Hs)
      as [k [-> [Hfree Hbefore]]].
    split; [exact Hin|]. split; [exact Hid|]. split; [reflexivity|].
    subst modified. apply negb_true_iff, String.eqb_neq in Em.
    split; [intros H; simpl in H; contradiction|].
    intros _. exists k. auto.
  - unfold preSave in Hs. injection Hs as <-.
    split; [exact Hin|]. split; [exact Hid|]. split; [reflexivity|].
    subst modified. apply negb_false_iff, String.eqb_eq in Em.
    split; [intros _; exact Hslug|]. intros H. contradiction.
Qed.

Hypothesis ids_unique : NoDup (map _id orgs).

Lemma updateSettings_keeps_slugs_unique user b :
  NoDup (map slug (snd (OrganizationRoutes.updateSettings orgs user b))).
Proof.
  destruct (updateSettings_stores user b)
    as [[_ ->]|[old [saved [Hin [Hid [-> [Hsame Hnew]]]]]]];
    [exact slugs_unique|].
  cbn [snd]. apply replace_keeps_slugs_unique; auto.
  intros d Hd Hne.
  destruct (String.eqb_spec (name saved) (name old)) as [E|E].
  - rewrite (Hsame E). intros Hs. apply Hne. rewrite Hid.
    f_equal. exact (@NoDup_map_eq _ _ slug orgs d old slugs_unique Hd Hin Hs).
  - destruct (Hnew E) as [k [_ [Hfree _]]].
    rewrite taken_false in Hfree. now apply Hfree.
Qed.

Variable isEmail : string -> bool.
Variables normalizeEmail bcryptHash : string -> string.
Variable jwtSign : ObjectId -> string.

Lemma register_keeps_slugs_unique newUserId newOrgId now users
  name email password organizationName :
  ~ In newOrgId (map _id orgs) ->
  NoDup (map slug
           (snd (AuthRoutes.register isEmail normalizeEmail bcryptHash jwtSign
                   newUserId newOrgId now users orgs
                   name email password organizationName))).
Proof.
  intros Hfresh. unfold AuthRoutes.register.
  destruct (negb _); [exact slugs_unique|].
  destruct (AuthRoutes.findByEmail _ _); [exact slugs_unique|].
  cbv zeta. cbn [slug].
  destruct (String.eqb _ ""); [exact slugs_unique|].
  match goal with |- context [preSave true orgs ?d] =>
    destruct (preSave true orgs d) as [saved|] eqn:Hs end;
    [|exact slugs_unique].
  cbn [snd].
  destruct (preSave_recomputes orgs _ Hs) as [k [Hsaved [Hfree _]]].
  assert (Hid : _id saved = newOrgId) by (rewrite Hsaved; reflexivity).
  apply insert_keeps_slugs_unique; auto.
  - now rewrite Hid.
  - now rewrite Hid.
Qed.

End SlugsOfTheRoutes.

(** C6.  In a collection whose slugs are pairwise distinct, the hook that
    runs on every save of an organization always ends; when the name is
    new or has changed it sets the slug to the first of the base slug and
    its suffixed forms [-1], [-2], ... that no other organization has, so
    an organization saved while another one holds its base slug (and not
    the suffix [-1]) gets the suffix [-1]; and the slugs are still pairwise
    distinct after a registration and after a change of settings, the slug
    of a renamed organization being recomputed in that way. *)
Theorem slugs_unique_and_suffixed_in_order
  (isEmail : string -> bool) (normalizeEmail bcryptHash : string -> string)
  (jwtSign : ObjectId -> string) (orgs : list Organization.doc) :
  NoDup (map Organization.slug orgs) ->
  NoDup (map Organization._id orgs) ->
  (forall m this, exists saved, Organization.preSave m orgs this = Some saved)
  /\ (forall this saved,
        Organization.preSave true orgs this = Some saved ->
        let baseSlug := Organization.baseSlugOf (Organization.name this) in
        exists k,
          saved = Organization.with_slug (candidate baseSlug k) this
          /\ Organization.taken orgs (Organization._id this)
               (Organization.slug saved) = false
          /\ forall i, (i < k)%nat ->
               Organization.taken orgs (Organization._id this)
                 (candidate baseSlug i) = true)
  /\ (forall this,
        let baseSlug := Organization.baseSlugOf (Organization.name this) in
        Organization.taken orgs (Organization._id this) baseSlug = true ->
        Organization.taken orgs (Organization._id this) (baseSlug ++ "-1")
        = false ->
        Organization.preSave true orgs this
        = Some (Organization.with_slug (baseSlug ++ "-1") this))
  /\ (forall newUserId newOrgId now users name email password organizationName,
        ~ In newOrgId (map Organization._id orgs) ->
        NoDup (map Organization.slug
                 (snd (AuthRoutes.register isEmail normalizeEmail bcryptHash
                         jwtSign newUserId newOrgId now users orgs
                         name email password organizationName))))
  /\ (forall user b,
        NoDup (map Organization.slug
                 (snd (OrganizationRoutes.updateSettings orgs user b))))
  /\ (forall user b saved orgs',
        OrganizationRoutes.updateSettings orgs user b
        = (Response 200 (PData saved), orgs') ->
        exists old,
          In old orgs /\ Organization._id saved = Organization._id old
          /\ orgs' = Organization.replace saved orgs
          /\ (Organization.name saved = Organization.name old ->
              Organization.slug saved = Organization.slug old)
          /\ (Organization.name saved <> Organization.name old ->
              let baseSlug :=
                Organization.baseSlugOf (Organization.name saved) in
              exists k,
                Organization.slug saved = candidate baseSlug k
                /\ Organization.taken orgs (Organization._id saved)
                     (Organization.slug saved) = false
                /\ forall i, (i < k)%nat ->
                     Organization.taken orgs (Organization._id saved)
                       (candidate baseSlug i) = true)).
Proof.
  intros Hslugs Hids.
  split; [intros m this; apply preSave_returns|].
  split; [intros this saved H; now apply preSave_recomputes|].
  split; [intros this; now apply second_gets_suffix_1|].
  split; [intros; now apply register_keeps_slugs_unique|].
  split; [intros; now apply updateSettings_keeps_slugs_unique|].
  intros user b saved orgs' H.
  destruct (updateSettings_stores orgs user b)
    as [[Hc _]|[old [saved' [Hin [Hid [E [Hsame Hnew]]]]]]].
  - rewrite H in Hc. simpl in Hc. contradiction.
  - rewrite H in E. injection E as -> ->. exists old. auto.
Qed.

Lemma slugs_unique_and_suffixed_in_order_witness :
  Organization.preSave true Sample.orgs Sample.acme_again
  = Some (Organization.with_slug "acme-corp-1" Sample.acme_again).
Proof.
  assert (Hslugs : NoDup (map Organization.slug Sample.orgs))
    by (repeat constructor; simpl; intuition discriminate).
  assert (Hids : NoDup (map Organization._id Sample.orgs))
    by (repeat constructor; simpl; intuition discriminate).
  destruct (@slugs_unique_and_suffixed_in_order
              (fun _ => true) (fun e => e) (fun p => p) (fun _ => "")
              Sample.orgs Hslugs Hids) as [_ [_ [H _]]].
  apply (H Sample.acme_again); reflexivity.
Defined.

(** ** Login and invitations *)

Section Credentials.

Variable isEmail : string -> bool.
Variables normalizeEmail bcryptHash : string -> string.
Variable bcryptCompare : string -> string -> bool.
Variable jwtSign : ObjectId -> string.

(** A failed login with a password that is a string. *)
Lemma login_failure now users orgs email (password : jvalue) :
  NoDup (map User.email users) ->
  isEmail email = true ->
  password <> JNull ->
  LoginFailure normalizeEmail bcryptCompare users email (jtext password) ->
  AuthRoutes.login isEmail normalizeEmail bcryptCompare jwtSign
    now users orgs (Some email) (Some password)
  = (AuthRoutes.invalidCredentials, users).
Proof.
  intros Hnd He Hstr Hf.
  unfold AuthRoutes.login, AuthRoutes.comparePassword, lookedUp in *. cbn [AuthRoutes.text isSome].
  rewrite He. cbn [andb negb].
  destruct Hf as [Hno|u Hin Hmail Hact|u Hin Hmail Hact Hpw];
    unfold lookedUp in *.
  - replace (find _ users) with (@None User.doc); [reflexivity|].
    symmetry. apply find_none_iff. intros x Hx.
    apply andb_false_iff. left. apply String.eqb_neq. now apply Hno.
  - replace (find _ users) with (@None User.doc); [reflexivity|].
    symmetry. apply find_none_iff. intros x Hx.
    destruct (String.eqb_spec (User.email x)
                (AuthRoutes.emailSetter (normalizeEmail email))) as [E|E];
      [|reflexivity].
    assert (x = u)
      by (apply (@NoDup_map_eq _ _ User.email users x u Hnd Hx Hin);
          congruence).
    subst x. now rewrite Hact.
  - destruct (find _ users) as [x|] eqn:Ef.
    + apply find_some in Ef. destruct Ef as [Hx Hp].
      apply andb_true_iff in Hp. destruct Hp as [Hp _].
      apply String.eqb_eq in Hp.
      assert (x = u)
        by (apply (@NoDup_map_eq _ _ User.email users x u Hnd Hx Hin);
            congruence).
      subst x. destruct password; [contradiction| | | |];
        cbn [jtext] in Hpw |- *; now rewrite Hpw.
    + exfalso. apply (find_none _ _ Ef) in Hin.
      apply andb_false_iff in Hin. destruct Hin as [Hin|Hin].
      * apply String.eqb_neq in Hin. contradiction.
      * congruence.
Qed.

(** A pending invitation stays the first match of its token until it
    expires, whatever is appended to the collection. *)
Lemma pendingInvite_later now now2 tok users inviter more :
  find (AuthRoutes.pendingInvite now tok) users = Some inviter ->
  now <= now2 ->
  AuthRoutes.pendingInvite now2 tok inviter = true ->
  find (AuthRoutes.pendingInvite now2 tok) (users ++ more)%list = Some inviter.
Proof.
  intros Hf Hle Hp. induction users as [|x users IH]; [discriminate|].
  cbn [find app] in *.
  destruct (AuthRoutes.pendingInvite now tok x) eqn:Ex.
  - injection Hf as ->. now rewrite Hp.
  - assert (E : AuthRoutes.pendingInvite now2 tok x = false).
    { unfold AuthRoutes.pendingInvite in *.
      apply andb_false_iff in Ex. apply andb_false_iff.
      destruct Ex as [Ex|Ex]; [now left|right].
      destruct (User.inviteExpires x) as [e|]; [|reflexivity].
      apply Z.ltb_ge in Ex. apply Z.ltb_ge. lia. }
    rewrite E. now apply IH.
Qed.

Lemma join_succeeds newId now users orgs name email password tok inviter org :
  isLength 2 100 (trim name) = true ->
  isEmail email = true ->
  minLength 6 password = true ->
  find (AuthRoutes.pendingInvite now tok) users = Some inviter ->
  AuthRoutes.findOrganization orgs (User.organization inviter) = Some org ->
  AuthRoutes.findByEmail users (normalizeEmail email) = None ->
  AuthRoutes.join isEmail normalizeEmail bcryptHash jwtSign
    newId now users orgs (Some name) (Some email) (Some password) (Some tok)
  = (Response 201
       (PData (AuthRoutes.session jwtSign
                 (AuthRoutes.newUser bcryptHash newId now (trim name)
                    (normalizeEmail email) password
                    (Some (Organization._id org)) Member)
                 org)),
     (users ++ [AuthRoutes.newUser bcryptHash newId now (trim name)
                  (normalizeEmail email) password
                  (Some (Organization._id org)) Member])%list).
Proof.
  intros Hn He Hp Hinv Horg Hmail. unfold AuthRoutes.join.
  cbn [AuthRoutes.text isSome]. rewrite Hn, He, Hp. cbn [andb negb].
  now rewrite Hinv, Hmail, Horg.
Qed.

End Credentials.

(** X25.  With a password that is a string, a login for an address nobody
    has, a login for the address of an inactive user and a login with a
    wrong password for an active user get the same answer, the 400 response
    "Invalid credentials", and leave the users as they were.  (Addresses
    are unique, as the index of the schema has it.) *)
Lemma string_password_failures_indistinguishable
  (isEmail : string -> bool) (normalizeEmail : string -> string)
  (bcryptCompare : string -> string -> bool) (jwtSign : ObjectId -> string)
  (now1 now2 : Date) (users1 users2 : list User.doc)
  (orgs1 orgs2 : list Organization.doc)
  (email1 email2 : string) (password1 password2 : jvalue) :
  NoDup (map User.email users1) -> NoDup (map User.email users2) ->
  isEmail email1 = true -> isEmail email2 = true ->
  password1 <> JNull -> password2 <> JNull ->
  LoginFailure normalizeEmail bcryptCompare users1 email1 (jtext password1) ->
  LoginFailure normalizeEmail bcryptCompare users2 email2 (jtext password2) ->
  let run1 := AuthRoutes.login isEmail normalizeEmail bcryptCompare jwtSign
                now1 users1 orgs1 (Some email1) (Some password1) in
  let run2 := AuthRoutes.login isEmail normalizeEmail bcryptCompare jwtSign
                now2 users2 orgs2 (Some email2) (Some password2) in
  fst run1 = fst run2
  /\ fst run1 = Response 400 (PMessage "Invalid credentials")
  /\ snd run1 = users1.
Proof.
  intros Hnd1 Hnd2 He1 He2 Hs1 Hs2 Hf1 Hf2 run1 run2. subst run1 run2.
  rewrite (@login_failure isEmail normalizeEmail bcryptCompare jwtSign
             now1 users1 orgs1 email1 password1 Hnd1 He1 Hs1 Hf1).
  rewrite (@login_failure isEmail normalizeEmail bcryptCompare jwtSign
             now2 users2 orgs2 email2 password2 Hnd2 He2 Hs2 Hf2).
  repeat split.
Qed.

Lemma string_password_failures_indistinguishable_witness :
  fst (AuthRoutes.login Sample.isEmail Sample.normalizeEmail
         Sample.bcryptCompare Sample.jwtSign
         100 Sample.users Sample.orgs (Some "zoe@x.io")
         (Some (JStr "secret1")))
  = fst (AuthRoutes.login Sample.isEmail Sample.normalizeEmail
           Sample.bcryptCompare Sample.jwtSign
           200 Sample.users Sample.orgs (Some "ann@x.io")
           (Some (JStr "guess")))
  /\ fst (AuthRoutes.login Sample.isEmail Sample.normalizeEmail
            Sample.bcryptCompare Sample.jwtSign
            100 Sample.users Sample.orgs (Some "bob@x.io")
            (Some (JStr "secret2")))
     = Response 400 (PMessage "Invalid credentials").
Proof.
  assert (Hnd : NoDup (map User.email Sample.users))
    by (repeat constructor; simpl; intuition discriminate).
  assert (Hs : forall s, JStr s <> JNull) by discriminate.
  split.
  - apply (@string_password_failures_indistinguishable
             Sample.isEmail Sample.normalizeEmail Sample.bcryptCompare
             Sample.jwtSign 100 200 Sample.users Sample.users
             Sample.orgs Sample.orgs "zoe@x.io" "ann@x.io"
             (JStr "secret1") (JStr "guess")
             Hnd Hnd eq_refl eq_refl (Hs _) (Hs _)).
    + apply NoSuchUser. intros u [<-|[<-|[<-|[]]]]; discriminate.
    + apply (WrongPassword _ _ _ _ _ Sample.ann); simpl; auto.
  - apply (@string_password_failures_indistinguishable
             Sample.isEmail Sample.normalizeEmail Sample.bcryptCompare
             Sample.jwtSign 100 100 Sample.users Sample.users
             Sample.orgs Sample.orgs "bob@x.io" "bob@x.io"
             (JStr "secret2") (JStr "secret2")
             Hnd Hnd eq_refl eq_refl (Hs _) (Hs _)).
    + apply (InactiveUser _ _ _ _ _ Sample.bob); simpl; auto.
    + apply (InactiveUser _ _ _ _ _ Sample.bob); simpl; auto.
Defined.

(** C9 (the code departs from it).  The validator of the password only
    asks for the key, and [bcrypt.compare] rejects a candidate that is no
    string.  A login with the password [null] is therefore answered 500
    "Server error during login" for the address of the active user Ann,
    and 400 "Invalid credentials" for an address nobody has and for the
    address of the inactive user Bob: the answer tells whether the address
    is that of an active account. *)
Theorem login_with_null_password_tells_accounts_apart :
  AuthRoutes.login Sample.isEmail Sample.normalizeEmail Sample.bcryptCompare
    Sample.jwtSign 100 Sample.users Sample.orgs (Some "ann@x.io") (Some JNull)
  = (Response 500 (PMessage "Server error during login"), Sample.users)
  /\ AuthRoutes.login Sample.isEmail Sample.normalizeEmail
       Sample.bcryptCompare Sample.jwtSign 100 Sample.users Sample.orgs
       (Some "zoe@x.io") (Some JNull)
     = (Response 400 (PMessage "Invalid credentials"), Sample.users)
  /\ AuthRoutes.login Sample.isEmail Sample.normalizeEmail
       Sample.bcryptCompare Sample.jwtSign 100 Sample.users Sample.orgs
       (Some "bob@x.io") (Some JNull)
     = (Response 400 (PMessage "Invalid credentials"), Sample.users)
  /\ AuthRoutes.login Sample.isEmail Sample.normalizeEmail
       Sample.bcryptCompare Sample.jwtSign 100 Sample.users Sample.orgs
       (Some "ann@x.io") (Some (JStr "guess"))
     = (Response 400 (PMessage "Invalid credentials"), Sample.users).
Proof. repeat split. Qed.

(** C10.  A join that succeeds appends one Member of the inviting
    organization to the users and changes no other record: the placeholder
    of the invitation, with its token and its expiry, is still the pending
    invitation of that token.  Hence a second join with the same token, at
    any later instant before the expiry and under an address that no user
    has, succeeds as well. *)
Theorem join_does_not_consume_invite
  (isEmail : string -> bool) (normalizeEmail bcryptHash : string -> string)
  (jwtSign : ObjectId -> string)
  (newId : ObjectId) (now : Date) (users : list User.doc)
  (orgs : list Organization.doc) (name email password tok : string)
  (inviter : User.doc) (org : Organization.doc) (expires : Date) :
  isLength 2 100 (trim name) = true ->
  isEmail email = true ->
  minLength 6 password = true ->
  find (AuthRoutes.pendingInvite now tok) users = Some inviter ->
  User.inviteExpires inviter = Some expires ->
  AuthRoutes.findOrganization orgs (User.organization inviter) = Some org ->
  AuthRoutes.findByEmail users (normalizeEmail email) = None ->
  exists user,
    AuthRoutes.join isEmail normalizeEmail bcryptHash jwtSign
      newId now users orgs (Some name) (Some email) (Some password) (Some tok)
    = (Response 201 (PData (AuthRoutes.session jwtSign user org)),
       (users ++ [user])%list)
    /\ User.role user = Member
    /\ User.organization user = Some (Organization._id org)
    /\ User.inviteToken user = None
    /\ find (AuthRoutes.pendingInvite now tok) (users ++ [user])%list
       = Some inviter
    /\ forall newId2 now2 name2 email2 password2,
         now <= now2 < expires ->
         isLength 2 100 (trim name2) = true ->
         isEmail email2 = true ->
         minLength 6 password2 = true ->
         AuthRoutes.findByEmail (users ++ [user])%list (normalizeEmail email2)
         = None ->
         exists user2,
           AuthRoutes.join isEmail normalizeEmail bcryptHash jwtSign
             newId2 now2 (users ++ [user])%list orgs
             (Some name2) (Some email2) (Some password2) (Some tok)
           = (Response 201 (PData (AuthRoutes.session jwtSign user2 org)),
              ((users ++ [user]) ++ [user2])%list)
           /\ User.role user2 = Member
           /\ User.organization user2 = Some (Organization._id org).
Proof.
  intros Hn He Hp Hinv Hexp Horg Hmail.
  eexists. split; [now apply join_succeeds with (inviter := inviter)|].
  repeat split.
  - apply pendingInvite_later with (now := now); [exact Hinv|lia|].
    now apply find_some in Hinv.
  - intros newId2 now2 name2 email2 password2 Hnow Hn2 He2 Hp2 Hmail2.
    assert (Hlater : find (AuthRoutes.pendingInvite now2 tok)
                       (users ++ [AuthRoutes.newUser bcryptHash newId now
                                    (trim name) (normalizeEmail email) password
                                    (Some (Organization._id org)) Member])%list
                     = Some inviter).
    { apply pendingInvite_later with (now := now); [exact Hinv|lia|].
      apply find_some in Hinv. destruct Hinv as [_ Hpi].
      unfold AuthRoutes.pendingInvite in *. rewrite Hexp in *.
      apply andb_true_iff in Hpi. destruct Hpi as [Ht _]. rewrite Ht.
      apply Z.ltb_lt. lia. }
    eexists. split.
    + apply join_succeeds with (inviter := inviter); eauto.
    + split; reflexivity.
Qed.

Lemma join_does_not_consume_invite_witness :
  exists user,
    AuthRoutes.join Sample.isEmail Sample.normalizeEmail Sample.bcryptHash
      Sample.jwtSign 15 100 Sample.users Sample.orgs
      (Some "Dan") (Some "dan@x.io") (Some "secret4") (Some "c0ffee")
    = (Response 201 (PData (AuthRoutes.session Sample.jwtSign user Sample.acme)),
       (Sample.users ++ [user])%list)
    /\ find (AuthRoutes.pendingInvite 100 "c0ffee") (Sample.users ++ [user])%list
       = Some Sample.invited.
Proof.
  destruct (@join_does_not_consume_invite
              Sample.isEmail Sample.normalizeEmail Sample.bcryptHash
              Sample.jwtSign 15 100 Sample.users Sample.orgs
              "Dan" "dan@x.io" "secret4" "c0ffee"
              Sample.invited Sample.acme 9000
              eq_refl eq_refl eq_refl eq_refl eq_refl eq_refl eq_refl)
    as [user [H1 [_ [_ [_ [H2 _]]]]]].
  exists user. split; [exact H1|exact H2].
Defined.

(* ================================================================== *)
(** * Further properties of the routes                                 *)
(* ================================================================== *)

(** ** Pages of the task list *)

Section Pages.

Import Task TaskRoutes.

Lemma ceilDiv_bounds a b :
  0 <= a -> 0 < b -> (ceilDiv a b - 1) * b < a <= ceilDiv a b * b.
Proof.
  intros Ha Hb. unfold ceilDiv.
  pose proof (Z.div_mod (a + b - 1) b ltac:(lia)) as Hdm.
  pose proof (Z.mod_pos_bound (a + b - 1) b Hb) as Hm.
  nia.
Qed.

Lemma insertDesc_sorted t l : newestFirst l -> newestFirst (insertDesc t l).
Proof.
  unfold newestFirst. induction 1 as [|x l Hl IH Hx]; simpl.
  - repeat constructor.
  - destruct (Z.ltb (createdAt x) (createdAt t)) eqn:E.
    + apply Z.ltb_lt in E. constructor; [now constructor|].
      constructor; [lia|]. rewrite Forall_forall in *. intros y Hy.
      specialize (Hx y Hy). simpl in Hx. lia.
    + apply Z.ltb_ge in E. constructor; [exact IH|].
      rewrite Forall_forall in *. intros y Hy.
      apply In_insertDesc in Hy. destruct Hy as [->|Hy]; auto.
Qed.

Lemma sortDesc_sorted l : newestFirst (sortDesc l).
Proof.
  induction l as [|x l IH]; simpl; [constructor|].
  now apply insertDesc_sorted.
Qed.

Lemma newestFirst_skipn n l : newestFirst l -> newestFirst (skipn n l).
Proof.
  unfold newestFirst. revert l. induction n as [|n IH]; intros l H; [exact H|].
  destruct l as [|x l]; [constructor|]. simpl. apply IH. now inversion H.
Qed.

Lemma newestFirst_firstn n l : newestFirst l -> newestFirst (firstn n l).
Proof.
  unfold newestFirst. revert l. induction n as [|n IH]; intros l H;
    [constructor|].
  destruct l as [|x l]; [constructor|]. simpl. inversion H as [|? ? Hl Hx]; subst.
  constructor; [now apply IH|].
  rewrite Forall_forall in *. intros y Hy. apply Hx.
  apply (@In_page _ y n 0%nat l). exact Hy.
Qed.

Lemma firstn_plus {A} (a b : nat) (l : list A) :
  firstn (a + b) l = (firstn a l ++ firstn b (skipn a l))%list.
Proof.
  revert l. induction a as [|a IH]; intros l; [reflexivity|].
  destruct l as [|x l]; simpl; [now rewrite firstn_nil|]. now rewrite IH.
Qed.

Lemma validQuery_pageQuery q p l :
  validQuery q = true -> 1 <= p -> 1 <= l <= 100 ->
  validQuery (pageQuery q p l) = true.
Proof.
  unfold validQuery. rewrite !andb_true_iff.
  intros [[[[_ Hs] Hp] Hc] Ha] Hp1 Hl. simpl.
  repeat split; auto.
  - apply andb_true_iff. split; [now apply Z.leb_le|reflexivity].
  - apply andb_true_iff. split; apply Z.leb_le; lia.
Qed.

Lemma insertDesc_strict t l :
  strictlyNewestFirst l -> ~ In (createdAt t) (map createdAt l) ->
  strictlyNewestFirst (insertDesc t l).
Proof.
  unfold strictlyNewestFirst. induction 1 as [|x l Hl IH Hx]; simpl; intros Hn.
  - repeat constructor.
  - destruct (Z.ltb (createdAt x) (createdAt t)) eqn:E.
    + apply Z.ltb_lt in E. constructor; [now constructor|].
      constructor; [lia|]. rewrite Forall_forall in *. intros y Hy.
      specialize (Hx y Hy). simpl in Hx. lia.
    + apply Z.ltb_ge in E. constructor; [apply IH; tauto|].
      rewrite Forall_forall in *. intros y Hy.
      apply In_insertDesc in Hy. destruct Hy as [->|Hy]; [|auto].
      assert (createdAt x <> createdAt t) by tauto. lia.
Qed.

Lemma sortDesc_strict l :
  NoDup (map createdAt l) -> strictlyNewestFirst (sortDesc l).
Proof.
  induction l as [|x l IH]; simpl; intros Hnd; [constructor|].
  inversion Hnd as [|? ? Hx Hl]; subst.
  apply insertDesc_strict; [now apply IH|].
  rewrite in_map_iff in *. intros [y [Hy Hin]]. apply Hx.
  exists y. split; [exact Hy|]. now rewrite <- In_sortDesc.
Qed.

(** Tasks of distinct creation dates have one order from newest to
    oldest. *)
Lemma strictlyNewestFirst_unique l1 l2 :
  strictlyNewestFirst l1 -> strictlyNewestFirst l2 ->
  (forall x, In x l1 <-> In x l2) -> l1 = l2.
Proof.
  unfold strictlyNewestFirst. intros H1. revert l2.
  induction H1 as [|a l1 Hl1 IH Ha]; intros l2 H2 Hsame.
  - destruct l2 as [|b l2]; [reflexivity|].
    exfalso. apply (Hsame b). now left.
  - destruct H2 as [|b l2 Hl2 Hb].
    + exfalso. apply (Hsame a). now left.
    + rewrite Forall_forall in Ha, Hb.
      assert (E : a = b).
      { destruct (proj1 (Hsame a) (or_introl eq_refl)) as [E|E]; [now symmetry|].
        destruct (proj2 (Hsame b) (or_introl eq_refl)) as [E'|E']; [exact E'|].
        specialize (Ha b E'). specialize (Hb a E). lia. }
      subst b. f_equal. apply IH; [exact Hl2|]. intros x. split; intros Hx.
      * destruct (proj1 (Hsame x) (or_intror Hx)) as [E|E]; [|exact E].
        subst x. specialize (Ha a Hx). lia.
      * destruct (proj2 (Hsame x) (or_intror Hx)) as [E|E]; [|exact E].
        subst x. specialize (Hb a Hx). lia.
Qed.

(** The page that [GET /] returns for page [p] and limit [l]. *)
Lemma getTasks_page tasks user o q p l :
  actor_organization user = Some o ->
  validQuery q = true -> 1 <= p -> 1 <= l <= 100 ->
  tasksOf (getTasks tasks user (pageQuery q p l))
  = firstn (Z.to_nat l)
      (skipn (Z.to_nat ((p - 1) * l))
         (sortDesc (List.filter (matches (listFilter o user q)) tasks))).
Proof.
  intros Ho Hq Hp Hl. unfold getTasks, Tenant.tenantIsolation. rewrite Ho.
  rewrite (validQuery_pageQuery q Hq Hp Hl). cbn [negb].
  unfold tasksOf. cbn [content pageQuery q_page q_limit parseIntOr].
  destruct (Z.eqb_spec p 0); [lia|]. destruct (Z.eqb_spec l 0); [lia|].
  reflexivity.
Qed.

End Pages.

(** X1.  A page of the task list holds at most [limit] tasks, [limit] lies
    between 1 and 100 and [page] is at least 1; the tasks of the page come
    newest first; [total] counts all the tasks the filter matches, whatever
    the page, and [pages] is the least number of pages of [limit] tasks
    that hold them. *)
Theorem page_is_bounded_and_ordered
  (tasks : list Task.doc) (user : Actor) (o : ObjectId)
  (q : TaskRoutes.Query) (found : list Task.doc) (p : TaskRoutes.Pagination) :
  actor_organization user = Some o ->
  TaskRoutes.getTasks tasks user q
  = Response 200 (PData (TaskRoutes.DList found p)) ->
  1 <= TaskRoutes.page p
  /\ 1 <= TaskRoutes.limit p <= 100
  /\ (List.length found <= Z.to_nat (TaskRoutes.limit p))%nat
  /\ newestFirst found
  /\ TaskRoutes.total p
     = Z.of_nat (List.length
                   (List.filter
                      (TaskRoutes.matches (TaskRoutes.listFilter o user q))
                      tasks))
  /\ (TaskRoutes.pages p - 1) * TaskRoutes.limit p < TaskRoutes.total p
     <= TaskRoutes.pages p * TaskRoutes.limit p.
Proof.
  intros Ho. unfold TaskRoutes.getTasks, Tenant.tenantIsolation. rewrite Ho.
  destruct (TaskRoutes.validQuery q) eqn:Hq; cbn [negb]; [|discriminate].
  intros H. injection H as <- <-. cbn [TaskRoutes.page TaskRoutes.limit
    TaskRoutes.total TaskRoutes.pages].
  unfold TaskRoutes.validQuery in Hq. rewrite !andb_true_iff in Hq.
  destruct Hq as [[[[[Hp Hl] _] _] _] _].
  assert (Hpage : 1 <= TaskRoutes.parseIntOr (TaskRoutes.q_page q) 1).
  { destruct (TaskRoutes.q_page q) as [[n|]|]; simpl in *; try lia;
      try discriminate.
    rewrite andb_true_r in Hp. apply Z.leb_le in Hp.
    destruct (Z.eqb_spec n 0); lia. }
  assert (Hlimit : 1 <= TaskRoutes.parseIntOr (TaskRoutes.q_limit q) 10 <= 100).
  { destruct (TaskRoutes.q_limit q) as [[n|]|]; simpl in *; try lia;
      try discriminate.
    apply andb_true_iff in Hl. destruct Hl as [H1 H2].
    apply Z.leb_le in H1, H2. destruct (Z.eqb_spec n 0); lia. }
  split; [exact Hpage|]. split; [exact Hlimit|].
  split; [apply firstn_le_length|].
  split; [apply newestFirst_firstn, newestFirst_skipn, sortDesc_sorted|].
  split; [reflexivity|].
  apply ceilDiv_bounds; lia.
Qed.

Lemma page_is_bounded_and_ordered_witness :
  (List.length [Sample.task9] <= Z.to_nat 1)%nat /\ newestFirst [Sample.task9].
Proof.
  destruct (@page_is_bounded_and_ordered Sample.tasks Sample.admin1 1%N
              (pageQuery Sample.noQuery 1 1) [Sample.task9]
              {| TaskRoutes.page := 1; TaskRoutes.limit := 1;
                 TaskRoutes.total := 2; TaskRoutes.pages := 2 |}
              eq_refl eq_refl) as [_ [_ [H1 [H2 _]]]].
  split; [exact H1|exact H2].
Defined.

(** X2.  The pages of one query neither overlap nor skip.  When the tasks
    the filter matches have distinct creation dates, the pages 1 to [k] of
    [l] tasks each, put one after the other, are the first [k * l] of the
    matches in their order from newest to oldest; so they are all the
    matches as soon as [k * l] reaches their number.  (Among tasks of one
    creation date the store promises no order, and the pages, which are
    separate queries, need not agree on one.) *)
Theorem pages_tile_the_matches
  (tasks : list Task.doc) (user : Actor) (o : ObjectId)
  (q : TaskRoutes.Query) (l : Z) (k : nat) (sorted : list Task.doc) :
  actor_organization user = Some o ->
  TaskRoutes.validQuery q = true ->
  1 <= l <= 100 ->
  NoDup (map Task.createdAt
           (List.filter (TaskRoutes.matches (TaskRoutes.listFilter o user q))
              tasks)) ->
  (forall t, In t sorted <->
             In t tasks
             /\ TaskRoutes.matches (TaskRoutes.listFilter o user q) t = true) ->
  strictlyNewestFirst sorted ->
  let pages :=
    List.concat (map (fun p => tasksOf (TaskRoutes.getTasks tasks user
                                     (pageQuery q (Z.of_nat p) l)))
              (seq 1 k)) in
  pages = firstn (k * Z.to_nat l) sorted
  /\ ((List.length sorted <= k * Z.to_nat l)%nat -> pages = sorted).
Proof.
  intros Ho Hq Hl Hnd Hsame Hsorted pages.
  assert (Hall : sorted
                 = TaskRoutes.sortDesc
                     (List.filter
                        (TaskRoutes.matches (TaskRoutes.listFilter o user q))
                        tasks)).
  { apply strictlyNewestFirst_unique;
      [exact Hsorted|now apply sortDesc_strict|].
    intros x. now rewrite In_sortDesc, filter_In. }
  assert (H : pages = firstn (k * Z.to_nat l) sorted).
  { subst pages. rewrite Hall. clear Hall.
    induction k as [|k IH]; [reflexivity|].
    rewrite seq_S, map_app, List.concat_app, IH. cbn [map List.concat Nat.add].
    rewrite app_nil_r.
    rewrite (getTasks_page tasks user (o := o) q) by (auto; lia).
    replace (Z.to_nat ((Z.of_nat (S k) - 1) * l)) with (k * Z.to_nat l)%nat
      by (rewrite Z2Nat.inj_mul by lia; f_equal; lia).
    rewrite Nat.mul_succ_l. now rewrite firstn_plus. }
  split; [exact H|]. intros Hlen. rewrite H. now apply firstn_all2.
Qed.

Lemma pages_tile_the_matches_witness :
  (tasksOf (TaskRoutes.getTasks Sample.tasks Sample.admin1
              (pageQuery Sample.noQuery 1 1))
   ++ tasksOf (TaskRoutes.getTasks Sample.tasks Sample.admin1
                 (pageQuery Sample.noQuery 2 1)))%list
  = [Sample.task9; Sample.task7].
Proof.
  assert (Hnd : NoDup (map Task.createdAt
                         (List.filter
                            (TaskRoutes.matches
                               (TaskRoutes.listFilter 1 Sample.admin1
                                  Sample.noQuery)) Sample.tasks)))
    by (repeat constructor; simpl; intuition discriminate).
  assert (Hsame : forall t,
            In t [Sample.task9; Sample.task7] <->
            In t Sample.tasks
            /\ TaskRoutes.matches
                 (TaskRoutes.listFilter 1 Sample.admin1 Sample.noQuery) t
               = true).
  { intros t. split.
    - intros [<-|[<-|[]]]; split; simpl; auto.
    - intros [[<-|[<-|[<-|[]]]] H]; simpl; auto. discriminate H. }
  assert (Hsorted : strictlyNewestFirst [Sample.task9; Sample.task7])
    by (repeat constructor; simpl; lia).
  pose proof (@pages_tile_the_matches Sample.tasks Sample.admin1 1%N
                Sample.noQuery 1 2 [Sample.task9; Sample.task7]
                eq_refl eq_refl ltac:(lia) Hnd Hsame Hsorted) as [_ H].
  cbn [seq map List.concat Z.of_nat Pos.of_succ_nat Pos.succ] in H.
  rewrite app_nil_r in H. apply H. simpl. lia.
Defined.

(** ** Reading, deleting and counting tasks *)

Section TaskReads.

Import Task TaskRoutes.

Lemma find_byId_own tasks t :
  NoDup (map _id tasks) -> In t tasks ->
  find (byId (_id t) (organization t)) tasks = Some t.
Proof.
  intros Hnd Hin.
  destruct (find (byId (_id t) (organization t)) tasks) as [x|] eqn:Ef.
  - apply find_some in Ef. destruct Ef as [Hx Hb]. unfold byId in Hb.
    apply andb_true_iff in Hb. destruct Hb as [Hb _]. apply N.eqb_eq in Hb.
    f_equal. exact (@NoDup_map_eq _ _ _id tasks x t Hnd Hx Hin Hb).
  - apply (find_none _ _ Ef) in Hin. unfold byId in Hin.
    now rewrite !N.eqb_refl in Hin.
Qed.

Lemma filter_all {A} (p : A -> bool) l :
  (forall x, In x l -> p x = true) -> List.filter p l = l.
Proof.
  induction l as [|x l IH]; simpl; intros H; [reflexivity|].
  rewrite (H x) by now left. f_equal. apply IH. intros y Hy. apply H. now right.
Qed.

(** With unique ids, [findOneAndDelete] by id drops the documents of that
    id, of which there is one. *)
Lemma deleteFirst_byId tasks t :
  NoDup (map _id tasks) -> In t tasks ->
  deleteFirst (byId (_id t) (organization t)) tasks
  = List.filter (fun d => negb (N.eqb (_id d) (_id t))) tasks.
Proof.
  induction tasks as [|d l IH]; intros Hnd Hin; [contradiction|].
  inversion Hnd as [|? ? Hd Hl]; subst. cbn [deleteFirst List.filter].
  destruct (N.eqb_spec (_id d) (_id t)) as [E|E].
  - assert (d = t)
      by (apply (@NoDup_map_eq _ _ _id (d :: l) d t Hnd); simpl; auto).
    subst d. unfold byId. rewrite !N.eqb_refl. cbn [andb negb].
    symmetry. apply filter_all. intros x Hx. apply negb_true_iff, N.eqb_neq.
    intros Ex. apply Hd. rewrite <- Ex. now apply in_map.
  - unfold byId at 1. apply N.eqb_neq in E. rewrite E. cbn [andb negb].
    f_equal. apply IH; [exact Hl|].
    destruct Hin as [->|Hin]; [|exact Hin]. now rewrite N.eqb_refl in E.
Qed.

Lemma length_filter_out tasks t :
  NoDup (map _id tasks) -> In t tasks ->
  S (List.length (List.filter (fun d => negb (N.eqb (_id d) (_id t))) tasks))
  = List.length tasks.
Proof.
  induction tasks as [|d l IH]; intros Hnd Hin; [contradiction|].
  inversion Hnd as [|? ? Hd Hl]; subst. cbn [List.filter].
  destruct (N.eqb_spec (_id d) (_id t)) as [E|E]; cbn [negb List.length].
  - f_equal. f_equal. apply filter_all. intros x Hx.
    apply negb_true_iff, N.eqb_neq. intros Ex. apply Hd.
    rewrite E, <- Ex. now apply in_map.
  - f_equal. apply IH; [exact Hl|].
    destruct Hin as [->|Hin]; [contradiction|exact Hin].
Qed.

(** The counts of the four statuses add up to the number of tasks. *)
Lemma status_counts_add_up l :
  Z.of_nat (List.length l)
  = countIf (fun t => Status_eqb (status t) Todo) l
    + countIf (fun t => Status_eqb (status t) InProgress) l
    + countIf (fun t => Status_eqb (status t) Completed) l
    + countIf (fun t => Status_eqb (status t) Expired) l.
Proof.
  unfold countIf. induction l as [|t l IH]; [reflexivity|].
  cbn [List.filter List.length]. destruct (status t); cbn [Status_eqb List.length];
    lia.
Qed.

End TaskReads.

(** X3.  The by-id route and the scope of the list and of the statistics
    agree on what an actor may read, as long as the users a task refers to
    are stored.  With unique ids, a stored task whose assignee, if any, and
    creator are stored users is returned by [GET /:id] exactly when the
    scope filter of the actor matches it, that is when it belongs to the
    actor's organization and, for a Member, has the Member as assignee or
    creator; a task of the organization that a Member may not read is
    answered 403.  When the creator of a task of the organization is no
    stored user, a Member who is not its assignee is answered 500. *)
Theorem view_agrees_with_scope
  (users : list User.doc) (tasks : list Task.doc) (user : Actor)
  (o : ObjectId) (t : Task.doc) :
  actor_organization user = Some o ->
  NoDup (map Task._id tasks) -> In t tasks ->
  ((forall i, Task.assignedTo t = Some i -> storedUser users i) ->
   storedUser users (Task.createdBy t) ->
   (TaskRoutes.getTask users tasks user (Some (Task._id t))
    = Response 200 (PData (TaskRoutes.DTask t))
    <-> TaskRoutes.matches (TaskRoutes.statsFilter o user) t = true)
   /\ (Task.organization t = o ->
       TaskRoutes.matches (TaskRoutes.statsFilter o user) t = false ->
       actor_role user = Member
       /\ TaskRoutes.getTask users tasks user (Some (Task._id t))
          = Response 403 (PMessage "Access denied")))
  /\ (Task.organization t = o -> actor_role user = Member ->
      Task.assignedTo t <> Some (actor_id user) ->
      ~ storedUser users (Task.createdBy t) ->
      TaskRoutes.getTask users tasks user (Some (Task._id t))
      = Response 500 (PMessage "Server error")).
Proof.
  intros Ho Hnd Hin.
  assert (Hp : forall i, storedUser users i ->
            exists u, TaskRoutes.populate users i = Some u /\ User._id u = i).
  { intros i [u [Hu Hi]]. unfold TaskRoutes.populate.
    destruct (find _ users) as [x|] eqn:Ef.
    - exists x. split; [reflexivity|]. apply find_some in Ef.
      apply N.eqb_eq. tauto.
    - exfalso. apply (find_none _ _ Ef) in Hu.
      now rewrite Hi, N.eqb_refl in Hu. }
  assert (Hq : forall i u, TaskRoutes.populate users i = Some u ->
                           User._id u = i /\ In u users).
  { unfold TaskRoutes.populate. intros i u Ef. apply find_some in Ef.
    split; [apply N.eqb_eq|]; tauto. }
  unfold TaskRoutes.getTask, Tenant.tenantIsolation. rewrite Ho.
  unfold TaskRoutes.matches, TaskRoutes.statsFilter, TaskRoutes.opt_cond,
    TaskRoutes.equals.
  cbn [TaskRoutes.f_organization TaskRoutes.f_status TaskRoutes.f_priority
       TaskRoutes.f_category TaskRoutes.f_assignedTo TaskRoutes.f_or].
  rewrite !andb_true_r.
  destruct (N.eqb_spec (Task.organization t) o) as [E|E].
  - subst o. rewrite (find_byId_own tasks t Hnd Hin). cbn [andb]. split.
    + intros Ha Hc. destruct (Hp _ Hc) as [c [-> Hcid]]. rewrite Hcid.
      destruct (actor_role user); cbn [Role_eqb];
        try (split; [split; reflexivity|intros _; discriminate]).
      destruct (Task.assignedTo t) as [i|] eqn:Ei.
      * destruct (Hp _ (Ha i eq_refl)) as [a [-> Haid]]. rewrite Haid.
        cbn [opt_id_eqb].
        destruct (N.eqb i (actor_id user)); cbn [orb];
          [split; [split; reflexivity|intros _; discriminate]|].
        destruct (N.eqb (Task.createdBy t) (actor_id user)).
        -- split; [split; reflexivity|intros _; discriminate].
        -- split; [split; discriminate|]. intros _ _. split; reflexivity.
      * cbn [opt_id_eqb orb].
        destruct (N.eqb (Task.createdBy t) (actor_id user)).
        -- split; [split; reflexivity|intros _; discriminate].
        -- split; [split; discriminate|]. intros _ _. split; reflexivity.
    + intros _ Hrole Hna Hnc. rewrite Hrole. cbn [Role_eqb].
      assert (Hnone : TaskRoutes.populate users (Task.createdBy t) = None).
      { destruct (TaskRoutes.populate users (Task.createdBy t)) as [c|] eqn:Ec;
          [|reflexivity].
        exfalso. apply Hnc. exists c. destruct (Hq _ _ Ec). auto. }
      rewrite Hnone.
      destruct (Task.assignedTo t) as [i|] eqn:Ei; [|reflexivity].
      destruct (TaskRoutes.populate users i) as [a|] eqn:Ea; [|reflexivity].
      destruct (Hq _ _ Ea) as [Haid _]. rewrite Haid.
      destruct (N.eqb_spec i (actor_id user)) as [->|_]; [|reflexivity].
      now contradiction Hna.
  - rewrite (find_byId_foreign tasks t Hnd Hin E). cbn [andb]. split.
    + intros _ _. split; [split; discriminate|]. intros Ho'. contradiction.
    + intros Ho'. contradiction.
Qed.

Lemma view_agrees_with_scope_witness :
  TaskRoutes.getTask Sample.staff Sample.tasks Sample.member12 (Some 7%N)
  = Response 403 (PMessage "Access denied").
Proof.
  assert (Hnd : NoDup (map Task._id Sample.tasks))
    by (repeat constructor; simpl; intuition discriminate).
  destruct (@view_agrees_with_scope Sample.staff Sample.tasks Sample.member12
              1%N Sample.task7 eq_refl Hnd ltac:(simpl; tauto)) as [H _].
  apply H.
  - intros i [= <-]. exists Sample.dora. simpl. tauto.
  - exists Sample.ann. simpl. tauto.
  - reflexivity.
  - reflexivity.
Defined.

(** X4.  A delete by an Admin or Manager of a task of their organization
    is a hard delete of that task alone: with unique ids, the collection
    afterwards is the old one without the documents of that id, it is one
    shorter, every other task is still there, and reading the id again
    answers 404. *)
Theorem delete_removes_exactly_the_task
  (users : list User.doc) (tasks : list Task.doc) (user : Actor)
  (t : Task.doc) :
  actor_organization user = Some (Task.organization t) ->
  actor_role user = Admin \/ actor_role user = Manager ->
  NoDup (map Task._id tasks) -> In t tasks ->
  let after := snd (TaskRoutes.deleteTask tasks user (Some (Task._id t))) in
  TaskRoutes.deleteTask tasks user (Some (Task._id t))
  = (Response 200 (PMessage "Task deleted successfully"),
     List.filter (fun d => negb (N.eqb (Task._id d) (Task._id t))) tasks)
  /\ S (List.length after) = List.length tasks
  /\ ~ In t after
  /\ (forall d, In d tasks -> d <> t -> In d after)
  /\ TaskRoutes.getTask users after user (Some (Task._id t))
     = TaskRoutes.taskNotFound.
Proof.
  intros Ho Hrole Hnd Hin after.
  assert (Hdel : TaskRoutes.deleteTask tasks user (Some (Task._id t))
                 = (Response 200 (PMessage "Task deleted successfully"),
                    List.filter (fun d => negb (N.eqb (Task._id d) (Task._id t)))
                      tasks)).
  { unfold TaskRoutes.deleteTask, Tenant.tenantIsolation. rewrite Ho.
    assert (Ha : AuthMiddleware.authorize [Admin; Manager] user = true)
      by (unfold AuthMiddleware.authorize; destruct Hrole as [-> | ->];
          reflexivity).
    rewrite Ha. cbn [negb].
    rewrite (find_byId_own tasks t Hnd Hin).
    now rewrite (deleteFirst_byId tasks t Hnd Hin). }
  subst after. rewrite Hdel. cbn [snd].
  split; [reflexivity|]. split; [now apply length_filter_out|].
  split; [|split].
  - rewrite filter_In. intros [_ H]. now rewrite N.eqb_refl in H.
  - intros d Hd Hne. apply filter_In. split; [exact Hd|].
    apply negb_true_iff, N.eqb_neq. intros E. apply Hne.
    exact (@NoDup_map_eq _ _ Task._id tasks d t Hnd Hd Hin E).
  - unfold TaskRoutes.getTask, Tenant.tenantIsolation. rewrite Ho.
    replace (find _ _) with (@None Task.doc); [reflexivity|].
    symmetry. apply find_none_iff. intros x Hx. apply filter_In in Hx.
    destruct Hx as [_ Hx]. unfold TaskRoutes.byId.
    apply negb_true_iff in Hx. now rewrite Hx.
Qed.

Lemma delete_removes_exactly_the_task_witness :
  TaskRoutes.deleteTask Sample.tasks Sample.admin1 (Some 7%N)
  = (Response 200 (PMessage "Task deleted successfully"),
     [Sample.task8; Sample.task9]).
Proof.
  assert (Hnd : NoDup (map Task._id Sample.tasks))
    by (repeat constructor; simpl; intuition discriminate).
  apply (@delete_removes_exactly_the_task [] Sample.tasks Sample.admin1
           Sample.task7 eq_refl (or_introl eq_refl) Hnd
           ltac:(simpl; tauto)).
Defined.

(** X5.  The statistics always answer 200; [total] is the number of tasks
    in the actor's scope (the organization, and for a Member the tasks
    assigned to or created by the Member), and it is the sum of [todo],
    [inProgress], [completed] and [expired]. *)
Theorem stats_count_the_scope
  (now : Date) (tasks : list Task.doc) (user : Actor) (o : ObjectId) :
  actor_organization user = Some o ->
  exists s,
    TaskRoutes.getStats now tasks user = Response 200 (PData (TaskRoutes.DStats s))
    /\ TaskRoutes.s_total s
       = Z.of_nat (List.length
                     (List.filter
                        (TaskRoutes.matches (TaskRoutes.statsFilter o user))
                        tasks))
    /\ TaskRoutes.s_total s
       = TaskRoutes.s_todo s + TaskRoutes.s_inProgress s
         + TaskRoutes.s_completed s + TaskRoutes.s_expired s
    /\ 0 <= TaskRoutes.s_todo s /\ 0 <= TaskRoutes.s_inProgress s
    /\ 0 <= TaskRoutes.s_completed s /\ 0 <= TaskRoutes.s_expired s.
Proof.
  intros Ho. unfold TaskRoutes.getStats, Tenant.tenantIsolation. rewrite Ho.
  eexists. split; [reflexivity|]. cbn. split; [reflexivity|].
  split; [apply status_counts_add_up|].
  unfold TaskRoutes.countIf. repeat split; apply Nat2Z.is_nonneg.
Qed.

Lemma stats_count_the_scope_witness :
  exists s,
    TaskRoutes.getStats 0 Sample.tasks Sample.member11
    = Response 200 (PData (TaskRoutes.DStats s))
    /\ TaskRoutes.s_total s = 1.
Proof.
  destruct (@stats_count_the_scope 0 Sample.tasks Sample.member11 1%N eq_refl)
    as [s [H1 [H2 _]]].
  exists s. split; [exact H1|]. rewrite H2. reflexivity.
Defined.

(** ** What an update stores *)

Section UpdateStores.

Import Task TaskRoutes.

Lemma replace_Forall2 (R : doc -> doc -> Prop) saved tasks :
  (forall d, In d tasks -> _id d = _id saved -> R d saved) ->
  (forall d, R d d) ->
  Forall2 R tasks (replace saved tasks).
Proof.
  intros Hs Hr. unfold replace.
  induction tasks as [|d l IH]; cbn [map]; constructor.
  - destruct (N.eqb_spec (_id d) (_id saved)); [|apply Hr].
    apply Hs; [now left|assumption].
  - apply IH. intros x Hx. apply Hs. now right.
Qed.

Lemma Forall2_same (R : doc -> doc -> Prop) tasks :
  (forall d, R d d) -> Forall2 R tasks tasks.
Proof. intros Hr. induction tasks; constructor; auto. Qed.






(** One round of the loop on the key [status] touches the status only. *)
Lemma assign_status_only v t t' :
  assign "status" v t = Some t' -> same_but_status_and_dates t t'
                                   /\ completedAt t' = completedAt t.
Proof.
  unfold assign. cbn [String.eqb Ascii.eqb Bool.eqb andb]. unfold set.
  cbn [String.eqb Ascii.eqb Bool.eqb].
  destruct (Status_of_string (jtext v)); simpl; [|discriminate].
  intros [= <-]. unfold same_but_status_and_dates. simpl. tauto.
Qed.

Lemma copyFields_status_only ks b t t' :
  Forall (eq "status") ks -> copyFields ks b t = Some t' ->
  same_but_status_and_dates t t' /\ completedAt t' = completedAt t.
Proof.
  intros Hks. revert t. induction Hks as [|k ks <- _ IH]; intros t.
  - intros [= <-]. unfold same_but_status_and_dates. tauto.
  - rewrite copyFields_cons. destruct (lookup "status" b) as [v|]; [|apply IH].
    destruct (assign "status" v t) as [t1|] eqn:E; [|discriminate].
    intros H. apply IH in H. apply assign_status_only in E.
    unfold same_but_status_and_dates in *.
    intuition congruence.
Qed.

Lemma hooks_same_but_dates now loaded t :
  same_but_status_and_dates t (hooks now loaded t).
Proof.
  unfold same_but_status_and_dates.
  pose proof (hooks_same now loaded t). tauto.
Qed.

Lemma hasInvalidFields_false b :
  hasInvalidFields b = false -> Forall (eq "status") (keys b).
Proof.
  intros H. apply Forall_forall. intros k Hk.
  destruct (String.eqb_spec "status" k) as [E|E]; [exact E|].
  assert (hasInvalidFields b = true); [|congruence].
  apply hasInvalidFields_true. exists k. split; [exact Hk|congruence].
Qed.





End UpdateStores.



(** X7.  Whatever a Member sends, an update by a Member changes at most the
    [status], the [completedAt] and the [updatedAt] of a task: with unique
    ids, every other field of every task is after the request what it was
    before. *)
Theorem member_update_changes_status_only
  (now : Date) (users : list User.doc) (tasks : list Task.doc)
  (user : Actor) (id : option ObjectId) (b : body) :
  actor_role user = Member ->
  NoDup (map Task._id tasks) ->
  Forall2 same_but_status_and_dates
    tasks (snd (TaskRoutes.updateTask now users tasks user id b)).
Proof.
  intros Hrole Hnd.
  assert (Hrefl : forall d, same_but_status_and_dates d d)
    by (intros d; unfold same_but_status_and_dates; tauto).
  destruct (updateTask_stores now users tasks user id b)
    as [[-> _]|[o [i [task [copied [tasks' [_ [-> [_ [Hf [Hm [_ [Hc [Hs ->]]]]]]]]]]]]]].
  - now apply Forall2_same.
  - cbn [snd]. apply find_some in Hf. destruct Hf as [Hin _].
    apply hasInvalidFields_false in Hm; [|exact Hrole].
    rewrite keys_sanitize in Hc. rewrite keys_sanitize in Hm.
    destruct (@copyFields_status_only (keys b) (TaskRoutes.sanitize b)
                task copied Hm Hc) as [Hsame _].
    pose proof (hooks_same_but_dates now task copied) as Hp.
    apply (save_Forall2 _ _ _ _ Hs); [exact Hrefl| |].
    + intros E d Hd Hid.
      assert (d = task)
        by (apply (@NoDup_map_eq _ _ Task._id tasks d task Hnd Hd Hin);
            congruence).
      subst d. unfold same_but_status_and_dates in *. intuition congruence.
    + intros E. exfalso. apply E. unfold same_but_status_and_dates in *.
      intuition congruence.
Qed.

Lemma member_update_changes_status_only_witness :
  Forall2 same_but_status_and_dates Sample.tasks
    (snd (TaskRoutes.updateTask 5000 [] Sample.tasks Sample.member11
            (Some 7%N) [("status", JStr "Completed")])).
Proof.
  apply member_update_changes_status_only; [reflexivity|].
  repeat constructor; simpl; intuition discriminate.
Defined.





(** ** Creating tasks and the completion date *)

Section CreateStores.

Import Task TaskRoutes.

Lemma deleteFirst_In p (tasks : list doc) d :
  In d (deleteFirst p tasks) -> In d tasks.
Proof.
  induction tasks as [|x l IH]; simpl; [tauto|].
  destruct (p x); simpl; intuition.
Qed.

(** The fields of a new task that the first steps of [new Task] leave at
    their initial value. *)
Lemma set_keeps_identity key v t t' :
  set key v t = Some t' ->
  key = "title" \/ key = "description" \/ key = "category"
  \/ key = "priority" ->
  _id t' = _id t /\ createdAt t' = createdAt t
  /\ assignedTo t' = assignedTo t
  /\ comments t' = comments t /\ attachments t' = attachments t.
Proof.
  intros H [Hk | [Hk | [Hk | Hk]]]; subst key;
    unfold set in H; simpl in H; set_cases H; simpl; auto.
Qed.

Lemma newTask_shape newId now o user b t :
  newTask newId now o user b = Some t ->
  _id t = newId /\ createdAt t = now
  /\ comments t = Some [] /\ attachments t = Some []
  /\ assignedTo t
     = match orUndefined (lookup "assignedTo" b) with
       | Some v => castObjectId v
       | None => None
       end.
Proof.
  unfold newTask, bind. intros H.
  repeat match type of H with
    | match ?x with Some _ => _ | None => _ end = Some _ =>
        let E := fresh "E" in destruct x eqn:E; [|discriminate H]
    end.
  assert (K : forall k ov a a', setPath k ov a = Some a' \/ requirePath k ov a = Some a' ->
              k = "title" \/ k = "description" \/ k = "category" \/ k = "priority" ->
              _id a' = _id a /\ createdAt a' = createdAt a
              /\ assignedTo a' = assignedTo a
              /\ comments a' = comments a /\ attachments a' = attachments a).
  { unfold setPath, requirePath. intros k [v|] a a' [Hs|Hs] Hk;
      try discriminate; try (injection Hs as <-; tauto);
      eapply set_keeps_identity; eauto. }
  apply (fun H => K _ _ _ _ (or_intror H)) in E; [|tauto].
  apply (fun H => K _ _ _ _ (or_introl H)) in E0; [|tauto].
  apply (fun H => K _ _ _ _ (or_intror H)) in E1; [|tauto].
  apply (fun H => K _ _ _ _ (or_introl H)) in E2; [|tauto].
  assert (E3' : _id d3 = _id d2 /\ createdAt d3 = createdAt d2
                /\ assignedTo d3 = assignedTo d2
                /\ comments d3 = comments d2 /\ attachments d3 = attachments d2).
  { unfold setDueDate in E3. destruct (orUndefined _) as [v|].
    - destruct (newDate v); simpl in E3; [|discriminate].
      injection E3 as <-. simpl. tauto.
    - injection E3 as <-. tauto. }
  cbn [_id createdAt assignedTo comments attachments] in E.
  assert (Hd3 : _id d3 = newId /\ createdAt d3 = now /\ assignedTo d3 = None
                /\ comments d3 = Some [] /\ attachments d3 = Some [])
    by (intuition congruence).
  clear E E0 E1 E2 E3 E3'. unfold setPath in H.
  destruct (orUndefined (lookup "assignedTo" b)) as [v|] eqn:Ev.
  - assert (Hv : truthy v = true).
    { unfold orUndefined in Ev. destruct (lookup "assignedTo" b) as [w|];
        [|discriminate]. destruct (truthy w) eqn:Ew; [|discriminate].
      now injection Ev as <-. }
    unfold set in H. simpl in H. destruct v; try discriminate; simpl in H;
      try discriminate.
    injection H as <-. simpl. intuition.
  - injection H as <-. intuition.
Qed.

End CreateStores.

(** X10.  A created task is stored once, at the end of the collection, with
    the id and the creation date given to it, the status Todo, no
    completion date, the actor as creator and the actor's organization as
    organization, whatever the body says; the actor is an Admin or a
    Manager; and an assignee, if any, is an active user of that
    organization.  Any other answer than 201 leaves the collection as it
    was. *)
Theorem create_stores_one_checked_task
  (newId : ObjectId) (now : Date) (users : list User.doc)
  (tasks : list Task.doc) (user : Actor) (b : body) :
  (forall t tasks',
      TaskRoutes.createTask newId now users tasks user b
      = (Response 201 (PData (TaskRoutes.DTask t)), tasks') ->
      exists o,
        actor_organization user = Some o
        /\ (actor_role user = Admin \/ actor_role user = Manager)
        /\ tasks' = (tasks ++ [t])%list
        /\ Task._id t = newId /\ Task.createdAt t = now
        /\ fresh_fields o user t
        /\ Task.comments t = Some [] /\ Task.attachments t = Some []
        /\ forall i, Task.assignedTo t = Some i ->
             exists u, In u users /\ User._id u = i
                       /\ User.organization u = Some o
                       /\ User.isActive u = true)
  /\ (code (fst (TaskRoutes.createTask newId now users tasks user b)) <> 201 ->
      snd (TaskRoutes.createTask newId now users tasks user b) = tasks).
Proof.
  unfold TaskRoutes.createTask, Tenant.tenantIsolation.
  destruct (actor_organization user) as [o|];
    [|split; [discriminate|reflexivity]].
  destruct (AuthMiddleware.authorize [Admin; Manager] user) eqn:Ha;
    cbn [negb]; [|split; [discriminate|reflexivity]].
  destruct (TaskRoutes.validCreate b) eqn:Ev; cbn [negb];
    [|split; [discriminate|reflexivity]].
  assert (Hrole : actor_role user = Admin \/ actor_role user = Manager).
  { unfold AuthMiddleware.authorize in Ha. destruct (actor_role user); auto.
    discriminate. }
  assert (Hfound : forall i, TaskRoutes.activeMember users o i <> None ->
            exists u, In u users /\ User._id u = i
                      /\ User.organization u = Some o
                      /\ User.isActive u = true).
  { intros i Hi.
    destruct (TaskRoutes.activeMember users o i) as [u|] eqn:Eu;
      [|contradiction].
    apply find_some in Eu. destruct Eu as [Hu Hp].
    rewrite !andb_true_iff in Hp. destruct Hp as [[Hp1 Hp2] Hp3].
    exists u. split; [exact Hu|]. split; [now apply N.eqb_eq|].
    split; [now apply opt_id_eqb_true|exact Hp3]. }
  set (sb := TaskRoutes.sanitize b).
  destruct (lookup "assignedTo" sb) as [v|] eqn:El.
  - destruct (truthy v) eqn:Et.
    + destruct (Task.castObjectId v) as [a|] eqn:Ec;
        [|split; [discriminate|reflexivity]].
      destruct (TaskRoutes.activeMember users o a) as [u|] eqn:Ea;
        cbn [isSome]; [|split; [discriminate|reflexivity]].
      destruct (TaskRoutes.newTask newId now o user sb) as [t0|] eqn:En;
        [|split; [discriminate|reflexivity]].
      split; [|intros H; simpl in H; contradiction].
      intros t tasks' E. injection E as <- <-. cbn [Task.preSave].
      exists o. pose proof (newTask_fresh _ _ _ _ _ En) as Hf.
      destruct (newTask_shape _ _ _ _ _ En) as [H1 [H2 [H3 [H4 H5]]]].
      repeat split; auto; try apply Hf.
      intros i Hi. apply Hfound. rewrite H5 in Hi.
      unfold TaskRoutes.orUndefined in Hi. rewrite El, Et in Hi.
      rewrite Ec in Hi. injection Hi as <-. congruence.
    + destruct (TaskRoutes.newTask newId now o user sb) as [t0|] eqn:En;
        [|split; [discriminate|reflexivity]].
      split; [|intros H; simpl in H; contradiction].
      intros t tasks' E. injection E as <- <-. cbn [Task.preSave].
      exists o. pose proof (newTask_fresh _ _ _ _ _ En) as Hf.
      destruct (newTask_shape _ _ _ _ _ En) as [H1 [H2 [H3 [H4 H5]]]].
      repeat split; auto; try apply Hf.
      intros i Hi. rewrite H5 in Hi.
      unfold TaskRoutes.orUndefined in Hi. rewrite El, Et in Hi. discriminate.
  - destruct (TaskRoutes.newTask newId now o user sb) as [t0|] eqn:En;
      [|split; [discriminate|reflexivity]].
    split; [|intros H; simpl in H; contradiction].
    intros t tasks' E. injection E as <- <-. cbn [Task.preSave].
    exists o. pose proof (newTask_fresh _ _ _ _ _ En) as Hf.
    destruct (newTask_shape _ _ _ _ _ En) as [H1 [H2 [H3 [H4 H5]]]].
    repeat split; auto; try apply Hf.
    intros i Hi. rewrite H5 in Hi.
    unfold TaskRoutes.orUndefined in Hi. rewrite El in Hi. discriminate.
Qed.

Lemma create_stores_one_checked_task_witness :
  exists t,
    TaskRoutes.createTask 30 5000 Sample.staff Sample.tasks Sample.admin1
      [("title", JStr " Review "); ("category", JStr "Bug");
       ("status", JStr "Expired"); ("organization", JId "000000000000000000000002" 2);
       ("assignedTo", JId "00000000000000000000000b" 11)]
    = (Response 201 (PData (TaskRoutes.DTask t)), (Sample.tasks ++ [t])%list)
    /\ Task.status t = Todo /\ Task.organization t = 1%N.
Proof.
  eexists. split; [reflexivity|].
  destruct (create_stores_one_checked_task 30 5000 Sample.staff Sample.tasks
              Sample.admin1
              [("title", JStr " Review "); ("category", JStr "Bug");
               ("status", JStr "Expired");
               ("organization", JId "000000000000000000000002" 2);
               ("assignedTo", JId "00000000000000000000000b" 11)]) as [H _].
  destruct (H _ _ eq_refl) as [o [Ho [_ [_ [_ [_ [[H1 [_ [H2 _]]] _]]]]]]].
  injection Ho as <-. split; [exact H1|exact H2].
Defined.

(** X11.  Apart from an update whose body carries the key [completedAt] or
    the key [_id], every operation on tasks keeps the rule that a task has
    a completion date exactly when it is Completed: if the rule holds of
    every stored task, it holds after a create, after a delete, after a
    tick of the expiration job, and after an update whose body has neither
    of the two keys. *)
Theorem completion_date_rule_is_kept
  (newId : ObjectId) (now : Date) (users : list User.doc)
  (tasks : list Task.doc) (user : Actor) (id : option ObjectId) (b : body) :
  Forall completedAt_iff_Completed tasks ->
  Forall completedAt_iff_Completed
    (snd (TaskRoutes.createTask newId now users tasks user b))
  /\ Forall completedAt_iff_Completed
       (snd (TaskRoutes.deleteTask tasks user id))
  /\ Forall completedAt_iff_Completed
       (ExpirationJob.taskExpirationJob now tasks)
  /\ (~ In "completedAt" (keys b) -> ~ In "_id" (keys b) ->
      Forall completedAt_iff_Completed
        (snd (TaskRoutes.updateTask now users tasks user id b))).
Proof.
  intros Hall. split; [|split; [|split]].
  - destruct (createTask_stores newId now users tasks user b)
      as [->|[o [t [_ [[Hs [Hc _]] ->]]]]]; [exact Hall|].
    apply Forall_app. split; [exact Hall|]. constructor; [|constructor].
    unfold completedAt_iff_Completed. rewrite Hs, Hc. split; congruence.
  - unfold TaskRoutes.deleteTask.
    destruct (Tenant.tenantIsolation user) as [o|]; [|exact Hall].
    destruct (negb _); [exact Hall|]. destruct id as [i|]; [|exact Hall].
    destruct (find _ tasks); [|exact Hall]. cbn [snd].
    rewrite Forall_forall in *. intros x Hx. apply Hall.
    now apply deleteFirst_In in Hx.
  - now apply expiration_keeps_completedAt_invariant.
  - intros Hk Hi. now apply update_keeps_completedAt_invariant.
Qed.

Lemma completion_date_rule_is_kept_witness :
  Forall completedAt_iff_Completed
    (snd (TaskRoutes.updateTask 5000 [] Sample.tasks Sample.member11
            (Some 7%N) [("status", JStr "Completed")])).
Proof.
  assert (Hall : Forall completedAt_iff_Completed Sample.tasks).
  { repeat constructor; unfold completedAt_iff_Completed; simpl;
      intros; congruence. }
  destruct (completion_date_rule_is_kept 0 5000 [] Sample.member11
              (Some 7%N) [("status", JStr "Completed")] Hall)
    as [_ [_ [_ H]]].
  apply H; simpl; intuition discriminate.
Defined.

(** ** Invitations *)

Section UsersCollections.

Lemma find_app_none {A} (p : A -> bool) l l' :
  (forall x, In x l -> p x = false) -> find p (l ++ l')%list = find p l'.
Proof.
  induction l as [|x l IH]; intros H; [reflexivity|]. cbn [app find].
  rewrite (H x) by now left. apply IH. intros y Hy. apply H. now right.
Qed.

Lemma findByEmail_none users e :
  AuthRoutes.findByEmail users e = None ->
  forall x, In x users -> (User.email x =? AuthRoutes.emailSetter e) = false.
Proof. unfold AuthRoutes.findByEmail. intros H. now apply find_none. Qed.

Lemma user_replace_Forall2 (R : User.doc -> User.doc -> Prop) saved users :
  (forall d, In d users -> User._id d = User._id saved -> R d saved) ->
  (forall d, R d d) ->
  Forall2 R users (User.replace saved users).
Proof.
  intros Hs Hr. unfold User.replace.
  induction users as [|d l IH]; cbn [map]; constructor.
  - destruct (N.eqb_spec (User._id d) (User._id saved)); [|apply Hr].
    apply Hs; [now left|assumption].
  - apply IH. intros x Hx. apply Hs. now right.
Qed.

Lemma user_replace_In saved users x :
  In x (User.replace saved users) -> x = saved \/ In x users.
Proof.
  unfold User.replace. rewrite in_map_iff. intros [d [H Hd]].
  destruct (N.eqb (User._id d) (User._id saved)); subst; auto.
Qed.

Lemma user_replace_saved saved users old :
  In old users -> User._id old = User._id saved ->
  In saved (User.replace saved users).
Proof.
  intros Hin Hid. unfold User.replace. apply in_map_iff. exists old.
  split; [|exact Hin]. apply N.eqb_eq in Hid. now rewrite Hid.
Qed.

End UsersCollections.

Section Invitations.

Variable isEmail : string -> bool.
Variables normalizeEmail bcryptHash : string -> string.
Variable bcryptCompare : string -> string -> bool.
Variable jwtSign : ObjectId -> string.
Variable frontendUrl : string.

(** What a successful [POST /invite] stores and answers. *)
Lemma invite_stores newId newToken now users user email role inv users' :
  OrganizationRoutes.invite isEmail normalizeEmail bcryptHash frontendUrl
    newId newToken now users user email role
  = (Response 200 (PData inv), users') ->
  exists o placeholder,
    actor_organization user = Some o
    /\ isEmail (AuthRoutes.text email) = true
    /\ AuthRoutes.findByEmail users (normalizeEmail (AuthRoutes.text email))
       = None
    /\ users' = (users ++ [placeholder])%list
    /\ User._id placeholder = newId
    /\ User.email placeholder
       = AuthRoutes.emailSetter (normalizeEmail (AuthRoutes.text email))
    /\ User.isActive placeholder = false
    /\ User.organization placeholder = Some o
    /\ User.inviteToken placeholder = Some newToken
    /\ User.inviteExpires placeholder = Some (now + 604800000)
    /\ (User.role placeholder = Member \/ User.role placeholder = Manager)
    /\ (role = None -> User.role placeholder = Member)
    /\ OrganizationRoutes.inviteToken inv = newToken
    /\ OrganizationRoutes.expiresAt inv = now + 604800000.
Proof.
  unfold OrganizationRoutes.invite, Tenant.tenantIsolation.
  destruct (actor_organization user) as [o|]; [|discriminate].
  destruct (negb (AuthMiddleware.authorize _ _)); [discriminate|].
  destruct (isEmail (AuthRoutes.text email)) eqn:He; cbn [andb];
    [|discriminate].
  destruct (match role with Some r => _ | None => true end) eqn:Hr;
    cbn [negb]; [|discriminate].
  destruct (AuthRoutes.findByEmail _ _) eqn:Hf; [discriminate|].
  destruct (Role_of_string _) as [r|] eqn:Er; [|discriminate].
  intros E. injection E as <- <-. eexists. eexists.
  repeat split; cbn.
  - destruct role as [x|]; [|injection Er as <-; now left].
    unfold isIn in Hr. cbn in Hr. rewrite !orb_false_r in Hr.
    apply orb_true_iff in Hr. destruct Hr as [Hr|Hr];
      apply String.eqb_eq in Hr; subst x; injection Er as <-; auto.
  - intros ->. now injection Er as <-.
Qed.

(** The placeholder and the answer of a successful [POST /invite], field
    by field. *)
Lemma invite_exact newId newToken now users user email role inv users' :
  OrganizationRoutes.invite isEmail normalizeEmail bcryptHash frontendUrl
    newId newToken now users user email role
  = (Response 200 (PData inv), users') ->
  exists o,
    actor_organization user = Some o
    /\ (actor_role user = Admin \/ actor_role user = Manager)
    /\ (role = None \/ role = Some "Member" \/ role = Some "Manager")
    /\ users'
       = (users
          ++ [{| User._id := newId; User.name := "Invited User";
                 User.email :=
                   AuthRoutes.emailSetter
                     (normalizeEmail (AuthRoutes.text email));
                 User.password := bcryptHash "temporary";
                 User.organization := Some o;
                 User.role :=
                   match role with
                   | Some r => if r =? "Manager" then Manager else Member
                   | None => Member
                   end;
                 User.isActive := false; User.lastLogin := None;
                 User.inviteToken := Some newToken;
                 User.inviteExpires := Some (now + 604800000);
                 User.createdAt := now; User.updatedAt := now |}])%list
    /\ inv = {| OrganizationRoutes.inviteToken := newToken;
                OrganizationRoutes.inviteUrl :=
                  frontendUrl ++ "/join?token=" ++ newToken;
                OrganizationRoutes.expiresAt := now + 604800000 |}.
Proof.
  unfold OrganizationRoutes.invite, Tenant.tenantIsolation.
  destruct (actor_organization user) as [o|]; [|discriminate].
  destruct (AuthMiddleware.authorize _ _) eqn:Ha; cbn [negb]; [|discriminate].
  destruct (isEmail (AuthRoutes.text email)) eqn:He; cbn [andb];
    [|discriminate].
  destruct (match role with Some r => _ | None => true end) eqn:Hr;
    cbn [negb]; [|discriminate].
  destruct (AuthRoutes.findByEmail _ _) eqn:Hf; [discriminate|].
  destruct (Role_of_string _) as [r|] eqn:Er; [|discriminate].
  intros E. injection E as <- <-. exists o.
  split; [reflexivity|]. split.
  { unfold AuthMiddleware.authorize in Ha.
    destruct (actor_role user); auto. discriminate. }
  assert (Hrole : (role = None \/ role = Some "Member" \/ role = Some "Manager")
                  /\ r = match role with
                         | Some x => if x =? "Manager" then Manager else Member
                         | None => Member
                         end).
  { destruct role as [x|]; [|injection Er as <-; auto].
    unfold isIn in Hr. cbn in Hr. rewrite !orb_false_r in Hr.
    apply orb_true_iff in Hr. destruct Hr as [Hr|Hr];
      apply String.eqb_eq in Hr; subst x; injection Er as <-; auto. }
  destruct Hrole as [Hrole ->]. split; [exact Hrole|]. split; reflexivity.
Qed.

End Invitations.

(** X12.  An invitation by an Admin or a Manager stores one placeholder,
    at the end of the collection: an inactive user named "Invited User"
    under the invited address, in the organization of the inviter, a
    Manager when that role was asked for and a Member otherwise, holding
    the token with an expiry seven days after the request; the answer
    carries the token, the link made of it and the expiry.  And nobody can
    log in under the invited address, whatever the password: the answer is
    the 400 "Invalid credentials". *)
Theorem invited_address_cannot_log_in
  (isEmail : string -> bool) (normalizeEmail bcryptHash : string -> string)
  (bcryptCompare : string -> string -> bool) (jwtSign : ObjectId -> string)
  (frontendUrl : string)
  (newId : ObjectId) (newToken : string) (now : Date)
  (users : list User.doc) (orgs : list Organization.doc) (user : Actor)
  (email : string) (role : option string)
  (inv : OrganizationRoutes.Invite) (users' : list User.doc) :
  OrganizationRoutes.invite isEmail normalizeEmail bcryptHash frontendUrl
    newId newToken now users user (Some email) role
  = (Response 200 (PData inv), users') ->
  (exists o,
      actor_organization user = Some o
      /\ (actor_role user = Admin \/ actor_role user = Manager)
      /\ (role = None \/ role = Some "Member" \/ role = Some "Manager")
      /\ users'
         = (users
            ++ [{| User._id := newId; User.name := "Invited User";
                   User.email :=
                     AuthRoutes.emailSetter (normalizeEmail email);
                   User.password := bcryptHash "temporary";
                   User.organization := Some o;
                   User.role :=
                     match role with
                     | Some r => if r =? "Manager" then Manager else Member
                     | None => Member
                     end;
                   User.isActive := false; User.lastLogin := None;
                   User.inviteToken := Some newToken;
                   User.inviteExpires := Some (now + 604800000);
                   User.createdAt := now; User.updatedAt := now |}])%list
      /\ inv = {| OrganizationRoutes.inviteToken := newToken;
                  OrganizationRoutes.inviteUrl :=
                    frontendUrl ++ "/join?token=" ++ newToken;
                  OrganizationRoutes.expiresAt := now + 604800000 |})
  /\ forall now2 password,
       AuthRoutes.login isEmail normalizeEmail bcryptCompare jwtSign
         now2 users' orgs (Some email) (Some password)
       = (Response 400 (PMessage "Invalid credentials"), users').
Proof.
  intros H.
  split; [exact (@invite_exact isEmail normalizeEmail bcryptHash frontendUrl
                   newId newToken now users user (Some email) role inv users'
                   H)|].
  destruct (invite_stores _ _ _ _ _ _ _ _ _ _ _ H)
    as [o [ph [Ho [He [Hf [-> [Hid [Hmail [Hact _]]]]]]]]].
  intros now2 password. unfold AuthRoutes.login.
  cbn [AuthRoutes.text isSome] in *. rewrite He. cbn [andb negb].
  replace (find _ (users ++ [ph])%list) with (@None User.doc); [reflexivity|].
  symmetry. apply find_none_iff. intros x Hx. apply in_app_or in Hx.
  destruct Hx as [Hx|[<-|[]]].
  - now rewrite (findByEmail_none _ _ Hf x Hx).
  - rewrite Hact. apply andb_false_r.
Qed.

Lemma invited_address_cannot_log_in_witness :
  exists users',
    fst (OrganizationRoutes.invite Sample.isEmail Sample.normalizeEmail
           Sample.bcryptHash "https://app" 16 "feed" 100 Sample.staff
           Sample.admin1 (Some "finn@x.io") (Some "Manager"))
    = Response 200
        (PData {| OrganizationRoutes.inviteToken := "feed";
                  OrganizationRoutes.inviteUrl := "https://app/join?token=feed";
                  OrganizationRoutes.expiresAt := 604800100 |})
    /\ AuthRoutes.login Sample.isEmail Sample.normalizeEmail
         Sample.bcryptCompare Sample.jwtSign 200 users' Sample.orgs
         (Some "finn@x.io") (Some (JStr "temporary"))
       = (Response 400 (PMessage "Invalid credentials"), users').
Proof.
  eexists. split; [reflexivity|].
  eapply (@invited_address_cannot_log_in Sample.isEmail Sample.normalizeEmail
            Sample.bcryptHash Sample.bcryptCompare Sample.jwtSign "https://app"
            16 "feed" 100 Sample.staff Sample.orgs Sample.admin1 "finn@x.io"
            (Some "Manager")).
  reflexivity.
Defined.

(** X13.  The token of an invitation works under any address but the
    invited one.  While the invitation is pending, a join with its token
    under the invited address is refused with "User already exists", the
    placeholder holding that address; a join under an address that no user
    has succeeds and creates a Member of the inviting organization, also
    when the invitation asked for a Manager; and from the expiry on the
    token is refused.  (The token is one that no earlier user holds.) *)
Theorem invite_token_and_address
  (isEmail : string -> bool) (normalizeEmail bcryptHash : string -> string)
  (jwtSign : ObjectId -> string) (frontendUrl : string)
  (newId : ObjectId) (newToken : string) (now : Date)
  (users : list User.doc) (orgs : list Organization.doc) (user : Actor)
  (email : string) (role : option string)
  (inv : OrganizationRoutes.Invite) (users' : list User.doc)
  (o : ObjectId) (org : Organization.doc) :
  actor_organization user = Some o ->
  AuthRoutes.findOrganization orgs (Some o) = Some org ->
  (forall u, In u users -> User.inviteToken u <> Some newToken) ->
  OrganizationRoutes.invite isEmail normalizeEmail bcryptHash frontendUrl
    newId newToken now users user (Some email) role
  = (Response 200 (PData inv), users') ->
  forall joinId now2 name password,
    isLength 2 100 (trim name) = true ->
    minLength 6 password = true ->
    (now2 < now + 604800000 ->
     AuthRoutes.join isEmail normalizeEmail bcryptHash jwtSign
       joinId now2 users' orgs (Some name) (Some email) (Some password)
       (Some newToken)
     = (Response 400 (PMessage "User already exists"), users'))
    /\ (forall email2,
          now2 < now + 604800000 ->
          isEmail email2 = true ->
          AuthRoutes.findByEmail users' (normalizeEmail email2) = None ->
          exists joined,
            AuthRoutes.join isEmail normalizeEmail bcryptHash jwtSign
              joinId now2 users' orgs (Some name) (Some email2)
              (Some password) (Some newToken)
            = (Response 201 (PData (AuthRoutes.session jwtSign joined org)),
               (users' ++ [joined])%list)
            /\ User.role joined = Member
            /\ User.organization joined = Some (Organization._id org)
            /\ User.isActive joined = true)
    /\ (forall email2,
          now + 604800000 <= now2 ->
          isEmail email2 = true ->
          AuthRoutes.join isEmail normalizeEmail bcryptHash jwtSign
            joinId now2 users' orgs (Some name) (Some email2)
            (Some password) (Some newToken)
          = (Response 400 (PMessage "Invalid or expired invite token"), users')).
Proof.
  intros Ho Horg Hfresh H.
  destruct (invite_stores _ _ _ _ _ _ _ _ _ _ _ H)
    as [o' [ph [Ho' [He [Hf [-> [Hid [Hmail [Hact [Hphorg [Htok [Hexp _]]]]]]]]]]]].
  rewrite Ho in Ho'. injection Ho' as <-. cbn [AuthRoutes.text] in *.
  intros joinId now2 name password Hn Hp.
  assert (Hnone : forall x, In x users ->
            AuthRoutes.pendingInvite now2 newToken x = false).
  { intros x Hx. unfold AuthRoutes.pendingInvite.
    specialize (Hfresh x Hx). destruct (User.inviteToken x) as [t|];
      [|reflexivity].
    destruct (String.eqb_spec t newToken); [congruence|reflexivity]. }
  assert (Hpend : now2 < now + 604800000 ->
            find (AuthRoutes.pendingInvite now2 newToken) (users ++ [ph])%list
            = Some ph).
  { intros Hlt. rewrite (find_app_none _ _ _ Hnone). cbn [find].
    unfold AuthRoutes.pendingInvite. rewrite Htok, Hexp, String.eqb_refl.
    apply Z.ltb_lt in Hlt. now rewrite Hlt. }
  split; [|split].
  - intros Hlt. unfold AuthRoutes.join. cbn [AuthRoutes.text isSome].
    rewrite Hn, He, Hp. cbn [andb negb]. rewrite (Hpend Hlt).
    replace (AuthRoutes.findByEmail _ _) with (Some ph); [reflexivity|].
    symmetry. unfold AuthRoutes.findByEmail.
    rewrite find_app_none by (apply findByEmail_none; exact Hf).
    cbn [find]. now rewrite Hmail, String.eqb_refl.
  - intros email2 Hlt He2 Hf2. eexists. split.
    + apply join_succeeds with (inviter := ph); auto.
      now rewrite Hphorg.
    + repeat split.
  - intros email2 Hge He2. unfold AuthRoutes.join. cbn [AuthRoutes.text isSome].
    rewrite Hn, He2, Hp. cbn [andb negb].
    replace (find _ (users ++ [ph])%list) with (@None User.doc); [reflexivity|].
    symmetry. rewrite (find_app_none _ _ _ Hnone). cbn [find].
    unfold AuthRoutes.pendingInvite. rewrite Htok, Hexp, String.eqb_refl.
    cbn [andb]. replace (Z.ltb now2 (now + 604800000)) with false; [reflexivity|].
    symmetry. apply Z.ltb_ge. lia.
Qed.

Lemma invite_token_and_address_witness :
  AuthRoutes.join Sample.isEmail Sample.normalizeEmail Sample.bcryptHash
    Sample.jwtSign 17 200
    (snd (OrganizationRoutes.invite Sample.isEmail Sample.normalizeEmail
            Sample.bcryptHash "https://app" 16 "feed" 100 Sample.staff
            Sample.admin1 (Some "finn@x.io") (Some "Manager")))
    Sample.orgs (Some "Finn") (Some "finn@x.io") (Some "secret5") (Some "feed")
  = (Response 400 (PMessage "User already exists"),
     snd (OrganizationRoutes.invite Sample.isEmail Sample.normalizeEmail
            Sample.bcryptHash "https://app" 16 "feed" 100 Sample.staff
            Sample.admin1 (Some "finn@x.io") (Some "Manager"))).
Proof.
  eapply (@invite_token_and_address Sample.isEmail Sample.normalizeEmail
            Sample.bcryptHash Sample.jwtSign "https://app" 16 "feed" 100
            Sample.staff Sample.orgs Sample.admin1 "finn@x.io" (Some "Manager")
            _ _ 1%N Sample.acme eq_refl eq_refl).
  - intros u [<-|[<-|[<-|[]]]]; discriminate.
  - reflexivity.
  - reflexivity.
  - reflexivity.
  - reflexivity.
Defined.

(** ** Members of an organization *)

Section Members.

Import OrganizationRoutes.

Lemma In_insertNewest x u l : In x (insertNewest u l) <-> x = u \/ In x l.
Proof.
  induction l as [|y l IH]; simpl.
  - intuition.
  - destruct (Z.ltb (User.createdAt y) (User.createdAt u)); simpl; [intuition|].
    rewrite IH. intuition.
Qed.

Lemma In_sortNewest x l : In x (sortNewest l) <-> In x l.
Proof.
  induction l as [|y l IH]; simpl; [tauto|].
  rewrite In_insertNewest, IH. intuition.
Qed.

Lemma insertNewest_sorted u l :
  newestUsersFirst l -> newestUsersFirst (insertNewest u l).
Proof.
  unfold newestUsersFirst. induction 1 as [|x l Hl IH Hx]; simpl.
  - repeat constructor.
  - destruct (Z.ltb (User.createdAt x) (User.createdAt u)) eqn:E.
    + apply Z.ltb_lt in E. constructor; [now constructor|].
      constructor; [lia|]. rewrite Forall_forall in *. intros y Hy.
      specialize (Hx y Hy). simpl in Hx. lia.
    + apply Z.ltb_ge in E. constructor; [exact IH|].
      rewrite Forall_forall in *. intros y Hy.
      apply In_insertNewest in Hy. destruct Hy as [->|Hy]; auto.
Qed.

Lemma sortNewest_sorted l : newestUsersFirst (sortNewest l).
Proof.
  induction l as [|x l IH]; simpl; [constructor|].
  now apply insertNewest_sorted.
Qed.

Lemma activeIn_spec o u :
  activeIn o u = true <-> User.organization u = Some o /\ User.isActive u = true.
Proof.
  unfold activeIn. rewrite andb_true_iff, opt_id_eqb_true. tauto.
Qed.

Lemma find_user_byId (p : User.doc -> bool) users u :
  NoDup (map User._id users) -> In u users -> p u = true ->
  find (fun x => (N.eqb (User._id x) (User._id u) && p x)%bool) users = Some u.
Proof.
  intros Hnd Hin Hp.
  destruct (find _ users) as [x|] eqn:Ef.
  - apply find_some in Ef. destruct Ef as [Hx Hb].
    apply andb_true_iff in Hb. destruct Hb as [Hb _]. apply N.eqb_eq in Hb.
    f_equal. exact (@NoDup_map_eq _ _ User._id users x u Hnd Hx Hin Hb).
  - apply (find_none _ _ Ef) in Hin. now rewrite N.eqb_refl, Hp in Hin.
Qed.


Lemma setRole_same now r u :
  same_account u (setRole now r u)
  /\ User.isActive (setRole now r u) = User.isActive u
  /\ User.role (setRole now r u) = r.
Proof.
  unfold setRole, User.timestamps, same_account.
  destruct (negb _); cbn; tauto.
Qed.

Lemma deactivate_same now u :
  same_account u (deactivate now u)
  /\ User.role (deactivate now u) = User.role u
  /\ User.isActive (deactivate now u) = false
  /\ (User.isActive u = true -> User.updatedAt (deactivate now u) = now).
Proof.
  unfold deactivate, User.timestamps, same_account.
  destruct (User.isActive u); cbn; intuition discriminate.
Qed.

(** The ways through the two routes that write a member. *)
Lemma updateRole_stores now users user userId role :
  (snd (updateRole now users user userId role) = users
   /\ code (fst (updateRole now users user userId role)) <> 200)
  \/ exists o found r,
       actor_organization user = Some o /\ actor_role user = Admin
       /\ In found users /\ Task.castObjectId userId = Some (User._id found)
       /\ activeIn o found = true
       /\ isSelf userId user = false
       /\ Role_of_string (AuthRoutes.text role) = Some r
       /\ updateRole now users user userId role
          = (Response 200 (PData (User.toJSON (setRole now r found))),
             User.replace (setRole now r found) users).
Proof.
  unfold updateRole, Tenant.tenantIsolation.
  destruct (actor_organization user) as [o|];
    [|left; split; [reflexivity|discriminate]].
  destruct (AuthMiddleware.authorize [Admin] user) eqn:Ha; cbn [negb];
    [|left; split; [reflexivity|discriminate]].
  destruct (negb (isIn _ _)); [left; split; [reflexivity|discriminate]|].
  destruct (isSelf userId user) eqn:Es;
    [left; split; [reflexivity|discriminate]|].
  destruct (Task.castObjectId userId) as [i|] eqn:Ec;
    [|left; split; [reflexivity|discriminate]].
  destruct (find _ users) as [found|] eqn:Ef;
    [|left; split; [reflexivity|discriminate]].
  destruct (Role_of_string _) as [r|] eqn:Er;
    [|left; split; [reflexivity|discriminate]].
  apply find_some in Ef. destruct Ef as [Hin Hp].
  apply andb_true_iff in Hp. destruct Hp as [Hp1 Hp2]. apply N.eqb_eq in Hp1.
  right. exists o, found, r. repeat split; auto.
  - unfold AuthMiddleware.authorize in Ha. destruct (actor_role user);
      (reflexivity || discriminate).
  - now rewrite Hp1.
Qed.

Lemma removeMember_stores now users user userId :
  (snd (removeMember now users user userId) = users
   /\ code (fst (removeMember now users user userId)) <> 200)
  \/ exists o found,
       actor_organization user = Some o /\ actor_role user = Admin
       /\ In found users /\ Task.castObjectId userId = Some (User._id found)
       /\ User.organization found = Some o
       /\ isSelf userId user = false
       /\ removeMember now users user userId
          = (Response 200 (PMessage "User removed successfully"),
             User.replace (deactivate now found) users).
Proof.
  unfold removeMember, Tenant.tenantIsolation.
  destruct (actor_organization user) as [o|];
    [|left; split; [reflexivity|discriminate]].
  destruct (AuthMiddleware.authorize [Admin] user) eqn:Ha; cbn [negb];
    [|left; split; [reflexivity|discriminate]].
  destruct (isSelf userId user) eqn:Es;
    [left; split; [reflexivity|discriminate]|].
  destruct (Task.castObjectId userId) as [i|] eqn:Ec;
    [|left; split; [reflexivity|discriminate]].
  destruct (find _ users) as [found|] eqn:Ef;
    [|left; split; [reflexivity|discriminate]].
  apply find_some in Ef. destruct Ef as [Hin Hp].
  apply andb_true_iff in Hp. destruct Hp as [Hp1 Hp2]. apply N.eqb_eq in Hp1.
  right. exists o, found. repeat split; auto.
  - unfold AuthMiddleware.authorize in Ha. destruct (actor_role user);
      (reflexivity || discriminate).
  - now rewrite Hp1.
  - now apply opt_id_eqb_true.
Qed.

End Members.

(** X14.  The members route lists exactly the active users of the actor's
    organization, newest first, each as its public object: a removed
    member, the placeholder of an invitation and the users of other
    organizations are not listed. *)
Theorem members_are_the_active_users
  (users : list User.doc) (user : Actor) (o : ObjectId) :
  actor_organization user = Some o ->
  exists members,
    OrganizationRoutes.getMembers users user
    = Response 200 (PData (map User.toJSON members))
    /\ (forall u, In u members <->
                  In u users /\ User.organization u = Some o
                  /\ User.isActive u = true)
    /\ newestUsersFirst members
    /\ List.length members
       = List.length (List.filter (OrganizationRoutes.activeIn o) users).
Proof.
  intros Ho. unfold OrganizationRoutes.getMembers, Tenant.tenantIsolation.
  rewrite Ho. eexists. split; [reflexivity|]. split; [|split].
  - intros u. rewrite In_sortNewest, filter_In, activeIn_spec. tauto.
  - apply sortNewest_sorted.
  - assert (G : forall l u, List.length (OrganizationRoutes.insertNewest u l)
                            = S (List.length l)).
    { induction l as [|x l IH]; intros u; simpl; [reflexivity|].
      destruct (Z.ltb _ _); simpl; [reflexivity|]. now rewrite IH. }
    induction (List.filter _ users) as [|x l IH]; simpl; [reflexivity|].
    now rewrite G, IH.
Qed.

Lemma members_are_the_active_users_witness :
  exists members,
    OrganizationRoutes.getMembers Sample.users Sample.admin1
    = Response 200 (PData (map User.toJSON members))
    /\ In Sample.ann members /\ ~ In Sample.bob members
    /\ ~ In Sample.invited members.
Proof.
  destruct (@members_are_the_active_users Sample.users Sample.admin1 1%N
              eq_refl) as [members [H [Hiff _]]].
  exists members. split; [exact H|]. split; [|split].
  - apply Hiff. simpl. tauto.
  - intros Hb. apply Hiff in Hb. destruct Hb as [_ [_ Hb]]. discriminate.
  - intros Hb. apply Hiff in Hb. destruct Hb as [_ [_ Hb]]. discriminate.
Defined.

(** X15.  The two routes that write a member keep every account what it
    is, in its organization, and reach only the organization of the actor
    (ids being unique): after a change of role every user has the id, name,
    address, password, organization, invitation and activity it had, after
    a removal every user has these and the role it had, in both cases a
    user of another organization is exactly as before, and an actor who is
    not an Admin changes nothing. *)
Theorem member_routes_stay_in_the_organization
  (now : Date) (users : list User.doc) (user : Actor) (o : ObjectId)
  (userId : jvalue) (role : option string) :
  actor_organization user = Some o ->
  NoDup (map User._id users) ->
  Forall2 (fun a a' => same_account a a'
                       /\ User.isActive a' = User.isActive a
                       /\ (User.organization a <> Some o -> a' = a))
    users (snd (OrganizationRoutes.updateRole now users user userId role))
  /\ Forall2 (fun a a' => same_account a a'
                          /\ User.role a' = User.role a
                          /\ (User.organization a <> Some o -> a' = a))
       users (snd (OrganizationRoutes.removeMember now users user userId))
  /\ (actor_role user <> Admin ->
      snd (OrganizationRoutes.updateRole now users user userId role) = users
      /\ snd (OrganizationRoutes.removeMember now users user userId) = users).
Proof.
  intros Ho Hnd.
  assert (Hrefl : forall a, same_account a a)
    by (intros a; unfold same_account; tauto).
  split; [|split].
  - destruct (updateRole_stores now users user userId role)
      as [[-> _]|[o' [found [r [Ho' [_ [Hin [_ [Hact [_ [_ ->]]]]]]]]]]].
    + apply Forall2_flip, Forall2_flip.
      induction users; constructor; auto.
      inversion Hnd; subst. auto.
    + cbn [snd]. rewrite Ho in Ho'. injection Ho' as <-.
      apply activeIn_spec in Hact. destruct Hact as [Horg _].
      apply user_replace_Forall2; [|intros a; auto].
      intros d Hd Hid. destruct (setRole_same now r found) as [H1 [H2 _]].
      assert (d = found)
        by (apply (@NoDup_map_eq _ _ User._id users d found Hnd Hd Hin);
            rewrite Hid; apply H1).
      subst d.
      split; [exact H1|]. split; [exact H2|]. intros Hne. contradiction.
  - destruct (removeMember_stores now users user userId)
      as [[-> _]|[o' [found [Ho' [_ [Hin [_ [Horg [_ ->]]]]]]]]].
    + apply Forall2_flip, Forall2_flip.
      induction users; constructor; auto.
      inversion Hnd; subst. auto.
    + cbn [snd]. rewrite Ho in Ho'. injection Ho' as <-.
      apply user_replace_Forall2; [|intros a; auto].
      intros d Hd Hid. destruct (deactivate_same now found) as [H1 [H2 _]].
      assert (d = found)
        by (apply (@NoDup_map_eq _ _ User._id users d found Hnd Hd Hin);
            rewrite Hid; apply H1).
      subst d.
      split; [exact H1|]. split; [exact H2|]. intros Hne. contradiction.
  - intros Hrole. split.
    + destruct (updateRole_stores now users user userId role)
        as [[H _]|[o' [found [r [_ [Ha _]]]]]]; [exact H|contradiction].
    + destruct (removeMember_stores now users user userId)
        as [[H _]|[o' [found [_ [Ha _]]]]]; [exact H|contradiction].
Qed.

Lemma member_routes_stay_in_the_organization_witness :
  snd (OrganizationRoutes.removeMember 300 Sample.staff Sample.admin2
         (JId "00000000000000000000000b" 11))
  = Sample.staff.
Proof.
  assert (Hnd : NoDup (map User._id Sample.staff))
    by (repeat constructor; simpl; intuition discriminate).
  destruct (@member_routes_stay_in_the_organization 300 Sample.staff
              Sample.admin2 2%N (JId "00000000000000000000000b" 11) None
              eq_refl Hnd)
    as [_ [H _]].
  remember (snd (OrganizationRoutes.removeMember 300 Sample.staff Sample.admin2
                   (JId "00000000000000000000000b" 11))) as after eqn:E.
  clear E.
  repeat match goal with
    | H : Forall2 _ _ _ |- _ => inversion H; subst; clear H
    end.
  repeat match goal with
    | H : _ /\ _ /\ (_ -> ?a' = _) |- _ =>
        let E := fresh in destruct H as [_ [_ E]];
        rewrite E by discriminate
    end.
  reflexivity.
Defined.

Section RemovedMembers.

Lemma user_replace_length saved users :
  List.length (User.replace saved users) = List.length users.
Proof. unfold User.replace. apply length_map. Qed.

Lemma user_replace_elements saved users old x :
  NoDup (map User._id users) -> In old users ->
  User._id saved = User._id old ->
  In x (User.replace saved users) ->
  x = saved \/ (In x users /\ User._id x <> User._id old).
Proof.
  intros Hnd Hold Hid. unfold User.replace. rewrite in_map_iff.
  intros [d [H Hd]]. rewrite Hid in H.
  destruct (N.eqb_spec (User._id d) (User._id old)); subst; auto.
Qed.

End RemovedMembers.

(** X16.  Removing a member is a soft delete that locks the member out.
    When an Admin removes a user of the organization (the parameter not
    being the text of the Admin's own id), the record stays in the
    collection with [isActive] false and, when it was active, the instant
    of the removal as [updatedAt]; its id, name, address, password,
    organization, role, last login, invitation and creation date are
    what they were.  From then on the user is not among the members
    listed, and a login under the user's address is answered "Invalid
    credentials" whatever the password.  (Ids and addresses are unique.) *)
Theorem removed_member_is_locked_out
  (isEmail : string -> bool) (normalizeEmail : string -> string)
  (bcryptCompare : string -> string -> bool) (jwtSign : ObjectId -> string)
  (now : Date) (users : list User.doc) (orgs : list Organization.doc)
  (user : Actor) (o : ObjectId) (u : User.doc) (s : string) :
  actor_organization user = Some o ->
  actor_role user = Admin ->
  NoDup (map User._id users) ->
  NoDup (map User.email users) ->
  In u users -> User.organization u = Some o ->
  s <> OrganizationRoutes.toString (actor_id user) ->
  let removed := OrganizationRoutes.deactivate now u in
  let after := User.replace removed users in
  OrganizationRoutes.removeMember now users user (JId s (User._id u))
  = (Response 200 (PMessage "User removed successfully"), after)
  /\ List.length after = List.length users
  /\ In removed after
  /\ same_account u removed
  /\ User.role removed = User.role u
  /\ User.isActive removed = false
  /\ (User.isActive u = true -> User.updatedAt removed = now)
  /\ (User.isActive u = false -> removed = u)
  /\ (exists members,
        OrganizationRoutes.getMembers after user
        = Response 200 (PData (map User.toJSON members))
        /\ forall x, In x members -> User._id x <> User._id u)
  /\ (forall now2 email password,
        isEmail email = true ->
        AuthRoutes.emailSetter (normalizeEmail email) = User.email u ->
        AuthRoutes.login isEmail normalizeEmail bcryptCompare jwtSign
          now2 after orgs (Some email) (Some password)
        = (Response 400 (PMessage "Invalid credentials"), after)).
Proof.
  intros Ho Hrole Hnd Hmail Hin Horg Hs removed after.
  destruct (deactivate_same now u) as [Hsame [Hr [Hact Hup]]].
  assert (Hid : User._id removed = User._id u) by apply Hsame.
  assert (Hrem : OrganizationRoutes.removeMember now users user (JId s (User._id u))
                 = (Response 200 (PMessage "User removed successfully"), after)).
  { unfold OrganizationRoutes.removeMember, Tenant.tenantIsolation.
    rewrite Ho. unfold AuthMiddleware.authorize. rewrite Hrole.
    cbn [existsb Role_eqb orb negb].
    unfold OrganizationRoutes.isSelf. cbn [jtext Task.castObjectId].
    destruct (String.eqb_spec s (OrganizationRoutes.toString (actor_id user)));
      [contradiction|].
    rewrite (find_user_byId
               (fun x => opt_id_eqb (User.organization x) o) users u Hnd Hin)
      by (now apply opt_id_eqb_true).
    reflexivity. }
  assert (Helem : forall x, In x after ->
            x = removed \/ (In x users /\ User._id x <> User._id u)).
  { intros x Hx. subst after.
    now apply (@user_replace_elements removed users u x Hnd Hin Hid). }
  split; [exact Hrem|]. split; [apply user_replace_length|].
  split; [now apply (user_replace_saved removed users u)|].
  split; [exact Hsame|]. split; [exact Hr|]. split; [exact Hact|].
  split; [exact Hup|].
  split.
  { intros Hina. subst removed.
    unfold OrganizationRoutes.deactivate, User.timestamps. rewrite Hina.
    destruct u; cbn in *. now subst. }
  split.
  - unfold OrganizationRoutes.getMembers, Tenant.tenantIsolation. rewrite Ho.
    eexists. split; [reflexivity|].
    intros x Hx. apply In_sortNewest, filter_In in Hx. destruct Hx as [Hx Ha].
    apply activeIn_spec in Ha. destruct Ha as [_ Ha].
    destruct (Helem x Hx) as [->|[_ Hne]];
      [unfold removed in Ha; congruence|exact Hne].
  - intros now2 email password He Hu. unfold AuthRoutes.login.
    cbn [AuthRoutes.text isSome]. rewrite He. cbn [andb negb].
    replace (find _ after) with (@None User.doc); [reflexivity|].
    symmetry. apply find_none_iff. intros x Hx. rewrite Hu.
    destruct (Helem x Hx) as [->|[Hxin Hne]];
      [unfold removed; rewrite Hact; apply andb_false_r|].
    destruct (String.eqb_spec (User.email x) (User.email u)) as [E|E];
      [|reflexivity].
    exfalso. apply Hne. f_equal.
    exact (@NoDup_map_eq _ _ User.email users x u Hmail Hxin Hin E).
Qed.

Lemma removed_member_is_locked_out_witness :
  AuthRoutes.login Sample.isEmail Sample.normalizeEmail Sample.bcryptCompare
    Sample.jwtSign 400
    (snd (OrganizationRoutes.removeMember 300 Sample.staff Sample.admin1
            (JId "00000000000000000000000b" 11)))
    Sample.orgs (Some "dora@x.io") (Some (JStr "secret3"))
  = (Response 400 (PMessage "Invalid credentials"),
     snd (OrganizationRoutes.removeMember 300 Sample.staff Sample.admin1
            (JId "00000000000000000000000b" 11))).
Proof.
  assert (Hnd : NoDup (map User._id Sample.staff))
    by (repeat constructor; simpl; intuition discriminate).
  assert (Hmail : NoDup (map User.email Sample.staff))
    by (repeat constructor; simpl; intuition discriminate).
  destruct (@removed_member_is_locked_out Sample.isEmail Sample.normalizeEmail
              Sample.bcryptCompare Sample.jwtSign 300 Sample.staff Sample.orgs
              Sample.admin1 1%N Sample.dora "00000000000000000000000b"
              eq_refl eq_refl Hnd Hmail ltac:(simpl; tauto) eq_refl
              ltac:(discriminate)) as [_ [_ [_ [_ [_ [_ [_ [_ [_ H]]]]]]]]].
  apply (H 400 "dora@x.io" (JStr "secret3")); reflexivity.
Defined.



(** X18.  The guard against acting on oneself compares texts.  An Admin who
    names the own id as [toString] prints it is answered 400 by both
    routes, nothing being stored; an Admin who names the own id by another
    text of the same id (its digits in upper case) passes the guard, and
    the removal then deactivates the Admin's own account. *)
Theorem self_check_compares_texts
  (now : Date) (users : list User.doc) (user : Actor) (o : ObjectId)
  (u : User.doc) (s : string) (role : option string) :
  actor_organization user = Some o ->
  actor_role user = Admin ->
  NoDup (map User._id users) ->
  In u users -> User._id u = actor_id user -> User.organization u = Some o ->
  let own := OrganizationRoutes.toString (actor_id user) in
  OrganizationRoutes.removeMember now users user (JId own (actor_id user))
  = (Response 400 (PMessage "Cannot remove yourself"), users)
  /\ (isIn ["Admin"; "Manager"; "Member"] (JStr (AuthRoutes.text role)) = true ->
      OrganizationRoutes.updateRole now users user (JId own (actor_id user)) role
      = (Response 400 (PMessage "Cannot change your own role"), users))
  /\ (s <> own ->
      OrganizationRoutes.removeMember now users user (JId s (actor_id user))
      = (Response 200 (PMessage "User removed successfully"),
         User.replace (OrganizationRoutes.deactivate now u) users)
      /\ In (OrganizationRoutes.deactivate now u)
           (User.replace (OrganizationRoutes.deactivate now u) users)
      /\ User.isActive (OrganizationRoutes.deactivate now u) = false).
Proof.
  intros Ho Hrole Hnd Hin Hid Horg own.
  split; [|split].
  - unfold OrganizationRoutes.removeMember, Tenant.tenantIsolation.
    rewrite Ho. unfold AuthMiddleware.authorize. rewrite Hrole.
    cbn [existsb Role_eqb orb negb].
    unfold OrganizationRoutes.isSelf. cbn [jtext].
    subst own. now rewrite String.eqb_refl.
  - intros Hv. unfold OrganizationRoutes.updateRole, Tenant.tenantIsolation.
    rewrite Ho. unfold AuthMiddleware.authorize. rewrite Hrole.
    cbn [existsb Role_eqb orb negb]. rewrite Hv. cbn [negb].
    unfold OrganizationRoutes.isSelf. cbn [jtext].
    subst own. now rewrite String.eqb_refl.
  - intros Hs. destruct (deactivate_same now u) as [Hsame [_ [Hact _]]].
    split; [|split; [|exact Hact]];
      [|apply (user_replace_saved _ users u); [exact Hin|]; symmetry;
        apply Hsame].
    unfold OrganizationRoutes.removeMember, Tenant.tenantIsolation.
    rewrite Ho. unfold AuthMiddleware.authorize. rewrite Hrole.
    cbn [existsb Role_eqb orb negb].
    unfold OrganizationRoutes.isSelf. cbn [jtext Task.castObjectId].
    destruct (String.eqb_spec s (OrganizationRoutes.toString (actor_id user)));
      [contradiction|].
    rewrite <- Hid.
    rewrite (find_user_byId
               (fun x => opt_id_eqb (User.organization x) o) users u Hnd Hin)
      by (now apply opt_id_eqb_true).
    reflexivity.
Qed.

Lemma self_check_compares_texts_witness :
  OrganizationRoutes.toString 10 = "00000000000000000000000a"
  /\ OrganizationRoutes.removeMember 300 Sample.staff Sample.admin1
       (JId "00000000000000000000000A" 10)
     = (Response 200 (PMessage "User removed successfully"),
        [User.with_updatedAt 300 (User.with_isActive false Sample.ann);
         Sample.dora; Sample.bob]).
Proof.
  split; [reflexivity|].
  assert (Hnd : NoDup (map User._id Sample.staff))
    by (repeat constructor; simpl; intuition discriminate).
  destruct (@self_check_compares_texts 300 Sample.staff Sample.admin1 1%N
              Sample.ann "00000000000000000000000A" None
              eq_refl eq_refl Hnd ltac:(simpl; tauto) eq_refl eq_refl)
    as [_ [_ H]].
  destruct (H ltac:(discriminate)) as [H1 _]. exact H1.
Defined.

Section SlugShape.

Import Organization.

Lemma everyChar_app p a b :
  everyChar p (a ++ b) = (everyChar p a && everyChar p b)%bool.
Proof.
  induction a as [|c a IH]; cbn [append everyChar]; [reflexivity|].
  now rewrite IH, andb_assoc.
Qed.

Lemma squeezeDashes_cons c c' s :
  squeezeDashes (String c (String c' s))
  = if (Ascii.eqb c "-" && Ascii.eqb c' "-")%bool
    then squeezeDashes (String c' s)
    else String c (squeezeDashes (String c' s)).
Proof. reflexivity. Qed.

Lemma dashOthers_chars s : everyChar slugChar (dashOthers s) = true.
Proof.
  induction s as [|c s IH]; cbn [dashOthers everyChar]; [reflexivity|].
  rewrite IH, andb_true_r. unfold slugChar.
  destruct (is_lower_alnum c) eqn:E; [now rewrite E|reflexivity].
Qed.

Lemma squeezeDashes_chars p s :
  everyChar p s = true -> everyChar p (squeezeDashes s) = true.
Proof.
  induction s as [|c s IH]; [reflexivity|].
  destruct s as [|c' s]; [intros H; exact H|].
  rewrite squeezeDashes_cons. intros H.
  change (everyChar p (String c (String c' s)))
    with (p c && everyChar p (String c' s))%bool in H.
  apply andb_true_iff in H. destruct H as [Hc H].
  destruct (Ascii.eqb c "-" && Ascii.eqb c' "-")%bool; [now apply IH|].
  cbn [everyChar]. now rewrite Hc, IH.
Qed.

Lemma squeezeDashes_start s :
  startsWithDash (squeezeDashes s) = startsWithDash s.
Proof.
  induction s as [|c s IH]; [reflexivity|].
  destruct s as [|c' s]; [reflexivity|].
  rewrite squeezeDashes_cons.
  destruct (Ascii.eqb c "-") eqn:Ec, (Ascii.eqb c' "-") eqn:Ec';
    cbn [andb startsWithDash]; try (now rewrite Ec).
  rewrite IH. cbn [startsWithDash]. now rewrite Ec'.
Qed.

Lemma squeezeDashes_single s : noDoubleDash (squeezeDashes s) = true.
Proof.
  induction s as [|c s IH]; [reflexivity|].
  destruct s as [|c' s]; [cbn; now rewrite andb_false_r|].
  rewrite squeezeDashes_cons.
  destruct (Ascii.eqb c "-" && Ascii.eqb c' "-")%bool eqn:E; [exact IH|].
  cbn [noDoubleDash]. rewrite IH, andb_true_r, squeezeDashes_start.
  cbn [startsWithDash]. now rewrite E.
Qed.

Lemma dropLeadingDash_shape s :
  everyChar slugChar s = true -> noDoubleDash s = true ->
  everyChar slugChar (dropLeadingDash s) = true
  /\ noDoubleDash (dropLeadingDash s) = true
  /\ startsWithDash (dropLeadingDash s) = false.
Proof.
  destruct s as [|c s]; [now cbn|].
  cbn [dropLeadingDash everyChar noDoubleDash startsWithDash].
  intros Hc Hd. apply andb_true_iff in Hc, Hd.
  destruct Hc as [Hc Hs], Hd as [Hd Hn].
  destruct (Ascii.eqb c "-") eqn:E.
  - cbn [andb] in Hd. apply negb_true_iff in Hd. auto.
  - cbn [everyChar noDoubleDash startsWithDash]. rewrite Hc, Hs, E, Hn. auto.
Qed.

Lemma dropTrailingDash_cons c c' s :
  dropTrailingDash (String c (String c' s))
  = String c (dropTrailingDash (String c' s)).
Proof. reflexivity. Qed.

Lemma dropTrailingDash_start s :
  startsWithDash s = false -> startsWithDash (dropTrailingDash s) = false.
Proof.
  destruct s as [|c [|c' s]]; [reflexivity| |].
  - cbn. intros H. rewrite H. cbn. exact H.
  - rewrite dropTrailingDash_cons. intros H; exact H.
Qed.

Lemma dropTrailingDash_starts_less s :
  startsWithDash (dropTrailingDash s) = true -> startsWithDash s = true.
Proof.
  destruct s as [|c [|c' s]]; [discriminate| |].
  - cbn. destruct (Ascii.eqb c "-") eqn:E; [reflexivity|]. cbn.
    now rewrite E.
  - rewrite dropTrailingDash_cons. intros H; exact H.
Qed.

Lemma dropTrailingDash_shape s :
  everyChar slugChar s = true -> noDoubleDash s = true ->
  everyChar slugChar (dropTrailingDash s) = true
  /\ noDoubleDash (dropTrailingDash s) = true
  /\ endsWithDash (dropTrailingDash s) = false.
Proof.
  induction s as [|c s IH]; [now cbn|].
  destruct s as [|c' s].
  - cbn [dropTrailingDash]. destruct (Ascii.eqb c "-") eqn:E; [now cbn|].
    intros Hc Hd. cbn [endsWithDash]. auto.
  - rewrite dropTrailingDash_cons. intros Hc Hd.
    change (everyChar slugChar (String c (String c' s)))
      with (slugChar c && everyChar slugChar (String c' s))%bool in Hc.
    change (noDoubleDash (String c (String c' s)))
      with (negb (Ascii.eqb c "-" && startsWithDash (String c' s))
            && noDoubleDash (String c' s))%bool in Hd.
    apply andb_true_iff in Hc, Hd.
    destruct Hc as [Hc Hs], Hd as [Hd Hn].
    destruct (IH Hs Hn) as [H1 [H2 H3]].
    cbn [everyChar noDoubleDash]. rewrite Hc, H1, H2, !andb_true_r.
    split; [reflexivity|]. split.
    + destruct (Ascii.eqb c "-") eqn:E; [|reflexivity]. cbn [andb] in *.
      destruct (startsWithDash (dropTrailingDash (String c' s))) eqn:Es;
        [|reflexivity].
      apply dropTrailingDash_starts_less in Es. now rewrite Es in Hd.
    + destruct (dropTrailingDash (String c' s)) as [|x r] eqn:Er.
      * cbn [endsWithDash].
        destruct (Ascii.eqb c "-") eqn:E; [|reflexivity]. exfalso.
        cbn [andb] in Hd. apply negb_true_iff in Hd.
        assert (Hlast : forall t, dropTrailingDash t = EmptyString ->
                  t = EmptyString \/ t = String "-" EmptyString).
        { intros [|a [|a' t]]; [auto| |discriminate].
          cbn. destruct (Ascii.eqb_spec a "-"); [subst; auto|discriminate]. }
        destruct (Hlast _ Er) as [H|H]; [discriminate|].
        rewrite H in Hd. discriminate.
      * exact H3.
Qed.

Lemma baseSlugOf_shape name :
  everyChar slugChar (baseSlugOf name) = true
  /\ noDoubleDash (baseSlugOf name) = true
  /\ startsWithDash (baseSlugOf name) = false
  /\ endsWithDash (baseSlugOf name) = false.
Proof.
  unfold baseSlugOf.
  destruct (@dropLeadingDash_shape
              (squeezeDashes (dashOthers (toLowerCase name))))
    as [H1 [H2 H3]].
  { apply squeezeDashes_chars, dashOthers_chars. }
  { apply squeezeDashes_single. }
  destruct (dropTrailingDash_shape _ H1 H2) as [H4 [H5 H6]].
  repeat split; auto. now apply dropTrailingDash_start.
Qed.

Lemma decimal_chars n : everyChar slugChar (decimal n) = true.
Proof.
  unfold decimal. induction (Nat.to_uint n); cbn; auto.
Qed.

Lemma candidate_chars base k :
  everyChar slugChar base = true ->
  everyChar slugChar (candidate base k) = true.
Proof.
  intros H. destruct k; [exact H|].
  unfold candidate, suffixed. rewrite !everyChar_app, H, decimal_chars.
  reflexivity.
Qed.

End SlugShape.

(** X22.  The slug the save hook computes is well formed.  The base slug of
    a name holds only lower-case letters, digits and dashes, with no two
    dashes in a row and no dash at either end; and whatever is in the
    collection, the slug the hook stores for a new or renamed organization
    holds only those characters. *)
Theorem hook_slug_is_well_formed
  (orgs : list Organization.doc) (this : Organization.doc) (name : string) :
  (everyChar slugChar (Organization.baseSlugOf name) = true
   /\ noDoubleDash (Organization.baseSlugOf name) = true
   /\ startsWithDash (Organization.baseSlugOf name) = false
   /\ endsWithDash (Organization.baseSlugOf name) = false)
  /\ exists saved,
       Organization.preSave true orgs this = Some saved
       /\ everyChar slugChar (Organization.slug saved) = true.
Proof.
  split; [apply baseSlugOf_shape|].
  destruct (preSave_returns true orgs this) as [saved H].
  exists saved. split; [exact H|].
  destruct (preSave_recomputes orgs this H) as [k [-> _]].
  cbn [Organization.slug Organization.with_slug].
  apply candidate_chars, baseSlugOf_shape.
Qed.

Section Registration.

Lemma user_replace_fresh saved users :
  ~ In (User._id saved) (map User._id users) ->
  User.replace saved users = users.
Proof.
  unfold User.replace.
  induction users as [|x users IH]; cbn [map In]; intros H; [reflexivity|].
  destruct (N.eqb_spec (User._id x) (User._id saved)) as [E|E];
    [exfalso; apply H; now left|].
  f_equal. apply IH. tauto.
Qed.

Lemma user_replace_last saved old users :
  User._id saved = User._id old ->
  ~ In (User._id old) (map User._id users) ->
  User.replace saved (users ++ [old])%list = (users ++ [saved])%list.
Proof.
  intros Hid Hfresh. rewrite <- Hid in Hfresh.
  pose proof (user_replace_fresh saved users Hfresh) as H.
  unfold User.replace in *. rewrite map_app, H. cbn [map].
  now rewrite <- Hid, N.eqb_refl.
Qed.

Lemma find_last_only (f : User.doc -> bool) users x :
  find f users = None -> f x = true ->
  find f (users ++ [x])%list = Some x.
Proof.
  intros Hn Hx. induction users as [|y users IH]; cbn [find app] in *.
  - now rewrite Hx.
  - destruct (f y); [discriminate|]. now apply IH.
Qed.

End Registration.



(** X20.  A registration whose organization name is made of characters
    that [generateSlug] drops fails half way.  The fields pass the
    validators and the user is saved first; the organization, its [slug]
    being empty, is refused, and the answer is the 500 of the route.  The
    user stays in the collection, an active Admin without organization:
    from then on a registration under the same address is refused, whatever
    its other fields, and a login with the right password is answered by
    the 500 of the login route. *)
Theorem failed_registration_burns_the_address
  (isEmail : string -> bool) (normalizeEmail bcryptHash : string -> string)
  (bcryptCompare : string -> string -> bool) (jwtSign : ObjectId -> string)
  (newUserId newOrgId : ObjectId) (now : Date)
  (users : list User.doc) (orgs : list Organization.doc)
  (name email password organizationName : string) :
  isLength 2 100 (trim name) = true ->
  isEmail email = true ->
  minLength 6 password = true ->
  isLength 2 100 (trim organizationName) = true ->
  AuthRoutes.findByEmail users (normalizeEmail email) = None ->
  AuthRoutes.generateSlug (trim organizationName) = "" ->
  ~ In newUserId (map User._id users) ->
  let orphan := AuthRoutes.newUser bcryptHash newUserId now (trim name)
                  (normalizeEmail email) password None Admin in
  let users' := (users ++ [orphan])%list in
  AuthRoutes.register isEmail normalizeEmail bcryptHash jwtSign
    newUserId newOrgId now users orgs
    (Some name) (Some email) (Some password) (Some organizationName)
  = (Response 500 (PMessage "Server error during registration"), users', orgs)
  /\ (forall id2 org2 now2 orgs2 name2 password2 organizationName2,
        let again :=
          AuthRoutes.register isEmail normalizeEmail bcryptHash jwtSign
            id2 org2 now2 users' orgs2
            name2 (Some email) password2 organizationName2 in
        again = (Response 400 PErrors, users', orgs2)
        \/ again = (Response 400 (PMessage "User already exists"),
                    users', orgs2))
  /\ (forall now2 orgs2,
        bcryptCompare password (bcryptHash password) = true ->
        AuthRoutes.login isEmail normalizeEmail bcryptCompare jwtSign
          now2 users' orgs2 (Some email) (Some (JStr password))
        = (Response 500 (PMessage "Server error during login"),
           (users
            ++ [User.with_updatedAt now2
                  (User.with_lastLogin now2 orphan)])%list)).
Proof.
  intros Hn He Hp Ho Hf Hs Hfresh orphan users'.
  assert (Hfound : AuthRoutes.findByEmail users' (normalizeEmail email)
                   = Some orphan).
  { unfold AuthRoutes.findByEmail, users'. apply find_last_only; [exact Hf|].
    apply String.eqb_refl. }
  split; [|split].
  - unfold AuthRoutes.register. cbn [AuthRoutes.text].
    rewrite Hn, He, Hp, Ho. cbn [andb negb]. rewrite Hf.
    cbn [Organization.slug]. rewrite Hs. reflexivity.
  - intros id2 org2 now2 orgs2 name2 password2 organizationName2 again.
    subst again. unfold AuthRoutes.register.
    destruct (negb _); [now left|right].
    cbn [AuthRoutes.text]. now rewrite Hfound.
  - intros now2 orgs2 Hc. unfold AuthRoutes.login.
    cbn [AuthRoutes.text isSome]. rewrite He. cbn [andb negb].
    assert (Hfind : find (fun u => (User.email u
                                    =? AuthRoutes.emailSetter
                                         (normalizeEmail email))
                                   && User.isActive u)%bool users'
                    = Some orphan).
    { unfold users'. apply find_last_only.
      - apply find_none_iff. intros x Hx.
        unfold AuthRoutes.findByEmail in Hf.
        rewrite (proj1 (find_none_iff _ _) Hf x Hx). reflexivity.
      - cbn [orphan AuthRoutes.newUser User.email User.isActive].
        now rewrite String.eqb_refl. }
    rewrite Hfind. unfold AuthRoutes.comparePassword. cbv zeta.
    cbn [jtext].
    replace (User.password orphan) with (bcryptHash password) by reflexivity.
    rewrite Hc.
    replace (AuthRoutes.stampLogin now2 orphan)
      with (User.with_updatedAt now2 (User.with_lastLogin now2 orphan))
      by reflexivity.
    replace (User.organization
               (User.with_updatedAt now2 (User.with_lastLogin now2 orphan)))
      with (@None ObjectId) by reflexivity.
    cbn [AuthRoutes.findOrganization].
    unfold AuthRoutes.loginError, users'. f_equal.
    apply user_replace_last; [reflexivity|exact Hfresh].
Qed.

Lemma failed_registration_burns_the_address_witness :
  AuthRoutes.register Sample.isEmail Sample.normalizeEmail Sample.bcryptHash
    Sample.jwtSign 30 3 500 Sample.users Sample.orgs
    (Some "Zoe") (Some "zoe@x.io") (Some "secret9") (Some "!?!")
  = (Response 500 (PMessage "Server error during registration"),
     (Sample.users
      ++ [AuthRoutes.newUser Sample.bcryptHash 30 500 "Zoe" "zoe@x.io"
            "secret9" None Admin])%list,
     Sample.orgs).
Proof.
  destruct (@failed_registration_burns_the_address
              Sample.isEmail Sample.normalizeEmail Sample.bcryptHash
              Sample.bcryptCompare Sample.jwtSign 30%N 3%N 500
              Sample.users Sample.orgs "Zoe" "zoe@x.io" "secret9" "!?!"
              eq_refl eq_refl eq_refl eq_refl eq_refl eq_refl
              ltac:(simpl; intuition discriminate)) as [H _].
  exact H.
Defined.

Section Sessions.

Lemma stampLogin_cases now a :
  AuthRoutes.stampLogin now a = a
  \/ (same_but_login_dates a (AuthRoutes.stampLogin now a)
      /\ User.lastLogin (AuthRoutes.stampLogin now a) = Some now
      /\ User.updatedAt (AuthRoutes.stampLogin now a) = now).
Proof.
  unfold AuthRoutes.stampLogin, User.timestamps, same_but_login_dates.
  destruct (User.lastLogin a) as [d|] eqn:E; cbn [option_eqb negb].
  - destruct (Z.eqb_spec d now) as [->|_]; cbn [negb].
    + left. destruct a; cbn in *. now subst.
    + right. cbn. tauto.
  - right. cbn. tauto.
Qed.

Lemma stampLogin_id now a : User._id (AuthRoutes.stampLogin now a) = User._id a.
Proof.
  unfold AuthRoutes.stampLogin, User.timestamps. now destruct (negb _).
Qed.

Lemma stampLogin_organization now a :
  User.organization (AuthRoutes.stampLogin now a) = User.organization a.
Proof.
  unfold AuthRoutes.stampLogin, User.timestamps. now destruct (negb _).
Qed.

Lemma user_replace_stampLogin now u users :
  In u users -> NoDup (map User._id users) ->
  Forall2 (fun a a' => a' = a \/ a' = AuthRoutes.stampLogin now a)
    users (User.replace (AuthRoutes.stampLogin now u) users).
Proof.
  intros Hin Hnd. unfold User.replace.
  assert (G : forall l, (forall x, In x l -> In x users) ->
            Forall2 (fun a a' => a' = a \/ a' = AuthRoutes.stampLogin now a) l
              (map (fun v => if N.eqb (User._id v)
                                  (User._id (AuthRoutes.stampLogin now u))
                             then AuthRoutes.stampLogin now u else v) l)).
  { induction l as [|x l IH]; intros Hl; cbn [map]; constructor.
    - rewrite stampLogin_id.
      destruct (N.eqb_spec (User._id x) (User._id u)) as [E|E]; [|now left].
      right. f_equal. symmetry.
      apply (@NoDup_map_eq _ _ User._id users x u Hnd); auto.
      apply Hl. now left.
    - apply IH. intros y Hy. apply Hl. now right. }
  apply G. auto.
Qed.

End Sessions.

(** X21.  A login is answered 200 only for an active user of the address
    whose stored password the given one, a string, matches; the session
    then names that user and the user's organization, and the token is
    signed for the user's id.  And whatever the answer, the users stored
    afterwards are those stored before, except that the user who logged in
    has the instant of the login as [lastLogin] and as [updatedAt].  (Ids
    are unique.) *)
Theorem login_needs_the_password_of_an_active_user
  (isEmail : string -> bool) (normalizeEmail : string -> string)
  (bcryptCompare : string -> string -> bool) (jwtSign : ObjectId -> string)
  (now : Date) (users : list User.doc) (orgs : list Organization.doc)
  (email : option string) (password : option jvalue) :
  NoDup (map User._id users) ->
  (forall s users',
      AuthRoutes.login isEmail normalizeEmail bcryptCompare jwtSign
        now users orgs email password
      = (Response 200 (PData s), users') ->
      exists u org p,
        password = Some p /\ p <> JNull
        /\ In u users /\ User.isActive u = true
        /\ User.email u
           = AuthRoutes.emailSetter (normalizeEmail (AuthRoutes.text email))
        /\ bcryptCompare (jtext p) (User.password u) = true
        /\ In org orgs
        /\ User.organization u = Some (Organization._id org)
        /\ AuthRoutes.user_id s = User._id u
        /\ AuthRoutes.token s = jwtSign (User._id u)
        /\ AuthRoutes.organization_id s = Organization._id org
        /\ users' = User.replace (AuthRoutes.stampLogin now u) users)
  /\ Forall2 (fun a a' =>
                a' = a
                \/ (same_but_login_dates a a'
                    /\ User.lastLogin a' = Some now
                    /\ User.updatedAt a' = now))
       users
       (snd (AuthRoutes.login isEmail normalizeEmail bcryptCompare jwtSign
               now users orgs email password)).
Proof.
  intros Hnd.
  assert (Hsame : Forall2 (fun a a' : User.doc =>
                             a' = a
                             \/ (same_but_login_dates a a'
                                 /\ User.lastLogin a' = Some now
                                 /\ User.updatedAt a' = now))
                    users users).
  { clear Hnd. induction users; constructor; auto. }
  unfold AuthRoutes.login.
  destruct (negb (isEmail (AuthRoutes.text email) && isSome password)%bool);
    [split; [intros s users' [=]|exact Hsame]|].
  cbv zeta.
  destruct (find _ users) as [u|] eqn:Ef;
    [|split; [intros s users' [=]|exact Hsame]].
  apply find_some in Ef. destruct Ef as [Hin Hu].
  apply andb_true_iff in Hu. destruct Hu as [Hmail Hact].
  apply String.eqb_eq in Hmail.
  destruct password as [p|]; [|split; [intros s users' [=]|exact Hsame]].
  destruct (AuthRoutes.comparePassword bcryptCompare u p) as [[|]|] eqn:Hc;
    [|split; [intros s users' [=]|exact Hsame]
     |split; [intros s users' [=]|exact Hsame]].
  assert (Hp : p <> JNull /\ bcryptCompare (jtext p) (User.password u) = true).
  { unfold AuthRoutes.comparePassword in Hc.
    destruct p; [discriminate| | | |]; injection Hc as Hc;
      (split; [discriminate|exact Hc]). }
  rewrite stampLogin_organization.
  assert (Hrep : Forall2 (fun a a' : User.doc =>
                            a' = a
                            \/ (same_but_login_dates a a'
                                /\ User.lastLogin a' = Some now
                                /\ User.updatedAt a' = now))
                   users (User.replace (AuthRoutes.stampLogin now u) users)).
  { eapply Forall2_impl; [|exact (@user_replace_stampLogin now u users Hin Hnd)].
    cbn beta. intros a a' [ -> | -> ]; [now left|].
    destruct (stampLogin_cases now a) as [E|E]; [left; exact E|right; exact E]. }
  destruct (AuthRoutes.findOrganization orgs (User.organization u))
    as [org|] eqn:Eo; [|split; [intros s users' [=]|exact Hrep]].
  split; [|exact Hrep].
  intros s users' [= <- <-]. exists u, org, p.
  unfold AuthRoutes.findOrganization in Eo.
  destruct (User.organization u) as [i|] eqn:Ei; [|discriminate].
  apply find_some in Eo. destruct Eo as [Hoin Hoid].
  apply N.eqb_eq in Hoid. subst i.
  destruct Hp as [Hp1 Hp2].
  cbn [AuthRoutes.session AuthRoutes.user_id AuthRoutes.token
       AuthRoutes.organization_id].
  rewrite stampLogin_id. repeat split; auto.
Qed.

Lemma login_needs_the_password_of_an_active_user_witness :
  Forall2 (fun a a' =>
             a' = a
             \/ (same_but_login_dates a a'
                 /\ User.lastLogin a' = Some 700
                 /\ User.updatedAt a' = 700))
    Sample.staff
    (snd (AuthRoutes.login Sample.isEmail Sample.normalizeEmail
            Sample.bcryptCompare Sample.jwtSign 700 Sample.staff Sample.orgs
            (Some "dora@x.io") (Some (JStr "secret3")))).
Proof.
  assert (Hnd : NoDup (map User._id Sample.staff))
    by (repeat constructor; simpl; intuition discriminate).
  exact (proj2 (@login_needs_the_password_of_an_active_user
                  Sample.isEmail Sample.normalizeEmail Sample.bcryptCompare
                  Sample.jwtSign 700 Sample.staff Sample.orgs
                  (Some "dora@x.io") (Some (JStr "secret3")) Hnd)).
Defined.

Section OwnOrganization.

Lemma describe_keeps v o :
  Organization._id (OrganizationRoutes.describe v o) = Organization._id o
  /\ Organization.createdBy (OrganizationRoutes.describe v o)
     = Organization.createdBy o
  /\ Organization.createdAt (OrganizationRoutes.describe v o)
     = Organization.createdAt o
  /\ Organization.isActive (OrganizationRoutes.describe v o)
     = Organization.isActive o.
Proof. destruct v as [[]|]; cbn; auto. Qed.

Lemma rename_keeps v o :
  Organization._id (OrganizationRoutes.rename v o) = Organization._id o
  /\ Organization.createdBy (OrganizationRoutes.rename v o)
     = Organization.createdBy o
  /\ Organization.createdAt (OrganizationRoutes.rename v o)
     = Organization.createdAt o
  /\ Organization.isActive (OrganizationRoutes.rename v o)
     = Organization.isActive o.
Proof.
  unfold OrganizationRoutes.rename. destruct v as [v|]; [|auto].
  destruct (truthy _); cbn; auto.
Qed.

Lemma org_preSave_keeps m orgs this saved :
  Organization.preSave m orgs this = Some saved ->
  Organization._id saved = Organization._id this
  /\ Organization.name saved = Organization.name this
  /\ Organization.description saved = Organization.description this
  /\ Organization.createdBy saved = Organization.createdBy this
  /\ Organization.createdAt saved = Organization.createdAt this
  /\ Organization.isActive saved = Organization.isActive this.
Proof.
  unfold Organization.preSave. destruct m; [|intros [= <-]; auto 7].
  destruct (Organization.freeSlug _ _ _ _ _ _); [|discriminate].
  intros [= <-]. cbn. auto 7.
Qed.

End OwnOrganization.

(** X23.  The organization routes reach the organization of the caller and
    no other.  The read answers 200 only with the stored organization whose
    id is the caller's; an update of the settings leaves every other
    organization as it was, is refused to all but Admins, and keeps the id,
    creator, creation date and activity of the organization it writes.
    (Ids are unique.) *)
Theorem organization_routes_reach_own_organization
  (orgs : list Organization.doc) (user : Actor) (b : body) :
  NoDup (map Organization._id orgs) ->
  (forall org,
      OrganizationRoutes.getOrganization orgs user = Response 200 (PData org) ->
      In org orgs /\ actor_organization user = Some (Organization._id org))
  /\ Forall2 (fun a a' =>
                a' = a
                \/ (actor_organization user = Some (Organization._id a)
                    /\ actor_role user = Admin
                    /\ Organization._id a' = Organization._id a
                    /\ Organization.createdBy a' = Organization.createdBy a
                    /\ Organization.createdAt a' = Organization.createdAt a
                    /\ Organization.isActive a' = Organization.isActive a))
       orgs (snd (OrganizationRoutes.updateSettings orgs user b)).
Proof.
  intros Hnd.
  assert (Hsame : forall (R : Organization.doc -> Organization.doc -> Prop) l,
            (forall a, R a a) -> Forall2 R l l).
  { intros R l HR. induction l; constructor; auto. }
  split.
  - intros org. unfold OrganizationRoutes.getOrganization, Tenant.tenantIsolation.
    destruct (actor_organization user) as [o|]; [|discriminate].
    destruct (find _ orgs) as [d|] eqn:Ef; [|discriminate].
    intros [= <-]. apply find_some in Ef. destruct Ef as [Hin Hid].
    apply N.eqb_eq in Hid. subst o. auto.
  - unfold OrganizationRoutes.updateSettings, Tenant.tenantIsolation.
    destruct (actor_organization user) as [o|];
      [|apply Hsame; now left].
    unfold AuthMiddleware.authorize. cbn [existsb orb].
    destruct (actor_role user) eqn:Hrole; cbn [Role_eqb orb negb];
      try (apply Hsame; now left).
    destruct (negb (optional "name" _ b && optional "description" _ b)%bool);
      [apply Hsame; now left|].
    destruct (find _ orgs) as [old|] eqn:Ef; [|apply Hsame; now left].
    apply find_some in Ef. destruct Ef as [Hin Hid].
    apply N.eqb_eq in Hid. subst o. cbv zeta.
    destruct (Organization.preSave _ orgs _) as [saved|] eqn:Es;
      [|apply Hsame; now left].
    apply org_preSave_keeps in Es.
    destruct Es as [S1 [_ [_ [S2 [S3 S4]]]]].
    destruct (describe_keeps (lookup "description" b)
                (OrganizationRoutes.rename (lookup "name" b) old))
      as [D1 [D2 [D3 D4]]].
    destruct (rename_keeps (lookup "name" b) old) as [R1 [R2 [R3 R4]]].
    cbn [snd]. unfold Organization.replace.
    assert (G : forall l, (forall x, In x l -> In x orgs) ->
              Forall2 (fun a a' =>
                a' = a
                \/ (Some (Organization._id old) = Some (Organization._id a)
                    /\ Admin = Admin
                    /\ Organization._id a' = Organization._id a
                    /\ Organization.createdBy a' = Organization.createdBy a
                    /\ Organization.createdAt a' = Organization.createdAt a
                    /\ Organization.isActive a' = Organization.isActive a))
                l (map (fun d => if N.eqb (Organization._id d)
                                      (Organization._id saved)
                                 then saved else d) l)).
    { induction l as [|x l IH]; intros Hl; cbn [map]; constructor.
      - destruct (N.eqb_spec (Organization._id x) (Organization._id saved))
          as [E|E]; [|now left].
        right.
        assert (x = old).
        { apply (@NoDup_map_eq _ _ Organization._id orgs x old Hnd);
            [apply Hl; now left|exact Hin|congruence]. }
        subst x. repeat split; congruence.
      - apply IH. intros y Hy. apply Hl. now right. }
    apply G. auto.
Qed.

Lemma organization_routes_reach_own_organization_witness :
  Forall2 (fun a a' =>
             a' = a
             \/ (Some 1%N = Some (Organization._id a)
                 /\ Admin = Admin
                 /\ Organization._id a' = Organization._id a
                 /\ Organization.createdBy a' = Organization.createdBy a
                 /\ Organization.createdAt a' = Organization.createdAt a
                 /\ Organization.isActive a' = Organization.isActive a))
    Sample.orgs
    (snd (OrganizationRoutes.updateSettings Sample.orgs Sample.admin1
            [("name", JStr "Globex")])).
Proof.
  assert (Hnd : NoDup (map Organization._id Sample.orgs))
    by (repeat constructor; simpl; intuition discriminate).
  exact (proj2 (@organization_routes_reach_own_organization
                  Sample.orgs Sample.admin1 [("name", JStr "Globex")] Hnd)).
Defined.

(** X24.  The key [_id] of a body redirects the write of an update.  The
    Admin of organization 1 updates task 7, a task of organization 1, with
    a body that gives under [_id] the id of task 8, a task of
    organization 2, and a new title.  The answer is 200; task 7 is stored
    as it was; task 8 is stored with the new title and with the instant of
    the request as [updatedAt], and otherwise as it was. *)
Theorem update_with_id_key_writes_another_task :
  Task.organization Sample.task7 = 1%N
  /\ Task.organization Sample.task8 = 2%N
  /\ TaskRoutes.updateTask 5000 [] Sample.tasks Sample.admin1 (Some 7%N)
       [("_id", JId "000000000000000000000008" 8);
        ("title", JStr "Taken over")]
     = (Response 200
          (PData (TaskRoutes.DTask
                    (Task.with_updatedAt (Some 5000)
                       (Task.with_title "Taken over"
                          (Task.with_id 8 Sample.task7))))),
        [Sample.task7;
         Task.with_updatedAt (Some 5000)
           (Task.with_title "Taken over" Sample.task8);
         Sample.task9]).
Proof. repeat split. Qed.
